(** * A shallow embedding of the Prosilica areaDetector driver

    This development models [prosilicaApp/src/prosilica.cpp], the EPICS
    areaDetector driver for Prosilica (AVT) cameras, and proves properties
    of its connection, acquisition and frame-decoding code.

    Conventions.
    - C integers are [Z]; 32-bit wrap-around is written with [int32] and
      [uint32] where the source computes on them.
    - [double] values are Rocq's primitive binary64 floats.
    - The driver object is the record [Driver]; every member function is a
      function from [Driver] to [Driver] (with a status where the source
      returns one).
    - Everything outside the driver (the vendor's PvAPI library, the asyn
      parameter library's clients, the NDArray pool, the EPICS clock) is a
      collaborator: what it answers comes from a [World] record, and what
      the driver asks of it is appended to the driver's [log].
    - A step that dereferences a null pointer or indexes a table out of
      bounds yields [Fault]. *)

From Stdlib Require Import ZArith Ascii String List Bool Lia.
From Stdlib Require Import Floats.PrimFloat Numbers.Cyclic.Int63.Uint63.
From stdpp Require Import base option list gmap strings pretty.

Local Open Scope string_scope.
Local Open Scope list_scope.
Local Open Scope Z_scope.

(** ** Machine integers and doubles *)

(** Value of a C [int] (or [epicsInt32]) after wrap-around. *)
Definition int32 (z : Z) : Z := (z + 2147483648) mod 4294967296 - 2147483648.

(** Value of a [tPvUint32] or [unsigned] after wrap-around. *)
Definition uint32 (z : Z) : Z := z mod 4294967296.

Definition INT_MAX : Z := 2147483647.
Definition INT_MIN : Z := -2147483648.

(** [(double) z] for an integer [z] with [|z| < 2^63]. *)
Definition double_of_Z (z : Z) : float :=
  if z <? 0 then PrimFloat.opp (PrimFloat.of_uint63 (Uint63.of_Z (- z)))
  else PrimFloat.of_uint63 (Uint63.of_Z z).

(** [status |= s] *)
Definition or_status (status s : Z) : Z := Z.lor status s.

(** ** Constants of the headers the driver includes

    [PvApi.h] (vendor SDK), [asynDriver.h], [asynPortDriver.h] (asyn) and
    [ADDriver.h], [NDArray.h] (areaDetector) are not part of this
    repository.  The enumerators the driver names are given here with the
    values those headers declare. *)

Module PvApi.
(** [tPvErr] *)
Definition ePvErrSuccess : Z := 0.
Definition ePvErrNotFound : Z := 6.
Definition ePvErrUnplugged : Z := 8.
Definition ePvErrCancelled : Z := 14.
Definition ePvErrDataMissing : Z := 16.
(** [tPvAccessFlags] *)
Definition ePvAccessMonitor : Z := 2.
Definition ePvAccessMaster : Z := 4.
(** [tPvImageFormat] *)
Definition ePvFmtMono8 : Z := 0.
Definition ePvFmtMono16 : Z := 1.
Definition ePvFmtBayer8 : Z := 2.
Definition ePvFmtBayer16 : Z := 3.
Definition ePvFmtRgb24 : Z := 4.
Definition ePvFmtRgb48 : Z := 5.
Definition ePvFmtYuv411 : Z := 6.
(** [tPvBayerPattern]; the type is unsigned. *)
Definition ePvBayerRGGB : Z := 0.
Definition ePvBayerGBRG : Z := 1.
Definition ePvBayerGRBG : Z := 2.
Definition ePvBayerBGGR : Z := 3.
End PvApi.
Export PvApi.

Module Asyn.
(** [asynStatus] *)
Definition asynSuccess : Z := 0.
Definition asynError : Z := 3.
(** [asynPortDriver.h]: reading a parameter that was never written. *)
Definition asynParamUndefined : Z := 10.
(** [asynTrace] masks used by [asynPrint]. *)
Inductive TraceMask := ASYN_TRACE_ERROR | ASYN_TRACE_FLOW | ASYN_TRACEIO_DRIVER.
End Asyn.
Export Asyn.

Module AD.
(** [ADImageMode_t] *)
Definition ADImageSingle : Z := 0.
Definition ADImageMultiple : Z := 1.
Definition ADImageContinuous : Z := 2.
(** [ADStatus_t] *)
Definition ADStatusIdle : Z := 0.
Definition ADStatusAcquire : Z := 1.
(** [NDDataType_t] *)
Definition NDInt8 : Z := 0.
Definition NDUInt8 : Z := 1.
Definition NDUInt16 : Z := 3.
(** [NDColorMode_t] *)
Definition NDColorModeMono : Z := 0.
Definition NDColorModeBayer : Z := 1.
Definition NDColorModeRGB1 : Z := 2.
Definition NDColorModeRGB2 : Z := 3.
Definition NDColorModeRGB3 : Z := 4.
(** [ND_ARRAY_MAX_DIMS] *)
Definition ND_ARRAY_MAX_DIMS : nat := 10.
End AD.
Export AD.

(** ** Constants and enumerations of [prosilica.cpp] *)

Definition MAX_PVAPI_FRAMES : Z := 2.
Definition MAX_PACKET_SIZE : Z := 8228.
Definition CONNECT_RETRY_COUNT : Z := 30.
Definition CONNECT_RETRY_INTERVAL : Z := 1.

Definition DRIVER_VERSION : Z := 2.
Definition DRIVER_REVISION : Z := 5.
Definition DRIVER_MODIFICATION : Z := 0.

(** [PSTimestampType_t] *)
Definition PSTimestampTypeNativeTicks : Z := 0.
Definition PSTimestampTypeNativeSeconds : Z := 1.
Definition PSTimestampTypePOSIX : Z := 2.
Definition PSTimestampTypeEPICS : Z := 3.
Definition PSTimestampTypeIOC : Z := 4.

(** [PSBayerConvert_t] *)
Definition PSBayerConvertNone : Z := 0.
Definition PSBayerConvertRGB1 : Z := 1.
Definition PSBayerConvertRGB2 : Z := 2.
Definition PSBayerConvertRGB3 : Z := 3.

Definition PSTriggerStartModes : list string :=
  ["Freerun"; "SyncIn1"; "SyncIn2"; "SyncIn3"; "SyncIn4"; "FixedRate"; "Software"].
Definition PSTriggerEventModes : list string :=
  ["EdgeRising"; "EdgeFalling"; "EdgeAny"; "LevelHigh"; "LevelLow"].
Definition PSTriggerOverlapModes : list string := ["Off"; "PreviousFrame"].
Definition PSSyncOutModes : list string :=
  ["GPO"; "AcquisitionTriggerReady"; "FrameTriggerReady"; "FrameTrigger";
   "Exposing"; "FrameReadout"; "Imaging"; "Acquiring";
   "SyncIn1"; "SyncIn2"; "SyncIn3"; "SyncIn4";
   "Strobe1"; "Strobe2"; "Strobe3"; "Strobe4"].
Definition PSStrobeModes : list string :=
  ["AcquisitionTriggerReady"; "FrameTriggerReady"; "FrameTrigger"; "Exposing";
   "FrameReadout"; "Acquiring"; "SyncIn1"; "SyncIn2"; "SyncIn3"; "SyncIn4"].
Definition PSExposureModes : list string := ["Manual"; "AutoOnce"; "Auto"; "External"].
Definition PSGainModes : list string := ["Manual"; "AutoOnce"; "Auto"].

Definition NUM_TRIGGER_START_MODES : Z := Z.of_nat (length PSTriggerStartModes).
Definition NUM_TRIGGER_EVENT_MODES : Z := Z.of_nat (length PSTriggerEventModes).
Definition NUM_TRIGGER_OVERLAP_MODES : Z := Z.of_nat (length PSTriggerOverlapModes).
Definition NUM_SYNC_OUT_MODES : Z := Z.of_nat (length PSSyncOutModes).
Definition NUM_STROBE_MODES : Z := Z.of_nat (length PSStrobeModes).
Definition NUM_EXPOSURE_MODES : Z := Z.of_nat (length PSExposureModes).
Definition NUM_GAIN_MODES : Z := Z.of_nat (length PSGainModes).

(** ** Parameters of the parameter library

    The parameters the driver reads or writes.  Those above
    [BaseClassParam] are created by the base classes ([ADDriver],
    [asynNDArrayDriver]); [BaseClassParam] stands for the base-class
    parameters the driver never names; those from [PSReadStatistics] on
    are created by the driver's constructor, in this order. *)

Inductive Param : Type :=
  | ADBinX | ADBinY | ADMinX | ADMinY
  | ADSizeX | ADSizeY | ADMaxSizeX | ADMaxSizeY
  | NDArraySizeX | NDArraySizeY | NDArraySize | NDDataType
  | NDColorMode | ADNumImages | ADImageMode | ADTriggerMode
  | ADNumExposures | ADAcquireTime | ADAcquirePeriod | ADGain
  | ADAcquire | ADStatus | NDArrayCounter | NDArrayCallbacks
  | ADManufacturer | ADModel | ADSerialNumber | ADFirmwareVersion
  | ADSDKVersion | NDDriverVersion
  | BaseClassParam (name : string)
  | PSReadStatistics | PSBayerConvert | PSGainMode | PSExposureMode
  | PSDriverType | PSFilterVersion | PSTimestampType | PSResetTimer
  | PSFrameRate | PSByteRate | PSPacketSize | PSFramesCompleted
  | PSFramesDropped | PSPacketsErroneous | PSPacketsMissed | PSPacketsReceived
  | PSPacketsRequested | PSPacketsResent | PSBadFrameCounter | PSTriggerDelay
  | PSTriggerEvent | PSTriggerOverlap | PSTriggerSoftware | PSSyncIn1Level
  | PSSyncIn2Level | PSSyncOut1Mode | PSSyncOut1Level | PSSyncOut1Invert
  | PSSyncOut2Mode | PSSyncOut2Level | PSSyncOut2Invert | PSSyncOut3Mode
  | PSSyncOut3Level | PSSyncOut3Invert | PSStrobe1Mode | PSStrobe1Delay
  | PSStrobe1CtlDuration | PSStrobe1Duration.

(** [function < FIRST_PS_PARAM]: the parameter belongs to a base class. *)
Definition below_FIRST_PS_PARAM (p : Param) : bool :=
  match p with
  | PSReadStatistics | PSBayerConvert | PSGainMode | PSExposureMode
  | PSDriverType | PSFilterVersion | PSTimestampType | PSResetTimer
  | PSFrameRate | PSByteRate | PSPacketSize | PSFramesCompleted
  | PSFramesDropped | PSPacketsErroneous | PSPacketsMissed | PSPacketsReceived
  | PSPacketsRequested | PSPacketsResent | PSBadFrameCounter | PSTriggerDelay
  | PSTriggerEvent | PSTriggerOverlap | PSTriggerSoftware | PSSyncIn1Level
  | PSSyncIn2Level | PSSyncOut1Mode | PSSyncOut1Level | PSSyncOut1Invert
  | PSSyncOut2Mode | PSSyncOut2Level | PSSyncOut2Invert | PSSyncOut3Mode
  | PSSyncOut3Level | PSSyncOut3Invert | PSStrobe1Mode | PSStrobe1Delay
  | PSStrobe1CtlDuration | PSStrobe1Duration => false
  | _ => true
  end.

(** Parameters are keys of finite maps: they are countable through a
    numbering of the named ones. *)

Definition param_encode (p : Param) : nat + string :=
  match p with
  | ADBinX => inl 0%nat | ADBinY => inl 1%nat | ADMinX => inl 2%nat
  | ADMinY => inl 3%nat | ADSizeX => inl 4%nat | ADSizeY => inl 5%nat
  | ADMaxSizeX => inl 6%nat | ADMaxSizeY => inl 7%nat | NDArraySizeX => inl 8%nat
  | NDArraySizeY => inl 9%nat | NDArraySize => inl 10%nat | NDDataType => inl 11%nat
  | NDColorMode => inl 12%nat | ADNumImages => inl 13%nat | ADImageMode => inl 14%nat
  | ADTriggerMode => inl 15%nat | ADNumExposures => inl 16%nat | ADAcquireTime => inl 17%nat
  | ADAcquirePeriod => inl 18%nat | ADGain => inl 19%nat | ADAcquire => inl 20%nat
  | ADStatus => inl 21%nat | NDArrayCounter => inl 22%nat | NDArrayCallbacks => inl 23%nat
  | ADManufacturer => inl 24%nat | ADModel => inl 25%nat | ADSerialNumber => inl 26%nat
  | ADFirmwareVersion => inl 27%nat | ADSDKVersion => inl 28%nat | NDDriverVersion => inl 29%nat
  | PSReadStatistics => inl 30%nat | PSBayerConvert => inl 31%nat | PSGainMode => inl 32%nat
  | PSExposureMode => inl 33%nat | PSDriverType => inl 34%nat | PSFilterVersion => inl 35%nat
  | PSTimestampType => inl 36%nat | PSResetTimer => inl 37%nat | PSFrameRate => inl 38%nat
  | PSByteRate => inl 39%nat | PSPacketSize => inl 40%nat | PSFramesCompleted => inl 41%nat
  | PSFramesDropped => inl 42%nat | PSPacketsErroneous => inl 43%nat | PSPacketsMissed => inl 44%nat
  | PSPacketsReceived => inl 45%nat | PSPacketsRequested => inl 46%nat | PSPacketsResent => inl 47%nat
  | PSBadFrameCounter => inl 48%nat | PSTriggerDelay => inl 49%nat | PSTriggerEvent => inl 50%nat
  | PSTriggerOverlap => inl 51%nat | PSTriggerSoftware => inl 52%nat | PSSyncIn1Level => inl 53%nat
  | PSSyncIn2Level => inl 54%nat | PSSyncOut1Mode => inl 55%nat | PSSyncOut1Level => inl 56%nat
  | PSSyncOut1Invert => inl 57%nat | PSSyncOut2Mode => inl 58%nat | PSSyncOut2Level => inl 59%nat
  | PSSyncOut2Invert => inl 60%nat | PSSyncOut3Mode => inl 61%nat | PSSyncOut3Level => inl 62%nat
  | PSSyncOut3Invert => inl 63%nat | PSStrobe1Mode => inl 64%nat | PSStrobe1Delay => inl 65%nat
  | PSStrobe1CtlDuration => inl 66%nat | PSStrobe1Duration => inl 67%nat
  | BaseClassParam s => inr s
  end.

Definition param_decode (c : nat + string) : Param :=
  match c with
  | inr s => BaseClassParam s
  | inl 0%nat => ADBinX | inl 1%nat => ADBinY | inl 2%nat => ADMinX
  | inl 3%nat => ADMinY | inl 4%nat => ADSizeX | inl 5%nat => ADSizeY
  | inl 6%nat => ADMaxSizeX | inl 7%nat => ADMaxSizeY | inl 8%nat => NDArraySizeX
  | inl 9%nat => NDArraySizeY | inl 10%nat => NDArraySize | inl 11%nat => NDDataType
  | inl 12%nat => NDColorMode | inl 13%nat => ADNumImages | inl 14%nat => ADImageMode
  | inl 15%nat => ADTriggerMode | inl 16%nat => ADNumExposures | inl 17%nat => ADAcquireTime
  | inl 18%nat => ADAcquirePeriod | inl 19%nat => ADGain | inl 20%nat => ADAcquire
  | inl 21%nat => ADStatus | inl 22%nat => NDArrayCounter | inl 23%nat => NDArrayCallbacks
  | inl 24%nat => ADManufacturer | inl 25%nat => ADModel | inl 26%nat => ADSerialNumber
  | inl 27%nat => ADFirmwareVersion | inl 28%nat => ADSDKVersion | inl 29%nat => NDDriverVersion
  | inl 30%nat => PSReadStatistics | inl 31%nat => PSBayerConvert | inl 32%nat => PSGainMode
  | inl 33%nat => PSExposureMode | inl 34%nat => PSDriverType | inl 35%nat => PSFilterVersion
  | inl 36%nat => PSTimestampType | inl 37%nat => PSResetTimer | inl 38%nat => PSFrameRate
  | inl 39%nat => PSByteRate | inl 40%nat => PSPacketSize | inl 41%nat => PSFramesCompleted
  | inl 42%nat => PSFramesDropped | inl 43%nat => PSPacketsErroneous | inl 44%nat => PSPacketsMissed
  | inl 45%nat => PSPacketsReceived | inl 46%nat => PSPacketsRequested | inl 47%nat => PSPacketsResent
  | inl 48%nat => PSBadFrameCounter | inl 49%nat => PSTriggerDelay | inl 50%nat => PSTriggerEvent
  | inl 51%nat => PSTriggerOverlap | inl 52%nat => PSTriggerSoftware | inl 53%nat => PSSyncIn1Level
  | inl 54%nat => PSSyncIn2Level | inl 55%nat => PSSyncOut1Mode | inl 56%nat => PSSyncOut1Level
  | inl 57%nat => PSSyncOut1Invert | inl 58%nat => PSSyncOut2Mode | inl 59%nat => PSSyncOut2Level
  | inl 60%nat => PSSyncOut2Invert | inl 61%nat => PSSyncOut3Mode | inl 62%nat => PSSyncOut3Level
  | inl 63%nat => PSSyncOut3Invert | inl 64%nat => PSStrobe1Mode | inl 65%nat => PSStrobe1Delay
  | inl 66%nat => PSStrobe1CtlDuration
  | inl _ => PSStrobe1Duration
  end.

Lemma param_decode_encode (p : Param) : param_decode (param_encode p) = p.
Proof. destruct p; reflexivity. Qed.

#[global] Instance Param_eq_dec : EqDecision Param.
Proof.
  intros p q. destruct (decide (param_encode p = param_encode q)) as [E|N].
  - left. rewrite <- (param_decode_encode p), <- (param_decode_encode q).
    now rewrite E.
  - right. intros ->. now apply N.
Defined.

#[global] Instance Param_countable : Countable Param :=
  inj_countable' param_encode param_decode param_decode_encode.

(** ** Data of the collaborators *)

Record epicsTimeStamp := mkEpicsTimeStamp { secPastEpoch : Z; nsec : Z }.
Record timespec := mkTimespec { tv_sec : Z; tv_nsec : Z }.

(** [tPvCameraInfoEx], the fields the driver reads. *)
Record tPvCameraInfoEx := mkCameraInfo {
  UniqueId : Z;
  PermittedAccess : Z;
  ModelName : string;
  SerialNumber : string;
  FirmwareVersion : string
}.

(** [NDDimension_t] *)
Record NDDimension := mkDim { dimSize : Z; dimOffset : Z; dimBinning : Z }.

(** [NDArray], the fields the driver touches.  [nd_alloc] is not a field
    of the C++ class: it is the serial number of the pool allocation that
    handed the array out, and stands for the identity of the buffer held.
    [nd_attributes] is [pAttributeList], keyed by attribute name. *)
Record NDArray := mkNDArray {
  nd_alloc : nat;
  nd_uniqueId : Z;
  nd_epicsTS : epicsTimeStamp;
  nd_timeStamp : float;
  nd_dataType : Z;
  nd_ndims : Z;
  nd_dims : list NDDimension;
  nd_dataSize : Z;
  nd_attributes : gmap string Z
}.

Definition array_with_uniqueId (v : Z) (a : NDArray) : NDArray :=
  mkNDArray (nd_alloc a) v (nd_epicsTS a) (nd_timeStamp a) (nd_dataType a)
    (nd_ndims a) (nd_dims a) (nd_dataSize a) (nd_attributes a).
Definition array_with_epicsTS (v : epicsTimeStamp) (a : NDArray) : NDArray :=
  mkNDArray (nd_alloc a) (nd_uniqueId a) v (nd_timeStamp a) (nd_dataType a)
    (nd_ndims a) (nd_dims a) (nd_dataSize a) (nd_attributes a).
Definition array_with_timeStamp (v : float) (a : NDArray) : NDArray :=
  mkNDArray (nd_alloc a) (nd_uniqueId a) (nd_epicsTS a) v (nd_dataType a)
    (nd_ndims a) (nd_dims a) (nd_dataSize a) (nd_attributes a).
Definition array_with_dataType (v : Z) (a : NDArray) : NDArray :=
  mkNDArray (nd_alloc a) (nd_uniqueId a) (nd_epicsTS a) (nd_timeStamp a) v
    (nd_ndims a) (nd_dims a) (nd_dataSize a) (nd_attributes a).
Definition array_with_ndims (v : Z) (a : NDArray) : NDArray :=
  mkNDArray (nd_alloc a) (nd_uniqueId a) (nd_epicsTS a) (nd_timeStamp a) (nd_dataType a)
    v (nd_dims a) (nd_dataSize a) (nd_attributes a).
Definition array_with_dims (v : list NDDimension) (a : NDArray) : NDArray :=
  mkNDArray (nd_alloc a) (nd_uniqueId a) (nd_epicsTS a) (nd_timeStamp a) (nd_dataType a)
    (nd_ndims a) v (nd_dataSize a) (nd_attributes a).
Definition array_with_attributes (v : gmap string Z) (a : NDArray) : NDArray :=
  mkNDArray (nd_alloc a) (nd_uniqueId a) (nd_epicsTS a) (nd_timeStamp a) (nd_dataType a)
    (nd_ndims a) (nd_dims a) (nd_dataSize a) v.

(** [pImage->dims[i].size = s; .offset = o; .binning = b] *)
Definition set_dim (i : nat) (s o b : Z) (a : NDArray) : NDArray :=
  array_with_dims (<[i := mkDim s o b]> (nd_dims a)) a.

(** [pImage->pAttributeList->add(name, description, NDAttrInt32, &value)]:
    the attribute of that name is created or overwritten. *)
Definition attr_add (name : string) (value : Z) (a : NDArray) : NDArray :=
  array_with_attributes (<[name := value]> (nd_attributes a)) a.

(** [tPvFrame], the transfer descriptor.  [Context1] is [Context[1]], the
    [NDArray] bound to the descriptor ([None] is the null pointer);
    [ImageBuffer] names the allocation whose [pData] the vendor library
    writes into.  [Context[0]] always points at the driver. *)
Record tPvFrame := mkFrame {
  Status : Z;
  Format : Z;
  Width : Z;
  Height : Z;
  RegionX : Z;
  RegionY : Z;
  BayerPattern : Z;
  FrameCount : Z;
  TimestampLo : Z;
  TimestampHi : Z;
  ImageBuffer : option nat;
  ImageBufferSize : Z;
  Context1 : option NDArray
}.

Definition frame_with_BayerPattern (v : Z) (f : tPvFrame) : tPvFrame :=
  mkFrame (Status f) (Format f) (Width f) (Height f) (RegionX f) (RegionY f)
    v (FrameCount f) (TimestampLo f) (TimestampHi f)
    (ImageBuffer f) (ImageBufferSize f) (Context1 f).
Definition frame_with_ImageBuffer (v : option nat) (f : tPvFrame) : tPvFrame :=
  mkFrame (Status f) (Format f) (Width f) (Height f) (RegionX f) (RegionY f)
    (BayerPattern f) (FrameCount f) (TimestampLo f) (TimestampHi f)
    v (ImageBufferSize f) (Context1 f).
Definition frame_with_ImageBufferSize (v : Z) (f : tPvFrame) : tPvFrame :=
  mkFrame (Status f) (Format f) (Width f) (Height f) (RegionX f) (RegionY f)
    (BayerPattern f) (FrameCount f) (TimestampLo f) (TimestampHi f)
    (ImageBuffer f) v (Context1 f).
Definition frame_with_Context1 (v : option NDArray) (f : tPvFrame) : tPvFrame :=
  mkFrame (Status f) (Format f) (Width f) (Height f) (RegionX f) (RegionY f)
    (BayerPattern f) (FrameCount f) (TimestampLo f) (TimestampHi f)
    (ImageBuffer f) (ImageBufferSize f) v.

(** What the [calloc] in the constructor leaves in a descriptor. *)
Definition zeroed_frame : tPvFrame :=
  mkFrame 0 0 0 0 0 0 0 0 0 0 None 0 None.

(** ** Calls on the collaborators

    One constructor per call the driver makes.  [EvPvCommandRun] also
    records the value [framesRemaining] has when the command is issued:
    that is the value the frame-callback thread finds once the camera
    acts on the command. *)
Inductive Event : Type :=
  | EvLock
  | EvUnlock
  | EvAsynPrint (mask : TraceMask) (format : string)
  | EvThreadSleep (seconds : Z)
  | EvPvCameraInfoEx (id : Z)
  | EvHostToIPAddr (name : string)
  | EvPvCameraInfoByAddrEx (addr : Z)
  | EvPvCameraOpen (id : Z)
  | EvPvCameraOpenByAddr (addr : Z)
  | EvPvCaptureAdjustPacketSize (maximum : Z)
  | EvPvCaptureStart
  | EvPvCaptureQueueClear
  | EvPvCaptureEnd
  | EvPvCameraClose
  | EvPvCaptureQueueFrame (slot : nat) (buffer : option nat)
  | EvPvCommandRun (command : string) (framesRemainingNow : Z)
  | EvPvAttrGet (name : string)
  | EvPvAttrUint32Set (name : string) (value : Z)
  | EvPvAttrEnumSet (name value : string)
  | EvPvUtilityColorInterpolate (src dst : nat)
      (greenOffset blueOffset pixelPadding linePadding : Z)
  | EvNDArrayRelease (alloc : nat)
  | EvDoCallbacksGenericPointer (alloc : nat)
  | EvGetAttributes (alloc : nat)
  | EvSetShutter (open : Z)
  | EvCallParamCallbacks
  | EvExceptionConnect
  | EvExceptionDisconnect
  | EvADDriverWriteInt32 (function : Param) (value : Z).

(** What the collaborators answer.  A getter of the vendor library
    answers, for the attribute's name, a status and what it stores in the
    caller's variable, [None] when it leaves the variable as it is.
    [r_PvCameraInfoEx n]
    is the answer to the [n]-th enquiry of one [connectCamera] call
    (counting from 0); [r_NDArrayPool_alloc n] is the array the pool hands
    out at its [n]-th allocation, before [alloc] initialises it, [None]
    when the pool is exhausted.  [indet] gives the content of a local
    variable that the source reads without having initialised it. *)
Record World := mkWorld {
  r_PvCameraInfoEx : nat -> Z -> Z * tPvCameraInfoEx;
  r_hostToIPAddr : string -> Z * Z;
  r_PvCameraInfoByAddrEx : Z -> Z * tPvCameraInfoEx;
  r_PvCameraOpen : Z * option Z;
  r_PvCaptureAdjustPacketSize : Z;
  r_PvCaptureStart : Z;
  r_PvCaptureQueueFrame : nat -> Z;
  r_PvCaptureQueueClear : Z;
  r_PvCaptureEnd : Z;
  r_PvCameraClose : Z;
  r_PvCommandRun : string -> Z;
  r_PvAttrUint32Get : string -> Z * option Z;
  r_PvAttrFloat32Get : string -> Z * option float;
  r_PvAttrEnumGet : string -> Z * option string;
  r_PvAttrStringGet : string -> Z * option string;
  r_PvAttrUint32Set : string -> Z -> Z;
  r_PvAttrEnumSet : string -> string -> Z;
  r_PvVersion : Z * Z;
  r_exceptionConnect : Z;
  r_exceptionDisconnect : Z;
  r_ADDriver_writeInt32 : Param -> Z -> Z;
  r_NDArrayPool_alloc : nat -> option NDArray;
  r_epicsTimeGetCurrent : epicsTimeStamp;
  r_updateTimeStamp : epicsTimeStamp;
  r_epicsTimeAddSeconds : epicsTimeStamp -> float -> epicsTimeStamp;
  r_epicsTimeToTimespec : epicsTimeStamp -> timespec;
  indet : string -> Z;
  indet_buffer : string -> string;
  indet_float : string -> float
}.

(** ** The driver object

    The members of [class prosilica], the file-level flag
    [PvApiInitialized], the parameter library of the base class (one map
    per parameter type), [pArrays[0]], the number of allocations the
    pool has served, and the log of calls made so far, most recent first. *)
Record Driver := mkDriver {
  PvApiInitialized : bool;
  PvHandle : option Z;
  cameraId : string;
  uniqueIP : Z;
  uniqueId : Z;
  PvCameraInfo : tPvCameraInfoEx;
  PvFrames : list tPvFrame;
  maxFrameSize : Z;
  maxPvAPIFrames_ : Z;
  framesRemaining : Z;
  sensorType : string;
  IPAddress : string;
  sensorBits : Z;
  sensorWidth : Z;
  sensorHeight : Z;
  timeStampFrequency : Z;
  lastSyncTime : epicsTimeStamp;
  intParams : gmap Param Z;
  doubleParams : gmap Param float;
  stringParams : gmap Param string;
  pArrays0 : option NDArray;
  poolSerial : nat;
  log : list Event
}.

Definition with_PvHandle (v : option Z) (d : Driver) : Driver :=
  mkDriver (PvApiInitialized d) v (cameraId d) (uniqueIP d) (uniqueId d) (PvCameraInfo
    d) (PvFrames d) (maxFrameSize d) (maxPvAPIFrames_ d) (framesRemaining d) (sensorType
    d) (IPAddress d) (sensorBits d) (sensorWidth d) (sensorHeight d) (timeStampFrequency
    d) (lastSyncTime d) (intParams d) (doubleParams d) (stringParams d) (pArrays0 d)
    (poolSerial d) (log d).
Definition with_uniqueIP (v : Z) (d : Driver) : Driver :=
  mkDriver (PvApiInitialized d) (PvHandle d) (cameraId d) v (uniqueId d) (PvCameraInfo
    d) (PvFrames d) (maxFrameSize d) (maxPvAPIFrames_ d) (framesRemaining d) (sensorType
    d) (IPAddress d) (sensorBits d) (sensorWidth d) (sensorHeight d) (timeStampFrequency
    d) (lastSyncTime d) (intParams d) (doubleParams d) (stringParams d) (pArrays0 d)
    (poolSerial d) (log d).
Definition with_uniqueId (v : Z) (d : Driver) : Driver :=
  mkDriver (PvApiInitialized d) (PvHandle d) (cameraId d) (uniqueIP d) v (PvCameraInfo
    d) (PvFrames d) (maxFrameSize d) (maxPvAPIFrames_ d) (framesRemaining d) (sensorType
    d) (IPAddress d) (sensorBits d) (sensorWidth d) (sensorHeight d) (timeStampFrequency
    d) (lastSyncTime d) (intParams d) (doubleParams d) (stringParams d) (pArrays0 d)
    (poolSerial d) (log d).
Definition with_PvCameraInfo (v : tPvCameraInfoEx) (d : Driver) : Driver :=
  mkDriver (PvApiInitialized d) (PvHandle d) (cameraId d) (uniqueIP d) (uniqueId d) v
    (PvFrames d) (maxFrameSize d) (maxPvAPIFrames_ d) (framesRemaining d) (sensorType d)
    (IPAddress d) (sensorBits d) (sensorWidth d) (sensorHeight d) (timeStampFrequency d)
    (lastSyncTime d) (intParams d) (doubleParams d) (stringParams d) (pArrays0 d)
    (poolSerial d) (log d).
Definition with_PvFrames (v : list tPvFrame) (d : Driver) : Driver :=
  mkDriver (PvApiInitialized d) (PvHandle d) (cameraId d) (uniqueIP d) (uniqueId d)
    (PvCameraInfo d) v (maxFrameSize d) (maxPvAPIFrames_ d) (framesRemaining d)
    (sensorType d) (IPAddress d) (sensorBits d) (sensorWidth d) (sensorHeight d)
    (timeStampFrequency d) (lastSyncTime d) (intParams d) (doubleParams d) (stringParams
    d) (pArrays0 d) (poolSerial d) (log d).
Definition with_maxFrameSize (v : Z) (d : Driver) : Driver :=
  mkDriver (PvApiInitialized d) (PvHandle d) (cameraId d) (uniqueIP d) (uniqueId d)
    (PvCameraInfo d) (PvFrames d) v (maxPvAPIFrames_ d) (framesRemaining d) (sensorType
    d) (IPAddress d) (sensorBits d) (sensorWidth d) (sensorHeight d) (timeStampFrequency
    d) (lastSyncTime d) (intParams d) (doubleParams d) (stringParams d) (pArrays0 d)
    (poolSerial d) (log d).
Definition with_framesRemaining (v : Z) (d : Driver) : Driver :=
  mkDriver (PvApiInitialized d) (PvHandle d) (cameraId d) (uniqueIP d) (uniqueId d)
    (PvCameraInfo d) (PvFrames d) (maxFrameSize d) (maxPvAPIFrames_ d) v (sensorType d)
    (IPAddress d) (sensorBits d) (sensorWidth d) (sensorHeight d) (timeStampFrequency d)
    (lastSyncTime d) (intParams d) (doubleParams d) (stringParams d) (pArrays0 d)
    (poolSerial d) (log d).
Definition with_sensorType (v : string) (d : Driver) : Driver :=
  mkDriver (PvApiInitialized d) (PvHandle d) (cameraId d) (uniqueIP d) (uniqueId d)
    (PvCameraInfo d) (PvFrames d) (maxFrameSize d) (maxPvAPIFrames_ d) (framesRemaining
    d) v (IPAddress d) (sensorBits d) (sensorWidth d) (sensorHeight d)
    (timeStampFrequency d) (lastSyncTime d) (intParams d) (doubleParams d) (stringParams
    d) (pArrays0 d) (poolSerial d) (log d).
Definition with_IPAddress (v : string) (d : Driver) : Driver :=
  mkDriver (PvApiInitialized d) (PvHandle d) (cameraId d) (uniqueIP d) (uniqueId d)
    (PvCameraInfo d) (PvFrames d) (maxFrameSize d) (maxPvAPIFrames_ d) (framesRemaining
    d) (sensorType d) v (sensorBits d) (sensorWidth d) (sensorHeight d)
    (timeStampFrequency d) (lastSyncTime d) (intParams d) (doubleParams d) (stringParams
    d) (pArrays0 d) (poolSerial d) (log d).
Definition with_sensorBits (v : Z) (d : Driver) : Driver :=
  mkDriver (PvApiInitialized d) (PvHandle d) (cameraId d) (uniqueIP d) (uniqueId d)
    (PvCameraInfo d) (PvFrames d) (maxFrameSize d) (maxPvAPIFrames_ d) (framesRemaining
    d) (sensorType d) (IPAddress d) v (sensorWidth d) (sensorHeight d)
    (timeStampFrequency d) (lastSyncTime d) (intParams d) (doubleParams d) (stringParams
    d) (pArrays0 d) (poolSerial d) (log d).
Definition with_sensorWidth (v : Z) (d : Driver) : Driver :=
  mkDriver (PvApiInitialized d) (PvHandle d) (cameraId d) (uniqueIP d) (uniqueId d)
    (PvCameraInfo d) (PvFrames d) (maxFrameSize d) (maxPvAPIFrames_ d) (framesRemaining
    d) (sensorType d) (IPAddress d) (sensorBits d) v (sensorHeight d)
    (timeStampFrequency d) (lastSyncTime d) (intParams d) (doubleParams d) (stringParams
    d) (pArrays0 d) (poolSerial d) (log d).
Definition with_sensorHeight (v : Z) (d : Driver) : Driver :=
  mkDriver (PvApiInitialized d) (PvHandle d) (cameraId d) (uniqueIP d) (uniqueId d)
    (PvCameraInfo d) (PvFrames d) (maxFrameSize d) (maxPvAPIFrames_ d) (framesRemaining
    d) (sensorType d) (IPAddress d) (sensorBits d) (sensorWidth d) v (timeStampFrequency
    d) (lastSyncTime d) (intParams d) (doubleParams d) (stringParams d) (pArrays0 d)
    (poolSerial d) (log d).
Definition with_timeStampFrequency (v : Z) (d : Driver) : Driver :=
  mkDriver (PvApiInitialized d) (PvHandle d) (cameraId d) (uniqueIP d) (uniqueId d)
    (PvCameraInfo d) (PvFrames d) (maxFrameSize d) (maxPvAPIFrames_ d) (framesRemaining
    d) (sensorType d) (IPAddress d) (sensorBits d) (sensorWidth d) (sensorHeight d) v
    (lastSyncTime d) (intParams d) (doubleParams d) (stringParams d) (pArrays0 d)
    (poolSerial d) (log d).
Definition with_lastSyncTime (v : epicsTimeStamp) (d : Driver) : Driver :=
  mkDriver (PvApiInitialized d) (PvHandle d) (cameraId d) (uniqueIP d) (uniqueId d)
    (PvCameraInfo d) (PvFrames d) (maxFrameSize d) (maxPvAPIFrames_ d) (framesRemaining
    d) (sensorType d) (IPAddress d) (sensorBits d) (sensorWidth d) (sensorHeight d)
    (timeStampFrequency d) v (intParams d) (doubleParams d) (stringParams d) (pArrays0
    d) (poolSerial d) (log d).
Definition with_intParams (v : gmap Param Z) (d : Driver) : Driver :=
  mkDriver (PvApiInitialized d) (PvHandle d) (cameraId d) (uniqueIP d) (uniqueId d)
    (PvCameraInfo d) (PvFrames d) (maxFrameSize d) (maxPvAPIFrames_ d) (framesRemaining
    d) (sensorType d) (IPAddress d) (sensorBits d) (sensorWidth d) (sensorHeight d)
    (timeStampFrequency d) (lastSyncTime d) v (doubleParams d) (stringParams d)
    (pArrays0 d) (poolSerial d) (log d).
Definition with_doubleParams (v : gmap Param float) (d : Driver) : Driver :=
  mkDriver (PvApiInitialized d) (PvHandle d) (cameraId d) (uniqueIP d) (uniqueId d)
    (PvCameraInfo d) (PvFrames d) (maxFrameSize d) (maxPvAPIFrames_ d) (framesRemaining
    d) (sensorType d) (IPAddress d) (sensorBits d) (sensorWidth d) (sensorHeight d)
    (timeStampFrequency d) (lastSyncTime d) (intParams d) v (stringParams d) (pArrays0
    d) (poolSerial d) (log d).
Definition with_stringParams (v : gmap Param string) (d : Driver) : Driver :=
  mkDriver (PvApiInitialized d) (PvHandle d) (cameraId d) (uniqueIP d) (uniqueId d)
    (PvCameraInfo d) (PvFrames d) (maxFrameSize d) (maxPvAPIFrames_ d) (framesRemaining
    d) (sensorType d) (IPAddress d) (sensorBits d) (sensorWidth d) (sensorHeight d)
    (timeStampFrequency d) (lastSyncTime d) (intParams d) (doubleParams d) v (pArrays0
    d) (poolSerial d) (log d).
Definition with_pArrays0 (v : option NDArray) (d : Driver) : Driver :=
  mkDriver (PvApiInitialized d) (PvHandle d) (cameraId d) (uniqueIP d) (uniqueId d)
    (PvCameraInfo d) (PvFrames d) (maxFrameSize d) (maxPvAPIFrames_ d) (framesRemaining
    d) (sensorType d) (IPAddress d) (sensorBits d) (sensorWidth d) (sensorHeight d)
    (timeStampFrequency d) (lastSyncTime d) (intParams d) (doubleParams d) (stringParams
    d) v (poolSerial d) (log d).
Definition with_poolSerial (v : nat) (d : Driver) : Driver :=
  mkDriver (PvApiInitialized d) (PvHandle d) (cameraId d) (uniqueIP d) (uniqueId d)
    (PvCameraInfo d) (PvFrames d) (maxFrameSize d) (maxPvAPIFrames_ d) (framesRemaining
    d) (sensorType d) (IPAddress d) (sensorBits d) (sensorWidth d) (sensorHeight d)
    (timeStampFrequency d) (lastSyncTime d) (intParams d) (doubleParams d) (stringParams
    d) (pArrays0 d) v (log d).
Definition with_log (v : list Event) (d : Driver) : Driver :=
  mkDriver (PvApiInitialized d) (PvHandle d) (cameraId d) (uniqueIP d) (uniqueId d)
    (PvCameraInfo d) (PvFrames d) (maxFrameSize d) (maxPvAPIFrames_ d) (framesRemaining
    d) (sensorType d) (IPAddress d) (sensorBits d) (sensorWidth d) (sensorHeight d)
    (timeStampFrequency d) (lastSyncTime d) (intParams d) (doubleParams d) (stringParams
    d) (pArrays0 d) (poolSerial d) v.

(** ** Outcome of a step that may crash *)

Inductive fault := NullDereference | IndexOutOfBounds | DanglingDescriptor.

Inductive run (A : Type) : Type :=
  | Ret (a : A)
  | Fault (f : fault).
Arguments Ret {A} a.
Arguments Fault {A} f.

(** ** Primitive steps *)

Definition emit (e : Event) (d : Driver) : Driver := with_log (e :: log d) d.

Definition lock (d : Driver) : Driver := emit EvLock d.
Definition unlock (d : Driver) : Driver := emit EvUnlock d.
Definition asynPrint (mask : TraceMask) (format : string) (d : Driver) : Driver :=
  emit (EvAsynPrint mask format) d.
Definition callParamCallbacks (d : Driver) : Driver := emit EvCallParamCallbacks d.
Definition setShutter (open : Z) (d : Driver) : Driver := emit (EvSetShutter open) d.

(** [getIntegerParam(p, &var)]: [cur] is what [var] holds before the
    call; an undefined parameter leaves it as it is. *)
Definition getIntegerParam (p : Param) (cur : Z) (d : Driver) : Z * Z :=
  match intParams d !! p with
  | Some v => (asynSuccess, v)
  | None => (asynParamUndefined, cur)
  end.

Definition setIntegerParam (p : Param) (v : Z) (d : Driver) : Z * Driver :=
  (asynSuccess, with_intParams (<[p := v]> (intParams d)) d).
Definition setDoubleParam (p : Param) (v : float) (d : Driver) : Z * Driver :=
  (asynSuccess, with_doubleParams (<[p := v]> (doubleParams d)) d).
Definition setStringParam (p : Param) (v : string) (d : Driver) : Z * Driver :=
  (asynSuccess, with_stringParams (<[p := v]> (stringParams d)) d).

(** [status |= call]: the status of [call] is or-ed into [status]. *)
Definition acc {A : Type} (status : Z) (r : Z * A) : Z * A :=
  (or_status status (fst r), snd r).

(** Calls into the vendor library: the answer comes from the world, the
    call is logged.  [cur] is what the caller's variable holds before. *)
Definition PvAttrUint32Get (w : World) (name : string) (cur : Z) (d : Driver)
  : Z * (Z * Driver) :=
  let r := r_PvAttrUint32Get w name in
  (fst r, (default cur (snd r), emit (EvPvAttrGet name) d)).
Definition PvAttrFloat32Get (w : World) (name : string) (cur : float) (d : Driver)
  : Z * (float * Driver) :=
  let r := r_PvAttrFloat32Get w name in
  (fst r, (default cur (snd r), emit (EvPvAttrGet name) d)).
Definition PvAttrEnumGet (w : World) (name : string) (cur : string) (d : Driver)
  : Z * (string * Driver) :=
  let r := r_PvAttrEnumGet w name in
  (fst r, (default cur (snd r), emit (EvPvAttrGet name) d)).
Definition PvAttrStringGet (w : World) (name : string) (cur : string) (d : Driver)
  : Z * (string * Driver) :=
  let r := r_PvAttrStringGet w name in
  (fst r, (default cur (snd r), emit (EvPvAttrGet name) d)).
Definition PvAttrUint32Set (w : World) (name : string) (v : Z) (d : Driver)
  : Z * Driver :=
  (r_PvAttrUint32Set w name v, emit (EvPvAttrUint32Set name v) d).
Definition PvAttrEnumSet (w : World) (name value : string) (d : Driver)
  : Z * Driver :=
  (r_PvAttrEnumSet w name value, emit (EvPvAttrEnumSet name value) d).
Definition PvCommandRun (w : World) (command : string) (d : Driver) : Z * Driver :=
  (r_PvCommandRun w command, emit (EvPvCommandRun command (framesRemaining d)) d).
Definition PvCaptureQueueFrame (w : World) (slot : nat) (pFrame : tPvFrame) (d : Driver)
  : Z * Driver :=
  (r_PvCaptureQueueFrame w slot, emit (EvPvCaptureQueueFrame slot (ImageBuffer pFrame)) d).

(** [pNDArrayPool->alloc(ndims, dims, dataType, dataSize, NULL)].  The
    pool sets the type, the number of dimensions and, for each dimension
    given, its size with offset 0 and binning 1; the remaining dimensions
    are zeroed.  What the array carried before (unique id, time stamps,
    attributes) stays. *)
Definition alloc_dims (ndims : Z) (dims : list Z) : list NDDimension :=
  let given := take (Z.to_nat ndims) dims in
  map (fun s => mkDim s 0 1) given
    ++ replicate (ND_ARRAY_MAX_DIMS - length given) (mkDim 0 0 0).

Definition NDArrayPool_alloc (w : World) (ndims : Z) (dims : list Z)
    (dataType dataSize : Z) (d : Driver) : option NDArray * Driver :=
  let n := poolSerial d in
  let d := with_poolSerial (S n) d in
  match r_NDArrayPool_alloc w n with
  | Some raw =>
      (Some (mkNDArray n (nd_uniqueId raw) (nd_epicsTS raw) (nd_timeStamp raw)
               dataType ndims (alloc_dims ndims dims) dataSize (nd_attributes raw)), d)
  | None => (None, d)
  end.

Definition NDArray_release (a : NDArray) (d : Driver) : Driver :=
  emit (EvNDArrayRelease (nd_alloc a)) d.

(** ** [prosilica::syncTimer] *)

Definition syncTimer (w : World) (d : Driver) : Z * Driver :=
  match PvHandle d with
  | Some _ =>
      let d := with_lastSyncTime (r_epicsTimeGetCurrent w) d in
      let '(_, d) := PvCommandRun w "TimeStampReset" d in
      (asynSuccess, d)
  | None => (asynError, d)
  end.

(** ** [prosilica::frameCallback] *)

(** The three assignments to [dims[k]] for the X axis, the Y axis and
    the colour axis. *)
Definition dim_X (k : nat) (pFrame : tPvFrame) (binX : Z) (a : NDArray) : NDArray :=
  set_dim k (Width pFrame) (RegionX pFrame) binX a.
Definition dim_Y (k : nat) (pFrame : tPvFrame) (binY : Z) (a : NDArray) : NDArray :=
  set_dim k (Height pFrame) (RegionY pFrame) binY a.
Definition dim_color (k : nat) (a : NDArray) : NDArray := set_dim k 3 0 1 a.

(** The block shared by the mono and the unconverted Bayer cases. *)
Definition image_2d (dataType : Z) (pFrame : tPvFrame) (binX binY : Z) (a : NDArray)
  : NDArray :=
  dim_Y 1 pFrame binY (dim_X 0 pFrame binX (array_with_ndims 2 (array_with_dataType dataType a))).

(** The block of the [ePvFmtRgb24] and [ePvFmtRgb48] cases. *)
Definition image_rgb1 (dataType : Z) (pFrame : tPvFrame) (binX binY : Z) (a : NDArray)
  : NDArray :=
  dim_Y 2 pFrame binY (dim_X 1 pFrame binX
    (dim_color 0 (array_with_ndims 3 (array_with_dataType dataType a)))).

(** The [else] branch of the [ePvFmtBayer8] and [ePvFmtBayer16] cases:
    demosaic into a newly allocated array of [dataType] and release the
    array the frame arrived in.  [alloc] returning null makes
    [pImage->pData] a null dereference. *)
Definition bayer_convert (w : World) (dataType : Z) (pFrame : tPvFrame)
    (bayerConvert binX binY colorMode : Z) (pImage : NDArray) (d : Driver)
  : run (NDArray * Z * Driver) :=
  let pTempImage := pImage in
  let '(r, d) := NDArrayPool_alloc w 3 [3; Width pFrame; Height pFrame]
                   dataType (maxFrameSize d) d in
  match r with
  | None => Fault NullDereference
  | Some pImage =>
      let src := nd_alloc pTempImage in
      let dst := nd_alloc pImage in
      let '(pImage, colorMode, d) :=
        if bayerConvert =? PSBayerConvertRGB1 then
          let d := emit (EvPvUtilityColorInterpolate src dst 1 2 2 0) d in
          (dim_Y 2 pFrame binY (dim_X 1 pFrame binX
             (dim_color 0 (array_with_ndims 3 pImage))), NDColorModeRGB1, d)
        else if bayerConvert =? PSBayerConvertRGB2 then
          let rowSize := int32 (Width pFrame) in
          let d := emit (EvPvUtilityColorInterpolate src dst
                           rowSize (int32 (2 * rowSize)) 0 (int32 (2 * rowSize))) d in
          (dim_Y 2 pFrame binY (dim_color 1
             (dim_X 0 pFrame binX (array_with_ndims 3 pImage))), NDColorModeRGB2, d)
        else if bayerConvert =? PSBayerConvertRGB3 then
          let imageSize := int32 (Width pFrame * Height pFrame) in
          let d := emit (EvPvUtilityColorInterpolate src dst
                           imageSize (int32 (2 * imageSize)) 0 0) d in
          (dim_color 2 (dim_Y 1 pFrame binY
             (dim_X 0 pFrame binX (array_with_ndims 3 pImage))), NDColorModeRGB3, d)
        else (pImage, colorMode, d) in
      Ret (pImage, colorMode, NDArray_release pTempImage d)
  end.

(** [switch(pFrame->Format)]: the image, the colour mode and the driver
    afterwards.  [colorMode] comes in with the content of the
    uninitialised local and leaves unchanged in the [default] case, which
    only prints. *)
Definition decode_format (w : World) (pFrame : tPvFrame)
    (bayerConvert binX binY colorMode : Z) (pImage : NDArray) (d : Driver)
  : run (NDArray * Z * Driver) :=
  let fmt := Format pFrame in
  if fmt =? ePvFmtMono8 then
    Ret (image_2d NDUInt8 pFrame binX binY pImage, NDColorModeMono, d)
  else if fmt =? ePvFmtMono16 then
    Ret (image_2d NDUInt16 pFrame binX binY pImage, NDColorModeMono, d)
  else if fmt =? ePvFmtBayer8 then
    if bayerConvert =? PSBayerConvertNone then
      Ret (image_2d NDUInt8 pFrame binX binY pImage, NDColorModeBayer, d)
    else bayer_convert w NDUInt8 pFrame bayerConvert binX binY colorMode pImage d
  else if fmt =? ePvFmtBayer16 then
    if bayerConvert =? PSBayerConvertNone then
      Ret (image_2d NDUInt16 pFrame binX binY pImage, NDColorModeBayer, d)
    else bayer_convert w NDUInt16 pFrame bayerConvert binX binY colorMode pImage d
  else if fmt =? ePvFmtRgb24 then
    Ret (image_rgb1 NDUInt8 pFrame binX binY pImage, NDColorModeRGB1, d)
  else if fmt =? ePvFmtRgb48 then
    Ret (image_rgb1 NDUInt16 pFrame binX binY pImage, NDColorModeRGB1, d)
  else
    Ret (pImage, colorMode,
         asynPrint ASYN_TRACE_ERROR "%s:%s: error unsupported pixel format %d\n" d).

(** [(double)pFrame->TimestampLo + (double)pFrame->TimestampHi*4294967296.] *)
Definition native_frame_ticks (pFrame : tPvFrame) : float :=
  PrimFloat.add (double_of_Z (TimestampLo pFrame))
    (PrimFloat.mul (double_of_Z (TimestampHi pFrame)) 4294967296%float).

(** [if (this->timeStampFrequency == 0) this->timeStampFrequency = 1;] *)
Definition floor_frequency (d : Driver) : Driver :=
  if timeStampFrequency d =? 0 then with_timeStampFrequency 1 d else d.

(** The double nearest to the literal [1.0e-9]. *)
Definition nano : float := 0x1.12e0be826d695p-30%float.

(** [(double)sec + ((double)nsec * 1.0e-9)] *)
Definition seconds_of (sec nsec : Z) : float :=
  PrimFloat.add (double_of_Z sec) (PrimFloat.mul (double_of_Z nsec) nano).

(** "Now set timeStamp field in pImage": the [switch (timestamp_type)]. *)
Definition set_timeStamp (w : World) (pFrame : tPvFrame) (pImage : NDArray) (d : Driver)
  : NDArray * Driver :=
  let ticks := native_frame_ticks pFrame in
  let timestamp_type := snd (getIntegerParam PSTimestampType PSTimestampTypeNativeTicks d) in
  if timestamp_type =? PSTimestampTypeNativeTicks then
    (array_with_timeStamp ticks pImage, d)
  else if timestamp_type =? PSTimestampTypeNativeSeconds then
    let d := floor_frequency d in
    (array_with_timeStamp
       (PrimFloat.div ticks (double_of_Z (timeStampFrequency d))) pImage, d)
  else if timestamp_type =? PSTimestampTypePOSIX then
    let d := floor_frequency d in
    let epics_frame_time :=
      r_epicsTimeAddSeconds w (lastSyncTime d)
        (PrimFloat.div ticks (double_of_Z (timeStampFrequency d))) in
    let ts := r_epicsTimeToTimespec w epics_frame_time in
    (array_with_timeStamp (seconds_of (tv_sec ts) (tv_nsec ts)) pImage, d)
  else if timestamp_type =? PSTimestampTypeEPICS then
    let d := floor_frequency d in
    let epics_frame_time :=
      r_epicsTimeAddSeconds w (lastSyncTime d)
        (PrimFloat.div ticks (double_of_Z (timeStampFrequency d))) in
    (array_with_timeStamp
       (seconds_of (secPastEpoch epics_frame_time) (nsec epics_frame_time)) pImage, d)
  else if timestamp_type =? PSTimestampTypeIOC then
    (array_with_timeStamp
       (seconds_of (secPastEpoch (nd_epicsTS pImage)) (nsec (nd_epicsTS pImage))) pImage, d)
  else
    (array_with_timeStamp ticks pImage, d).

(** The parts of the body of [if (pImage && pFrame->Status == ePvErrSuccess)]
    that follow the time stamp, in source order. *)

(** "Get any attributes that have been defined for this driver", then
    the NDArray callback when [NDArrayCallbacks] is set. *)
Definition deliver (w : World) (pImage : NDArray) (d : Driver) : Driver :=
  let d := emit (EvGetAttributes (nd_alloc pImage)) d in
  let arrayCallbacks :=
    snd (getIntegerParam NDArrayCallbacks (indet w "arrayCallbacks") d) in
  if arrayCallbacks =? 0 then d
  else emit (EvDoCallbacksGenericPointer (nd_alloc pImage)) d.

(** "See if acquisition is done":
[[
    if (this->framesRemaining > 0) this->framesRemaining--;
    if (this->framesRemaining == 0) {
        setShutter(0);
        setIntegerParam(ADAcquire, 0);
        setIntegerParam(ADStatus, ADStatusIdle);
    }
]] *)
Definition acquisition_done (d : Driver) : Driver :=
  let d := if framesRemaining d >? 0
           then with_framesRemaining (framesRemaining d - 1) d else d in
  if framesRemaining d =? 0 then
    let d := setShutter 0 d in
    let d := snd (setIntegerParam ADAcquire 0 d) in
    snd (setIntegerParam ADStatus ADStatusIdle d)
  else d.

(** "Update the frame counter", and the trace of the frame. *)
Definition update_frame_counter (w : World) (d : Driver) : Driver :=
  let imageCounter :=
    snd (getIntegerParam NDArrayCounter (indet w "imageCounter") d) in
  let imageCounter := int32 (imageCounter + 1) in
  let d := snd (setIntegerParam NDArrayCounter imageCounter d) in
  asynPrint ASYN_TRACEIO_DRIVER "%s:%s: frameId=%d, timeStamp=%f\n" d.

(** "We save the most recent good image buffer": release the one
    retained so far, retain [pImage]. *)
Definition retain_image (pImage : NDArray) (d : Driver) : Driver :=
  let d := match pArrays0 d with
           | Some old => NDArray_release old d
           | None => d
           end in
  with_pArrays0 (Some pImage) d.

(** "Allocate a new image buffer, make the size be the maximum that the
    frames can be", and bind it to the descriptor.  [alloc] returning
    null makes [pImage->pData] a null dereference. *)
Definition rebind (w : World) (pFrame : tPvFrame) (d : Driver) : run (tPvFrame * Driver) :=
  let r := NDArrayPool_alloc w 2 [sensorWidth d; sensorHeight d]
             NDInt8 (maxFrameSize d) d in
  let pFrame := frame_with_Context1 (fst r) pFrame in
  match fst r with
  | None => Fault NullDereference
  | Some pImage =>
      Ret (frame_with_ImageBuffer (Some (nd_alloc pImage)) pFrame, snd r)
  end.

(** [if (pFrame->BayerPattern > ePvBayerBGGR) pFrame->BayerPattern = ePvBayerRGGB;] *)
Definition fix_BayerPattern (pFrame : tPvFrame) : tPvFrame :=
  if BayerPattern pFrame >? ePvBayerBGGR
  then frame_with_BayerPattern ePvBayerRGGB pFrame else pFrame.

(** The body of [if (pImage && pFrame->Status == ePvErrSuccess)]:
    the frame, and the driver afterwards. *)
Definition frame_good (w : World) (pFrame : tPvFrame) (pImage : NDArray) (d : Driver)
  : run (tPvFrame * Driver) :=
  let pImage := array_with_uniqueId (int32 (FrameCount pFrame)) pImage in
  let pImage := array_with_epicsTS (r_updateTimeStamp w) pImage in
  let binX := snd (getIntegerParam ADBinX (indet w "binX") d) in
  let binY := snd (getIntegerParam ADBinY (indet w "binY") d) in
  let pFrame := fix_BayerPattern pFrame in
  let bayerPattern := int32 (BayerPattern pFrame) in
  let bayerConvert := snd (getIntegerParam PSBayerConvert (indet w "bayerConvert") d) in
  match decode_format w pFrame bayerConvert binX binY (indet w "colorMode") pImage d with
  | Fault f => Fault f
  | Ret (pImage, colorMode, d) =>
      let pImage := attr_add "BayerPattern" bayerPattern pImage in
      let pImage := attr_add "ColorMode" colorMode pImage in
      let stamped := set_timeStamp w pFrame pImage d in
      let pImage := fst stamped in
      let d := snd stamped in
      let d := deliver w pImage d in
      let d := acquisition_done d in
      let d := update_frame_counter w d in
      let d := retain_image pImage d in
      rebind w pFrame d
  end.

(** The [else] branch: count a bad frame. *)
Definition frame_bad (w : World) (d : Driver) : Driver :=
  let d := asynPrint ASYN_TRACE_FLOW "%s:%s: ERROR, frame has error code %d\n" d in
  let badFrameCounter :=
    snd (getIntegerParam PSBadFrameCounter (indet w "badFrameCounter") d) in
  let badFrameCounter := int32 (badFrameCounter + 1) in
  snd (setIntegerParam PSBadFrameCounter badFrameCounter d).

(** [frameCallback(pFrame)] with [pFrame == &PvFrames[slot]]. *)
Definition frameCallback (w : World) (slot : nat) (d : Driver) : run Driver :=
  match PvFrames d !! slot with
  | None => Fault DanglingDescriptor
  | Some pFrame =>
      if Status pFrame =? ePvErrCancelled then Ret d
      else
        let d := lock d in
        let decoded :=
          match Context1 pFrame with
          | Some pImage =>
              if Status pFrame =? ePvErrSuccess
              then frame_good w pFrame pImage d
              else Ret (pFrame, frame_bad w d)
          | None => Ret (pFrame, frame_bad w d)
          end in
        match decoded with
        | Fault f => Fault f
        | Ret (pFrame, d) =>
            let d := with_PvFrames (<[slot := pFrame]> (PvFrames d)) d in
            (* Update any changed parameters *)
            let d := callParamCallbacks d in
            (* Queue this frame to run again *)
            let '(_, d) := PvCaptureQueueFrame w slot pFrame d in
            Ret (unlock d)
        end
  end.

(** ** [prosilica::setPixelFormat] *)

Definition setPixelFormat (w : World) (d : Driver) : Z * Driver :=
  let status := asynSuccess in
  let '(status, colorMode) := acc status (getIntegerParam NDColorMode (indet w "colorMode") d) in
  let '(status, dataType) := acc status (getIntegerParam NDDataType (indet w "dataType") d) in
  let pixelFormat :=
    if (colorMode =? NDColorModeMono) && (dataType =? NDUInt8) then Some "Mono8"
    else if (colorMode =? NDColorModeMono) && (dataType =? NDUInt16) then Some "Mono16"
    else if (colorMode =? NDColorModeRGB1) && (dataType =? NDUInt8) then Some "Rgb24"
    else if (colorMode =? NDColorModeRGB1) && (dataType =? NDUInt16) then Some "Rgb48"
    else if (colorMode =? NDColorModeBayer) && (dataType =? NDUInt8) then Some "Bayer8"
    else if (colorMode =? NDColorModeBayer) && (dataType =? NDUInt16) then Some "Bayer16"
    else None in
  match pixelFormat with
  | None =>
      (asynError,
       asynPrint ASYN_TRACE_ERROR
         "%s:%s: error unsupported data type %d and/or color mode %d\n" d)
  | Some pixelFormat => acc status (PvAttrEnumSet w "PixelFormat" pixelFormat d)
  end.

(** ** [prosilica::setGeometry] *)

(** [if (cond) asynPrint(...)] *)
Definition asynPrint_if (cond : bool) (mask : TraceMask) (format : string) (d : Driver)
  : Driver :=
  with_log ((if cond then [EvAsynPrint mask format] else []) ++ log d) d.

(** [s = call; if (s != ePvErrNotFound) status |= s;] *)
Definition acc_unless_NotFound {A : Type} (status : Z) (r : Z * A) : Z * A :=
  (if fst r =? ePvErrNotFound then status else or_status status (fst r), snd r).

Definition setGeometry (w : World) (d : Driver) : Z * Driver :=
  let status := asynSuccess in
  (* Get all of the current geometry parameters from the parameter library *)
  let '(status, binX) := acc status (getIntegerParam ADBinX (indet w "binX") d) in
  let binX := if binX <? 1 then 1 else binX in
  let '(status, binY) := acc status (getIntegerParam ADBinY (indet w "binY") d) in
  let binY := if binY <? 1 then 1 else binY in
  let '(status, minX) := acc status (getIntegerParam ADMinX (indet w "minX") d) in
  let '(status, minY) := acc status (getIntegerParam ADMinY (indet w "minY") d) in
  let '(status, sizeX) := acc status (getIntegerParam ADSizeX (indet w "sizeX") d) in
  let '(status, sizeY) := acc status (getIntegerParam ADSizeY (indet w "sizeY") d) in
  let '(status, maxSizeX) := acc status (getIntegerParam ADMaxSizeX (indet w "maxSizeX") d) in
  let '(status, maxSizeY) := acc status (getIntegerParam ADMaxSizeY (indet w "maxSizeY") d) in
  let '(sizeX, d) :=
    if int32 (minX + sizeX) >? maxSizeX then
      let sizeX := int32 (maxSizeX - minX) in
      (sizeX, snd (setIntegerParam ADSizeX sizeX d))
    else (sizeX, d) in
  let '(sizeY, d) :=
    if int32 (minY + sizeY) >? maxSizeY then
      let sizeY := int32 (maxSizeY - minY) in
      (sizeY, snd (setIntegerParam ADSizeY sizeY d))
    else (sizeY, d) in
  (* CMOS cameras don't support binning, so ignore ePvErrNotFound errors *)
  let '(status, d) := acc_unless_NotFound status (PvAttrUint32Set w "BinningX" (uint32 binX) d) in
  let '(status, d) := acc_unless_NotFound status (PvAttrUint32Set w "BinningY" (uint32 binY) d) in
  let '(status, d) :=
    if status =? 0 then
      let '(status, d) := acc status (PvAttrUint32Set w "RegionX" (uint32 (Z.quot minX binX)) d) in
      let '(status, d) := acc status (PvAttrUint32Set w "RegionY" (uint32 (Z.quot minY binY)) d) in
      let '(status, d) := acc status (PvAttrUint32Set w "Width" (uint32 (Z.quot sizeX binX)) d) in
      acc status (PvAttrUint32Set w "Height" (uint32 (Z.quot sizeY binY)) d)
    else (status, d) in
  (status,
   asynPrint_if (negb (status =? 0)) ASYN_TRACE_ERROR "%s:%s: error, status=%d\n" d).

(** ** [prosilica::getGeometry] *)

Definition getGeometry (w : World) (d : Driver) : Z * Driver :=
  let status := asynSuccess in
  (* CMOS cameras don't support binning, so ignore ePvErrNotFound errors *)
  let r := PvAttrUint32Get w "BinningX" (indet w "binX") d in
  let binX := if fst r =? 0 then fst (snd r) else 1 in
  let '(status, (_, d)) := acc_unless_NotFound status r in
  let r := PvAttrUint32Get w "BinningY" (indet w "binY") d in
  let binY := if fst r =? 0 then fst (snd r) else 1 in
  let '(status, (_, d)) := acc_unless_NotFound status r in
  let '(status, (minX, d)) := acc status (PvAttrUint32Get w "RegionX" (indet w "minX") d) in
  let '(status, (minY, d)) := acc status (PvAttrUint32Get w "RegionY" (indet w "minY") d) in
  let '(status, (sizeX, d)) := acc status (PvAttrUint32Get w "Width" (indet w "sizeX") d) in
  let '(status, (sizeY, d)) := acc status (PvAttrUint32Get w "Height" (indet w "sizeY") d) in
  let '(status, d) := acc status (setIntegerParam ADBinX (int32 binX) d) in
  let '(status, d) := acc status (setIntegerParam ADBinY (int32 binY) d) in
  let '(status, d) := acc status (setIntegerParam ADMinX (int32 (uint32 (minX * binX))) d) in
  let '(status, d) := acc status (setIntegerParam ADMinY (int32 (uint32 (minY * binY))) d) in
  let '(status, d) := acc status (setIntegerParam ADSizeX (int32 (uint32 (sizeX * binX))) d) in
  let '(status, d) := acc status (setIntegerParam ADSizeY (int32 (uint32 (sizeY * binY))) d) in
  let '(status, d) := acc status (setIntegerParam NDArraySizeX (int32 sizeX) d) in
  let '(status, d) := acc status (setIntegerParam NDArraySizeY (int32 sizeY) d) in
  (status,
   asynPrint_if (negb (status =? 0)) ASYN_TRACE_ERROR "%s:%s: error, status=%d\n" d).

(** ** [prosilica::readStats] and [prosilica::readParameters] *)

(** Position of the first entry of a mode table equal to [buffer]. *)
Fixpoint index_of (buffer : string) (modes : list string) : option nat :=
  match modes with
  | [] => None
  | m :: modes' =>
      if String.eqb buffer m then Some 0%nat
      else option_map S (index_of buffer modes')
  end.

(** The search of a mode table:
[[
    for (i=0; i<NUM; i++) {
        if (strcmp(buffer, modes[i]) == 0) {
            status |= setIntegerParam(p, i);
            break;
        }
    }
    if (i == NUM) {
        status |= setIntegerParam(p, 0);
        status |= asynError;
    }
]] *)
Definition mode_to_param (p : Param) (modes : list string) (buffer : string)
    (status : Z) (d : Driver) : Z * Driver :=
  let found := index_of buffer modes in
  let i := match found with Some i => Z.of_nat i | None => 0 end in
  let '(status, d) := acc status (setIntegerParam p i d) in
  (match found with Some _ => status | None => or_status status asynError end, d).

(** The same search for an attribute some cameras lack:
[[
    if (status == ePvErrNotFound) {
        status = 0;
        status |= setIntegerParam(p, 0);
    } else { the search above }
]] *)
Definition optional_mode_to_param (p : Param) (modes : list string) (buffer : string)
    (status : Z) (d : Driver) : Z * Driver :=
  let notFound := status =? ePvErrNotFound in
  let found := index_of buffer modes in
  let i := if notFound then 0
           else match found with Some i => Z.of_nat i | None => 0 end in
  let '(status, d) := acc (if notFound then 0 else status) (setIntegerParam p i d) in
  (if notFound then status
   else match found with Some _ => status | None => or_status status asynError end, d).

(** [if (strcmp(buffer, "Off") == 0) i = 0; else if (strcmp(buffer, "On") == 0) i = 1;
     else { i=0; status |= asynError; }] *)
Definition on_off (buffer : string) (status : Z) : Z * Z :=
  if String.eqb buffer "Off" then (status, 0)
  else if String.eqb buffer "On" then (status, 1)
  else (or_status status asynError, 0).

(** [uval & mask ? 1 : 0] *)
Definition bit_set (uval mask : Z) : Z := if Z.land uval mask =? 0 then 0 else 1.

(** [uval/1.e6] *)
Definition micro (uval : Z) : float := PrimFloat.div (double_of_Z uval) 1000000%float.

(** The statements of [readStats] before its closing trace: the
    accumulated [status] and the driver. *)
Definition readStats_body (w : World) (d : Driver) : Z * Driver :=
  let status := asynSuccess in
  let buffer := indet_buffer w "buffer" in
  let uval := indet w "uval" in
  let fval := indet_float w "fval" in
  let '(status, (buffer, d)) := acc status (PvAttrEnumGet w "StatDriverType" buffer d) in
  let buffer := if status =? ePvErrNotFound then "Unsupported parameter" else buffer in
  let status := if status =? ePvErrNotFound then 0 else status in
  let '(status, d) := acc status (setStringParam PSDriverType buffer d) in
  let '(status, (buffer, d)) := acc status (PvAttrStringGet w "StatFilterVersion" buffer d) in
  let buffer := if status =? ePvErrNotFound then "Unsupported parameter" else buffer in
  let status := if status =? ePvErrNotFound then 0 else status in
  let '(status, d) := acc status (setStringParam PSFilterVersion buffer d) in
  let '(status, (fval, d)) := acc status (PvAttrFloat32Get w "StatFrameRate" fval d) in
  let '(status, d) := acc status (setDoubleParam PSFrameRate fval d) in
  let '(status, (uval, d)) := acc status (PvAttrUint32Get w "StreamBytesPerSecond" uval d) in
  let '(status, d) := acc status (setIntegerParam PSByteRate (int32 uval) d) in
  let '(status, (uval, d)) := acc status (PvAttrUint32Get w "PacketSize" uval d) in
  let '(status, d) := acc status (setIntegerParam PSPacketSize (int32 uval) d) in
  let '(status, (uval, d)) := acc status (PvAttrUint32Get w "StatFramesCompleted" uval d) in
  let '(status, d) := acc status (setIntegerParam PSFramesCompleted (int32 uval) d) in
  let '(status, (uval, d)) := acc status (PvAttrUint32Get w "StatFramesDropped" uval d) in
  let '(status, d) := acc status (setIntegerParam PSFramesDropped (int32 uval) d) in
  let '(status, (uval, d)) := acc status (PvAttrUint32Get w "StatPacketsErroneous" uval d) in
  let '(status, d) := acc status (setIntegerParam PSPacketsErroneous (int32 uval) d) in
  let '(status, (uval, d)) := acc status (PvAttrUint32Get w "StatPacketsMissed" uval d) in
  let '(status, d) := acc status (setIntegerParam PSPacketsMissed (int32 uval) d) in
  let '(status, (uval, d)) := acc status (PvAttrUint32Get w "StatPacketsReceived" uval d) in
  let '(status, d) := acc status (setIntegerParam PSPacketsReceived (int32 uval) d) in
  let '(status, (uval, d)) := acc status (PvAttrUint32Get w "StatPacketsRequested" uval d) in
  let '(status, d) := acc status (setIntegerParam PSPacketsRequested (int32 uval) d) in
  let '(status, (uval, d)) := acc status (PvAttrUint32Get w "StatPacketsResent" uval d) in
  let '(status, d) := acc status (setIntegerParam PSPacketsResent (int32 uval) d) in
  let '(status, (uval, d)) := acc status (PvAttrUint32Get w "SyncInLevels" uval d) in
  let '(status, d) := acc status (setIntegerParam PSSyncIn1Level (bit_set uval 1) d) in
  let '(status, d) := acc status (setIntegerParam PSSyncIn2Level (bit_set uval 2) d) in
  let '(status, (uval, d)) := acc status (PvAttrUint32Get w "SyncOutGpoLevels" uval d) in
  let '(status, d) := acc status (setIntegerParam PSSyncOut1Level (bit_set uval 1) d) in
  let '(status, d) := acc status (setIntegerParam PSSyncOut2Level (bit_set uval 2) d) in
  let '(status, d) := acc status (setIntegerParam PSSyncOut3Level (bit_set uval 4) d) in
  let '(status, (uval, d)) := acc status (PvAttrUint32Get w "FrameStartTriggerDelay" uval d) in
  let '(status, d) := acc status (setDoubleParam PSTriggerDelay (micro uval) d) in
  let '(status, (buffer, d)) := acc status (PvAttrEnumGet w "FrameStartTriggerEvent" buffer d) in
  let '(status, d) := mode_to_param PSTriggerEvent PSTriggerEventModes buffer status d in
  let '(status, (buffer, d)) := acc status (PvAttrEnumGet w "FrameStartTriggerOverlap" buffer d) in
  (* This parameter can be not supported *)
  let '(status, d) :=
    optional_mode_to_param PSTriggerOverlap PSTriggerOverlapModes buffer status d in
  let '(status, (buffer, d)) := acc status (PvAttrEnumGet w "SyncOut1Mode" buffer d) in
  let '(status, d) := mode_to_param PSSyncOut1Mode PSSyncOutModes buffer status d in
  let '(status, (buffer, d)) := acc status (PvAttrEnumGet w "SyncOut2Mode" buffer d) in
  let '(status, d) := mode_to_param PSSyncOut2Mode PSSyncOutModes buffer status d in
  let '(status, (buffer, d)) := acc status (PvAttrEnumGet w "SyncOut3Mode" buffer d) in
  (* This parameter can be not supported *)
  let '(status, d) :=
    optional_mode_to_param PSSyncOut3Mode PSSyncOutModes buffer status d in
  let '(status, (buffer, d)) := acc status (PvAttrEnumGet w "SyncOut1Invert" buffer d) in
  let r := on_off buffer status in
  let status := fst r in
  let i := snd r in
  let '(status, d) := acc status (setIntegerParam PSSyncOut1Invert i d) in
  let '(status, (buffer, d)) := acc status (PvAttrEnumGet w "SyncOut2Invert" buffer d) in
  let r := on_off buffer status in
  let status := fst r in
  let i := snd r in
  let '(status, d) := acc status (setIntegerParam PSSyncOut2Invert i d) in
  let '(status, (buffer, d)) := acc status (PvAttrEnumGet w "SyncOut3Invert" buffer d) in
  let r := if status =? ePvErrNotFound then (0, 0) else on_off buffer status in
  let status := fst r in
  let i := snd r in
  let '(status, d) := acc status (setIntegerParam PSSyncOut3Invert i d) in
  let '(status, (buffer, d)) := acc status (PvAttrEnumGet w "Strobe1Mode" buffer d) in
  let '(status, d) := mode_to_param PSStrobe1Mode PSStrobeModes buffer status d in
  let '(status, (buffer, d)) :=
    acc status (PvAttrEnumGet w "Strobe1ControlledDuration" buffer d) in
  let r := on_off buffer status in
  let status := fst r in
  let i := snd r in
  let '(status, d) := acc status (setIntegerParam PSStrobe1CtlDuration i d) in
  let '(status, (uval, d)) := acc status (PvAttrUint32Get w "Strobe1Delay" uval d) in
  let '(status, d) := acc status (setDoubleParam PSStrobe1Delay (micro uval) d) in
  let '(status, (uval, d)) := acc status (PvAttrUint32Get w "Strobe1Duration" uval d) in
  acc status (setDoubleParam PSStrobe1Duration (micro uval) d).

(** [readStats]: the accumulated status is only traced; the function
    returns [asynSuccess]. *)
Definition readStats (w : World) (d : Driver) : Z * Driver :=
  let r := readStats_body w d in
  (asynSuccess,
   asynPrint_if (negb (fst r =? 0)) ASYN_TRACE_ERROR "%s:%s: error, status=%d\n" (snd r)).

Definition readParameters (w : World) (d : Driver) : Z * Driver :=
  let status := asynSuccess in
  let intVal := indet w "intVal" in
  let fltVal := indet_float w "fltVal" in
  let buffer := indet_buffer w "buffer" in
  let '(status, (intVal, d)) := acc status (PvAttrUint32Get w "TotalBytesPerFrame" intVal d) in
  let d := snd (setIntegerParam NDArraySize (int32 intVal) d) in
  let '(status, (buffer, d)) := acc status (PvAttrEnumGet w "PixelFormat" buffer d) in
  let known :=
    if String.eqb buffer "Mono8" then Some (NDUInt8, NDColorModeMono)
    else if String.eqb buffer "Mono16" then Some (NDUInt16, NDColorModeMono)
    else if String.eqb buffer "Rgb24" then Some (NDUInt8, NDColorModeRGB1)
    else if String.eqb buffer "Rgb48" then Some (NDUInt16, NDColorModeRGB1)
    else if String.eqb buffer "Bayer8" then Some (NDUInt8, NDColorModeBayer)
    else if String.eqb buffer "Bayer16" then Some (NDUInt16, NDColorModeBayer)
    else None in
  let dataType := fst (default (NDUInt8, NDColorModeMono) known) in
  let colorMode := snd (default (NDUInt8, NDColorModeMono) known) in
  (* We don't support other formats yet *)
  let d := asynPrint_if (negb (bool_decide (is_Some known))) ASYN_TRACE_ERROR
             "%s:%s: error unsupported data type %d and/or color mode %d\n" d in
  let '(status, d) := acc status (setIntegerParam NDDataType dataType d) in
  let '(status, d) := acc status (setIntegerParam NDColorMode colorMode d) in
  let '(status, d) := acc status (getGeometry w d) in
  let '(status, (intVal, d)) := acc status (PvAttrUint32Get w "AcquisitionFrameCount" intVal d) in
  let '(status, d) := acc status (setIntegerParam ADNumImages (int32 intVal) d) in
  let '(status, (buffer, d)) := acc status (PvAttrEnumGet w "AcquisitionMode" buffer d) in
  let r :=
    if String.eqb buffer "SingleFrame" then (status, ADImageSingle)
    else if String.eqb buffer "MultiFrame" then (status, ADImageMultiple)
    else if String.eqb buffer "Recorder" then (status, ADImageMultiple)
    else if String.eqb buffer "Continuous" then (status, ADImageContinuous)
    else (or_status status asynError, 0) in
  let status := fst r in
  let i := snd r in
  let '(status, d) := acc status (setIntegerParam ADImageMode i d) in
  let '(status, (buffer, d)) := acc status (PvAttrEnumGet w "FrameStartTriggerMode" buffer d) in
  let '(status, d) := mode_to_param ADTriggerMode PSTriggerStartModes buffer status d in
  (* Prosilica does not support more than 1 exposure per frame *)
  let '(status, d) := acc status (setIntegerParam ADNumExposures 1 d) in
  (* Prosilica uses integer microseconds *)
  let '(status, (intVal, d)) := acc status (PvAttrUint32Get w "ExposureValue" intVal d) in
  let dval := micro intVal in
  let '(status, d) := acc status (setDoubleParam ADAcquireTime dval d) in
  (* Prosilica uses a frame rate in Hz *)
  let '(status, (fltVal, d)) := acc status (PvAttrFloat32Get w "FrameRate" fltVal d) in
  let fltVal := if PrimFloat.eqb fltVal 0%float then 1%float else fltVal in
  let dval := PrimFloat.div 1%float fltVal in
  let '(status, d) := acc status (setDoubleParam ADAcquirePeriod dval d) in
  (* Prosilica uses an integer value *)
  let '(status, (intVal, d)) := acc status (PvAttrUint32Get w "GainValue" intVal d) in
  let dval := double_of_Z intVal in
  let '(status, d) := acc status (setDoubleParam ADGain dval d) in
  (* Exposure mode can be manual or auto *)
  let '(status, (buffer, d)) := acc status (PvAttrEnumGet w "ExposureMode" buffer d) in
  let '(status, d) := mode_to_param PSExposureMode PSExposureModes buffer status d in
  (* Gain mode can be manual or auto *)
  let '(status, (buffer, d)) := acc status (PvAttrEnumGet w "GainMode" buffer d) in
  let '(status, d) := mode_to_param PSGainMode PSGainModes buffer status d in
  (* Call the callbacks to update the values in higher layers *)
  let d := callParamCallbacks d in
  (status,
   asynPrint_if (negb (status =? 0)) ASYN_TRACE_ERROR "%s:%s: error, status=%d\n" d).

(** ** [prosilica::disconnectCamera] *)

(** One turn of the loop that frees the image buffers:
[[
    pImage = pFrame->Context[1];
    if (pImage) pImage->release();
    pFrame->Context[1] = 0;
]]
    The constructor allocates [maxPvAPIFrames_] descriptors, so the
    index is within [PvFrames]; an index past the list is skipped. *)
Definition free_frame (i : nat) (d : Driver) : Driver :=
  match PvFrames d !! i with
  | None => d
  | Some pFrame =>
      let d := match Context1 pFrame with
               | Some pImage => NDArray_release pImage d
               | None => d
               end in
      with_PvFrames (<[i := frame_with_Context1 None pFrame]> (PvFrames d)) d
  end.

(** [for (int i = 0; i < maxPvAPIFrames_; i++)] as the list of values [i] takes. *)
Definition frame_indices (d : Driver) : list nat := seq 0 (Z.to_nat (maxPvAPIFrames_ d)).

Definition disconnectCamera (w : World) (d : Driver) : Z * Driver :=
  (* Ensure that PvAPI has been initialised *)
  if negb (PvApiInitialized d) then
    (asynError,
     asynPrint ASYN_TRACE_ERROR
       "%s:%s: Disconnecting from camera %ld while the PvAPI is uninitialized.\n" d)
  else
    match PvHandle d with
    | None => (asynSuccess, d)
    | Some _ =>
        let status := asynSuccess in
        (* these functions can block: release the lock *)
        let d := unlock d in
        let '(status, d) := acc status (r_PvCaptureQueueClear w, emit EvPvCaptureQueueClear d) in
        let '(status, d) := acc status (r_PvCaptureEnd w, emit EvPvCaptureEnd d) in
        let '(status, d) := acc status (r_PvCameraClose w, emit EvPvCameraClose d) in
        let d := lock d in
        let d := asynPrint ASYN_TRACE_FLOW "%s:%s: disconnecting camera %ld\n" d in
        let d := asynPrint_if (negb (status =? 0)) ASYN_TRACE_ERROR
                   "%s:%s: unable to close camera %lu\n" d in
        (* Must first free any image buffers they point to *)
        let d := fold_left (fun d i => free_frame i d) (frame_indices d) d in
        let d := with_PvHandle None d in
        (* Signal to asynManager that we are disconnected. *)
        let status := r_exceptionDisconnect w in
        let d := emit EvExceptionDisconnect d in
        let d := asynPrint_if (negb (status =? 0)) ASYN_TRACE_ERROR
                   "%s:%s: error calling pasynManager->exceptionDisconnect, error=%s\n" d in
        let d := asynPrint ASYN_TRACE_FLOW "%s:%s: Camera disconnected; unique id: %ld\n" d in
        (status, d)
    end.

(** ** [prosilica::connectCamera] *)

Definition isdigit (c : ascii) : bool :=
  let n := nat_of_ascii c in ((48 <=? n) && (n <=? 57))%nat.

(** [atoi] on a string of digits. *)
Definition atoi (s : string) : Z :=
  int32 (fold_left (fun n c => 10 * n + (Z.of_nat (nat_of_ascii c) - 48))
           (list_ascii_of_string s) 0).

(** Value of an [unsigned long] (64 bits) after wrap-around: the
    conversion of [this->uniqueId = atoi(this->cameraId)]. *)
Definition unsigned_long (z : Z) : Z := z mod 18446744073709551616.

(** [(PvCameraInfo.PermittedAccess & ePvAccessMaster) == 0] *)
Definition no_master_access (d : Driver) : bool :=
  Z.land (PermittedAccess (PvCameraInfo d)) ePvAccessMaster =? 0.

(** How the retry loop is left. *)
Inductive loop_exit := LoopDone | LoopReturn (status : Z) | LoopFuel.

(** The loop
[[
    unsigned retryCount = 0;
    while ( (PvCameraInfo.PermittedAccess & ePvAccessMaster) == 0 ) {
        asynPrint(FLOW, "No RW access ... retrying");
        epicsThreadSleep(CONNECT_RETRY_INTERVAL);
        status = PvCameraInfoEx(uniqueId, &PvCameraInfo, sizeof(PvCameraInfo));
        if (status) { asynPrint(ERROR, "Cannot read status ..."); return asynError; }
        if ( ++retryCount >= CONNECT_RETRY_COUNT ) break;
    }
]]
    [fuel] bounds the number of turns the model takes; [retry_loop_fuel]
    below shows that [CONNECT_RETRY_COUNT] turns always suffice. *)
Fixpoint retry_loop (w : World) (fuel : nat) (retryCount : Z) (d : Driver)
  : loop_exit * Driver :=
  if negb (no_master_access d) then (LoopDone, d)
  else
    match fuel with
    | O => (LoopFuel, d)
    | S fuel' =>
        let d := asynPrint ASYN_TRACE_FLOW
                   "%s:%s: No RW access for camera %lu, retrying ...\n" d in
        (* Wait a second and fetch status again *)
        let d := emit (EvThreadSleep CONNECT_RETRY_INTERVAL) d in
        let r := r_PvCameraInfoEx w (Z.to_nat (retryCount + 1)) (uniqueId d) in
        let d := emit (EvPvCameraInfoEx (uniqueId d)) (with_PvCameraInfo (snd r) d) in
        if negb (fst r =? 0) then
          (LoopReturn asynError,
           asynPrint ASYN_TRACE_ERROR "%s:%s: Cannot read status for camera %lu\n" d)
        else
          let retryCount := uint32 (retryCount + 1) in
          if retryCount >=? CONNECT_RETRY_COUNT then (LoopDone, d)
          else retry_loop w fuel' retryCount d
    end.

(** One turn of the loop that binds and queues the descriptors; [false]
    stands for its [return asynError]. *)
Definition arm_frame (w : World) (i : nat) (d : Driver) : bool * Driver :=
  match PvFrames d !! i with
  | None => (true, d)
  | Some pFrame =>
      (* Allocate a new image buffer, make the size be the maximum that the frames can be *)
      let '(r, d) := NDArrayPool_alloc w 2 [sensorWidth d; sensorHeight d]
                       NDInt8 (maxFrameSize d) d in
      match r with
      | None =>
          (false,
           asynPrint ASYN_TRACE_ERROR "%s:%s: unable to allocate image %d on camera %lu\n" d)
      | Some pImage =>
          let pFrame := frame_with_ImageBuffer (Some (nd_alloc pImage)) pFrame in
          let pFrame := frame_with_ImageBufferSize (maxFrameSize d) pFrame in
          let pFrame := frame_with_Context1 (Some pImage) pFrame in
          let d := with_PvFrames (<[i := pFrame]> (PvFrames d)) d in
          let '(status, d) := PvCaptureQueueFrame w i pFrame d in
          if negb (status =? 0) then
            (false,
             asynPrint ASYN_TRACE_ERROR "%s:%s: unable to queue frame %d on camera %lu\n" d)
          else (true, d)
      end
  end.

Fixpoint arm_frames (w : World) (indices : list nat) (d : Driver) : bool * Driver :=
  match indices with
  | [] => (true, d)
  | i :: rest =>
      let '(ok, d) := arm_frame w i d in
      if ok then arm_frames w rest d else (false, d)
  end.

(** [connectCamera] after the handle has been opened. *)
Definition connect_opened (w : World) (d : Driver) : Z * Driver :=
  (* Negotiate maximum frame size *)
  let d := emit (EvPvCaptureAdjustPacketSize MAX_PACKET_SIZE) d in
  if negb (r_PvCaptureAdjustPacketSize w =? 0) then
    (asynError,
     asynPrint ASYN_TRACE_ERROR "%s:%s: unable to adjust packet size on camera %lu\n" d)
  else
  (* Initialize the frame buffers and queue them *)
  let d := emit EvPvCaptureStart d in
  if negb (r_PvCaptureStart w =? 0) then
    (asynError,
     asynPrint ASYN_TRACE_ERROR "%s:%s: unable to start capture on camera %lu\n" d)
  else
  (* Query the parameters of the image sensor *)
  let '(status, (v, d)) := PvAttrEnumGet w "SensorType" (sensorType d) d in
  let d := with_sensorType v d in
  let '(status, (v, d)) := acc status (PvAttrUint32Get w "SensorBits" (sensorBits d) d) in
  let d := with_sensorBits v d in
  let '(status, (v, d)) := acc status (PvAttrUint32Get w "SensorWidth" (sensorWidth d) d) in
  let d := with_sensorWidth v d in
  let '(status, (v, d)) := acc status (PvAttrUint32Get w "SensorHeight" (sensorHeight d) d) in
  let d := with_sensorHeight v d in
  let '(status, (v, d)) :=
    acc status (PvAttrUint32Get w "TimeStampFrequency" (timeStampFrequency d) d) in
  let d := with_timeStampFrequency v d in
  let '(status, (v, d)) := acc status (PvAttrStringGet w "DeviceIPAddress" (IPAddress d) d) in
  let d := with_IPAddress v d in
  if negb (status =? 0) then
    (asynError,
     asynPrint ASYN_TRACE_ERROR "%s:%s: unable to get sensor data on camera %lu\n" d)
  else
  let bytesPerPixel := int32 (uint32 (uint32 (sensorBits d - 1) / 8 + 1)) in
  (* If the camera supports color then there can be 3 values per pixel *)
  let bytesPerPixel :=
    if String.eqb (sensorType d) "Mono" then bytesPerPixel else int32 (bytesPerPixel * 3) in
  let d := with_maxFrameSize
             (int32 (uint32 (sensorWidth d * sensorHeight d * bytesPerPixel))) d in
  let '(ok, d) := arm_frames w (frame_indices d) d in
  if negb ok then (asynError, d)
  else
  (* Set some initial values for other parameters *)
  let '(status, d) := setStringParam ADManufacturer "Prosilica" d in
  let '(status, d) := acc status (setStringParam ADModel (ModelName (PvCameraInfo d)) d) in
  let '(status, d) :=
    acc status (setStringParam ADSerialNumber (SerialNumber (PvCameraInfo d)) d) in
  let '(status, d) :=
    acc status (setStringParam ADFirmwareVersion (FirmwareVersion (PvCameraInfo d)) d) in
  let versionString := pretty (fst (r_PvVersion w)) +:+ "." +:+ pretty (snd (r_PvVersion w)) in
  let '(status, d) := acc status (setStringParam ADSDKVersion versionString d) in
  let versionString :=
    pretty DRIVER_VERSION +:+ "." +:+ pretty DRIVER_REVISION
      +:+ "." +:+ pretty DRIVER_MODIFICATION in
  let d := snd (setStringParam NDDriverVersion versionString d) in
  let '(status, d) := acc status (setIntegerParam ADSizeX (int32 (sensorWidth d)) d) in
  let '(status, d) := acc status (setIntegerParam ADSizeY (int32 (sensorHeight d)) d) in
  let '(status, d) := acc status (setIntegerParam ADMaxSizeX (int32 (sensorWidth d)) d) in
  let '(status, d) := acc status (setIntegerParam ADMaxSizeY (int32 (sensorHeight d)) d) in
  let '(status, d) := acc status (setIntegerParam PSBadFrameCounter 0 d) in
  if negb (status =? 0) then
    (asynError,
     asynPrint ASYN_TRACE_ERROR "%s:%s: unable to set camera parameters on camera %lu\n" d)
  else
  (* Read the current camera settings *)
  let '(status, d) := readParameters w d in
  if negb (status =? 0) then (status, d)
  else
  (* Read the current camera statistics *)
  let '(status, d) := readStats w d in
  if negb (status =? 0) then (status, d)
  else
  (* Force acquisition to stop. *)
  let d := snd (PvCommandRun w "AcquisitionAbort" d) in
  (* Now sync the timer on the camera with the IOC *)
  let d := snd (syncTimer w d) in
  (* Signal to asynManager that we are connected. *)
  let d := emit EvExceptionConnect d in
  if negb (r_exceptionConnect w =? 0) then
    (asynError,
     asynPrint ASYN_TRACE_ERROR
       "%s:%s: error calling pasynManager->exceptionConnect, error=%s\n" d)
  else
    (asynSuccess,
     asynPrint ASYN_TRACE_FLOW "%s:%s: Camera connected; unique id: %ld\n" d).

Definition connectCamera (w : World) (d : Driver) : Z * Driver :=
  (* Ensure that PvAPI has been initialised *)
  if negb (PvApiInitialized d) then
    (asynError,
     asynPrint ASYN_TRACE_ERROR
       "%s:%s: Connecting to camera %ld while the PvAPI is uninitialized.\n" d)
  else
  (* First disconnect from the camera *)
  let d := snd (disconnectCamera w d) in
  (* a uniqueID (all characters in cameraId are digits), or an IP address (anything else) *)
  let isUniqueId := forallb isdigit (list_ascii_of_string (cameraId d)) in
  let '(found, ipAddr, d) :=
    if isUniqueId then
      let d := with_uniqueId (unsigned_long (atoi (cameraId d))) d in
      let r := r_PvCameraInfoEx w 0 (uniqueId d) in
      let d := emit (EvPvCameraInfoEx (uniqueId d)) (with_PvCameraInfo (snd r) d) in
      if negb (fst r =? 0) then
        (false, 0, asynPrint ASYN_TRACE_ERROR "%s:%s: Cannot find camera %lu\n" d)
      else (true, 0, d)
    else
      (* We have been given an IP address or IP name *)
      let h := r_hostToIPAddr w (cameraId d) in
      let d := emit (EvHostToIPAddr (cameraId d)) d in
      if negb (fst h =? 0) then
        (false, 0, asynPrint ASYN_TRACE_ERROR "%s:%s: Cannot find IP address %s\n" d)
      else
        let ipAddr := snd h in
        let d := with_uniqueIP ipAddr d in
        let r := r_PvCameraInfoByAddrEx w ipAddr in
        let d := emit (EvPvCameraInfoByAddrEx ipAddr) (with_PvCameraInfo (snd r) d) in
        if negb (fst r =? 0) then
          (false, ipAddr, asynPrint ASYN_TRACE_ERROR "%s:%s: Cannot find camera %s\n" d)
        else (true, ipAddr, with_uniqueId (UniqueId (PvCameraInfo d)) d) in
  if negb found then (asynError, d)
  else
  (* Here's where reconnect fails. *)
  match retry_loop w (Z.to_nat CONNECT_RETRY_COUNT) 0 d with
  | (LoopReturn status, d) => (status, d)
  | (LoopFuel, d) => (asynError, d)
  | (LoopDone, d) =>
      if no_master_access d then
        (asynError,
         asynPrint ASYN_TRACE_ERROR
           "%s:%s: Cannot get control of camera %lu, access flags=%lx\n" d)
      else
        let r := r_PvCameraOpen w in
        let d := emit (if isUniqueId then EvPvCameraOpen (uniqueId d)
                       else EvPvCameraOpenByAddr ipAddr) d in
        let d := with_PvHandle (snd r) d in
        if negb (fst r =? 0) then
          (asynError,
           with_PvHandle None
             (asynPrint ASYN_TRACE_ERROR "%s:%s: unable to open camera %lu\n" d))
        else connect_opened w d
  end.

(** ** [prosilica::writeInt32] *)

(** [modes[value]]: reading outside the table is a fault. *)
Definition table_at (modes : list string) (value : Z) : option string :=
  if value <? 0 then None else modes !! Z.to_nat value.

(** [status |= PvAttrEnumSet(PvHandle, name, modes[value])] *)
Definition set_from_table (w : World) (name : string) (modes : list string)
    (value status : Z) (d : Driver) : run (Z * Driver) :=
  match table_at modes value with
  | None => Fault IndexOutOfBounds
  | Some mode => Ret (acc status (PvAttrEnumSet w name mode d))
  end.

(** [value ? "On" : "Off"] *)
Definition On_or_Off (value : Z) : string := if value =? 0 then "Off" else "On".

(** The three [SyncOutGpoLevels] branches, for output [k] (0, 1 or 2):
[[
    status |= PvAttrUint32Get(PvHandle, "SyncOutGpoLevels", &syncs);
    syncs = (syncs & ~mask) | ((value<<k) & mask);
    status |= PvAttrUint32Set(PvHandle, "SyncOutGpoLevels", syncs);
]] *)
Definition set_sync_level (w : World) (k : Z) (value status : Z) (d : Driver)
  : Z * Driver :=
  let mask := Z.shiftl 1 k in
  let '(status, (syncs, d)) :=
    acc status (PvAttrUint32Get w "SyncOutGpoLevels" (indet w "syncs") d) in
  let syncs := uint32 (Z.lor (Z.land syncs (Z.lnot mask))
                              (Z.land (Z.shiftl value k) mask)) in
  acc status (PvAttrUint32Set w "SyncOutGpoLevels" syncs d).

(** The [ADAcquire] branch. *)
Definition acquire (w : World) (value status : Z) (d : Driver) : Z * Driver :=
  if negb (value =? 0) then
    let '(status, imageMode) :=
      acc status (getIntegerParam ADImageMode (indet w "imageMode") d) in
    let '(status, numImages) :=
      acc status (getIntegerParam ADNumImages (indet w "numImages") d) in
    let d :=
      if imageMode =? ADImageSingle then with_framesRemaining 1 d
      else if imageMode =? ADImageMultiple then with_framesRemaining numImages d
      else if imageMode =? ADImageContinuous then with_framesRemaining (-1) d
      else d in
    let d := snd (setIntegerParam ADStatus ADStatusAcquire d) in
    let d := setShutter 1 d in
    acc status (PvCommandRun w "AcquisitionStart" d)
  else
    let d := snd (setIntegerParam ADStatus ADStatusIdle d) in
    let d := setShutter 0 d in
    acc status (PvCommandRun w "AcquisitionAbort" d).

(** The chain of [if (function == ...)] tests. *)
Definition dispatch (w : World) (function : Param) (value status : Z) (d : Driver)
  : run (Z * Driver) :=
  match function with
  | ADBinX | ADBinY | ADMinX | ADSizeX | ADMinY | ADSizeY =>
      Ret (acc status (setGeometry w d))
  | ADNumImages =>
      Ret (acc status (PvAttrUint32Set w "AcquisitionFrameCount" (uint32 value) d))
  | ADImageMode =>
      if value =? ADImageSingle then
        Ret (acc status (PvAttrEnumSet w "AcquisitionMode" "SingleFrame" d))
      else if value =? ADImageMultiple then
        Ret (acc status (PvAttrEnumSet w "AcquisitionMode" "MultiFrame" d))
      else if value =? ADImageContinuous then
        Ret (acc status (PvAttrEnumSet w "AcquisitionMode" "Continuous" d))
      else Ret (status, d)
  | ADAcquire => Ret (acquire w value status d)
  | ADTriggerMode =>
      if (value <? 0) || (value >? NUM_TRIGGER_START_MODES - 1) then Ret (asynError, d)
      else set_from_table w "FrameStartTriggerMode" PSTriggerStartModes value status d
  | PSByteRate =>
      Ret (acc status (PvAttrUint32Set w "StreamBytesPerSecond" (uint32 value) d))
  | PSReadStatistics => Ret (status, snd (readStats w d))
  | PSTriggerEvent =>
      set_from_table w "FrameStartTriggerEvent" PSTriggerEventModes value status d
  | PSTriggerOverlap =>
      set_from_table w "FrameStartTriggerOverlap" PSTriggerOverlapModes value status d
  | PSTriggerSoftware => Ret (acc status (PvCommandRun w "FrameStartTriggerSoftware" d))
  | PSSyncOut1Mode => set_from_table w "SyncOut1Mode" PSSyncOutModes value status d
  | PSSyncOut2Mode => set_from_table w "SyncOut2Mode" PSSyncOutModes value status d
  | PSSyncOut3Mode =>
      match set_from_table w "SyncOut3Mode" PSSyncOutModes value status d with
      | Ret (status, d) => Ret (if status =? ePvErrNotFound then 0 else status, d)
      | Fault f => Fault f
      end
  | PSSyncOut1Level => Ret (set_sync_level w 0 value status d)
  | PSSyncOut2Level => Ret (set_sync_level w 1 value status d)
  | PSSyncOut3Level => Ret (set_sync_level w 2 value status d)
  | PSSyncOut1Invert =>
      Ret (acc status (PvAttrEnumSet w "SyncOut1Invert" (On_or_Off value) d))
  | PSSyncOut2Invert =>
      Ret (acc status (PvAttrEnumSet w "SyncOut2Invert" (On_or_Off value) d))
  | PSSyncOut3Invert =>
      let '(status, d) := acc status (PvAttrEnumSet w "SyncOut3Invert" (On_or_Off value) d) in
      Ret (if status =? ePvErrNotFound then 0 else status, d)
  | PSStrobe1Mode => set_from_table w "Strobe1Mode" PSStrobeModes value status d
  | PSStrobe1CtlDuration =>
      Ret (acc status (PvAttrEnumSet w "Strobe1ControlledDuration" (On_or_Off value) d))
  | NDDataType | NDColorMode => Ret (setPixelFormat w d)
  | PSResetTimer => Ret (syncTimer w d)
  | PSExposureMode => set_from_table w "ExposureMode" PSExposureModes value 0 d
  | PSGainMode => set_from_table w "GainMode" PSGainModes value 0 d
  | _ =>
      (* If this is not a parameter we have handled call the base class *)
      if below_FIRST_PS_PARAM function then
        Ret (r_ADDriver_writeInt32 w function value,
             emit (EvADDriverWriteInt32 function value) d)
      else Ret (status, d)
  end.

Definition writeInt32 (w : World) (function : Param) (value : Z) (d : Driver)
  : run (Z * Driver) :=
  let status := asynSuccess in
  (* Set the parameter and readback in the parameter library. *)
  let '(status, d) := acc status (setIntegerParam function value d) in
  match dispatch w function value status d with
  | Fault f => Fault f
  | Ret (status, d) =>
      (* Read the camera parameters and do callbacks *)
      let '(status, d) := acc status (readParameters w d) in
      let d := if negb (status =? 0)
               then asynPrint ASYN_TRACE_ERROR
                      "%s:%s: error, status=%d function=%d, value=%d\n" d
               else asynPrint ASYN_TRACEIO_DRIVER "%s:%s: function=%d, value=%d\n" d in
      Ret (status, d)
  end.

(** ** [prosilica::connect] and [prosilica::disconnect] *)

Definition connect (w : World) (d : Driver) : Z * Driver := connectCamera w d.

Definition disconnect (w : World) (d : Driver) : Z * Driver := disconnectCamera w d.

(** ** [prosilica::cameraLinkCallback] *)

(** [tPvLinkEvent] *)
Definition ePvLinkAdd : Z := 1.
Definition ePvLinkRemove : Z := 2.

(** The [switch (Event)] on the driver of one node of [cameraList],
    between [pDriver->lock()] and [pDriver->unlock()]: whether [found]
    was set, the local [uniqueIP] afterwards, what was written with
    [printf], and the driver.  [CurrentIpAddress] is what
    [PvCameraIpSettingsGet] leaves in [ipSettings.CurrentIpAddress] for a
    camera. *)
Definition link_event (w : World) (CurrentIpAddress : Z -> Z)
    (Event UniqueId uniqueIP' : Z) (pDriver : Driver)
  : bool * Z * list string * Driver :=
  if Event =? ePvLinkAdd then
    (* the camera may have been specified by IP address and never have connected yet *)
    if uniqueId pDriver =? 0 then
      let uniqueIP' := if uniqueIP' =? 0 then CurrentIpAddress UniqueId else uniqueIP' in
      if uniqueIP' =? uniqueIP pDriver then
        let '(status, pDriver) := connectCamera w pDriver in
        if negb (status =? 0) then
          (false, uniqueIP',
           ["Camera uniqueIP 0x%lx connectCamera() error status %d\n"], pDriver)
        else (true, uniqueIP', [], pDriver)
      else (false, uniqueIP', [], pDriver)
    else if UniqueId =? uniqueId pDriver then
      let '(status, pDriver) := connectCamera w pDriver in
      if negb (status =? 0) then
        (false, uniqueIP',
         ["Camera uniqueId 0x%lx connectCamera() error status %d\n"], pDriver)
      else (true, uniqueIP', [], pDriver)
    else (false, uniqueIP', [], pDriver)
  else if Event =? ePvLinkRemove then
    if UniqueId =? uniqueId pDriver then
      (* the camera has disconnected *)
      let '(status, pDriver) := disconnectCamera w pDriver in
      if negb (status =? 0) then
        (false, uniqueIP',
         ["Camera uniqueId 0x%lx disconnectCamera() error status %d\n"], pDriver)
      else (true, uniqueIP', [], pDriver)
    else (false, uniqueIP', [], pDriver)
  else (false, uniqueIP', [], pDriver).

(** The loop over the nodes of [cameraList], left at the first node
    that sets [found]: what was printed, oldest first, and the drivers of
    the list. *)
Fixpoint link_loop (w : World) (CurrentIpAddress : Z -> Z)
    (Event UniqueId uniqueIP' : Z) (nodes : list Driver) : list string * list Driver :=
  match nodes with
  | [] => ([], [])
  | pDriver :: rest =>
      let pDriver := lock pDriver in
      let '(found, uniqueIP', out, pDriver) :=
        link_event w CurrentIpAddress Event UniqueId uniqueIP' pDriver in
      let pDriver := unlock pDriver in
      if found then (out, pDriver :: rest)
      else
        let '(out', rest) := link_loop w CurrentIpAddress Event UniqueId uniqueIP' rest in
        (out ++ out', pDriver :: rest)
  end.

Definition cameraLinkCallback (w : World) (CurrentIpAddress : Z -> Z)
    (Event UniqueId : Z) (cameraList : list Driver) : list string * list Driver :=
  link_loop w CurrentIpAddress Event UniqueId 0 cameraList.

(** ** A sample camera

    A world in which every call succeeds, and a driver connected to it
    with two armed descriptors.  The instances used in the examples below
    are variations of these. *)
Module Sample.

Definition info (access : Z) : tPvCameraInfoEx :=
  mkCameraInfo 5001 access "GC1380H" "02-2142A-06157" "00.01.42.00".

Definition uint32_attr (name : string) : Z * option Z :=
  if String.eqb name "SensorBits" then (0, Some 12)
  else if String.eqb name "SensorWidth" then (0, Some 1360)
  else if String.eqb name "SensorHeight" then (0, Some 1024)
  else if String.eqb name "Width" then (0, Some 1360)
  else if String.eqb name "Height" then (0, Some 1024)
  else if String.eqb name "BinningX" then (0, Some 1)
  else if String.eqb name "BinningY" then (0, Some 1)
  else if String.eqb name "TimeStampFrequency" then (0, Some 1000)
  else (0, Some 0).

Definition enum_attr (name : string) : Z * option string :=
  if String.eqb name "SensorType" then (0, Some "Mono")
  else if String.eqb name "PixelFormat" then (0, Some "Mono8")
  else if String.eqb name "AcquisitionMode" then (0, Some "Continuous")
  else if String.eqb name "FrameStartTriggerMode" then (0, Some "Freerun")
  else if String.eqb name "FrameStartTriggerEvent" then (0, Some "EdgeRising")
  else if String.eqb name "FrameStartTriggerOverlap" then (0, Some "Off")
  else if String.eqb name "SyncOut1Mode" then (0, Some "GPO")
  else if String.eqb name "SyncOut2Mode" then (0, Some "GPO")
  else if String.eqb name "SyncOut3Mode" then (0, Some "GPO")
  else if String.eqb name "Strobe1Mode" then (0, Some "FrameTrigger")
  else if String.eqb name "ExposureMode" then (0, Some "Manual")
  else if String.eqb name "GainMode" then (0, Some "Manual")
  else if String.eqb name "StatDriverType" then (0, Some "Standard")
  else (0, Some "Off").

Definition recycled : NDArray :=
  mkNDArray 0 0 (mkEpicsTimeStamp 0 0) 0%float 0 0 [] 0 ∅.

(** Every call succeeds; [info_of] answers the enquiries about the
    camera, [uint32_of] and [enum_of] the integer and enumeration
    getters and [pool] the image pool.  The clock reads 2000 s when a
    frame is stamped and 1000 s at the last synchronisation. *)
Definition world_with (info_of : nat -> Z -> Z * tPvCameraInfoEx)
    (uint32_of : string -> Z * option Z) (enum_of : string -> Z * option string)
    (pool : nat -> option NDArray) : World :=
  {| r_PvCameraInfoEx := info_of;
     r_hostToIPAddr := fun _ => (0, 3232235777);
     r_PvCameraInfoByAddrEx := fun _ => info_of 0%nat 5001;
     r_PvCameraOpen := (0, Some 1);
     r_PvCaptureAdjustPacketSize := 0;
     r_PvCaptureStart := 0;
     r_PvCaptureQueueFrame := fun _ => 0;
     r_PvCaptureQueueClear := 0;
     r_PvCaptureEnd := 0;
     r_PvCameraClose := 0;
     r_PvCommandRun := fun _ => 0;
     r_PvAttrUint32Get := uint32_of;
     r_PvAttrFloat32Get := fun _ => (0, Some 10%float);
     r_PvAttrEnumGet := enum_of;
     r_PvAttrStringGet := fun _ => (0, Some "1.26");
     r_PvAttrUint32Set := fun _ _ => 0;
     r_PvAttrEnumSet := fun _ _ => 0;
     r_PvVersion := (1, 28);
     r_exceptionConnect := 0;
     r_exceptionDisconnect := 0;
     r_ADDriver_writeInt32 := fun _ _ => 0;
     r_NDArrayPool_alloc := pool;
     r_epicsTimeGetCurrent := mkEpicsTimeStamp 1000 0;
     r_updateTimeStamp := mkEpicsTimeStamp 2000 0;
     r_epicsTimeAddSeconds := fun t _ => t;
     r_epicsTimeToTimespec :=
       fun t => mkTimespec (secPastEpoch t + 631152000) (nsec t);
     indet := fun _ => 0;
     indet_buffer := fun _ => "";
     indet_float := fun _ => 0%float |}.

Definition nominal : World :=
  world_with (fun _ _ => (0, info ePvAccessMaster)) uint32_attr enum_attr
    (fun _ => Some recycled).

(** The buffer bound to descriptor [n] of the connected driver. *)
Definition buffer (n : nat) : NDArray :=
  mkNDArray n 0 (mkEpicsTimeStamp 0 0) 0%float NDInt8 2
    (alloc_dims 2 [1360; 1024]) 1392640 ∅.

(** A completed frame in descriptor [n]. *)
Definition frame (status format bayerPattern : Z) (n : nat) : tPvFrame :=
  mkFrame status format 1360 1024 0 0 bayerPattern 7 5000 0
    (Some n) 1392640 (Some (buffer n)).

Definition parameters : gmap Param Z :=
  list_to_map
    [(ADBinX, 1); (ADBinY, 1); (ADMinX, 0); (ADMinY, 0);
     (ADSizeX, 1360); (ADSizeY, 1024); (ADMaxSizeX, 1360); (ADMaxSizeY, 1024);
     (ADImageMode, ADImageMultiple); (ADNumImages, 3);
     (ADAcquire, 1); (ADStatus, ADStatusAcquire);
     (NDArrayCounter, 41); (NDArrayCallbacks, 1);
     (PSBadFrameCounter, 0); (PSBayerConvert, PSBayerConvertNone);
     (PSTimestampType, PSTimestampTypeNativeTicks)].

(** A driver for the sample camera, holding [frames] and retaining
    [last]; [initialised] tells whether the vendor library was started
    and [handle] is the open camera, if any. *)
Definition driver_with (initialised : bool) (handle : option Z)
    (frames : list tPvFrame) (ints : gmap Param Z)
    (last : option NDArray) : Driver :=
  {| PvApiInitialized := initialised;
     PvHandle := handle;
     cameraId := "5001";
     uniqueIP := 0;
     uniqueId := 5001;
     PvCameraInfo := info ePvAccessMaster;
     PvFrames := frames;
     maxFrameSize := 1392640;
     maxPvAPIFrames_ := 2;
     framesRemaining := 3;
     sensorType := "Mono";
     IPAddress := "192.168.1.1";
     sensorBits := 12;
     sensorWidth := 1360;
     sensorHeight := 1024;
     timeStampFrequency := 1000;
     lastSyncTime := mkEpicsTimeStamp 1000 0;
     intParams := ints;
     doubleParams := ∅;
     stringParams := ∅;
     pArrays0 := last;
     poolSerial := 2;
     log := [] |}.

(** A driver connected to the sample camera. *)
Definition driver : list tPvFrame -> gmap Param Z -> option NDArray -> Driver :=
  driver_with true (Some 1).

(** A descriptor queued to the camera and not yet completed. *)
Definition idle_frame (n : nat) : tPvFrame :=
  mkFrame 0 0 0 0 0 0 0 0 0 0 (Some n) 1392640 (Some (buffer n)).

End Sample.


(** * Vocabulary of the properties

    What the theorems below say about the driver is phrased with the
    definitions of this part: observations of the log, the states the
    driver is expected to be in, and the answers expected of the
    camera. *)

(** ** Observations *)

(** The number of calls in a log that satisfy [P]. *)
Fixpoint count (P : Event -> bool) (l : list Event) : nat :=
  match l with
  | [] => 0%nat
  | e :: l' => ((if P e then 1 else 0) + count P l')%nat
  end.

Definition closes_shutter (e : Event) : bool :=
  match e with EvSetShutter v => v =? 0 | _ => false end.

Definition is_sleep (e : Event) : bool :=
  match e with EvThreadSleep _ => true | _ => false end.

(** The attributes asked of the camera according to a log, oldest first. *)
Fixpoint attribute_gets (l : list Event) : list string :=
  match l with
  | [] => []
  | EvPvAttrGet name :: l' => attribute_gets l' ++ [name]
  | _ :: l' => attribute_gets l'
  end.

(** The run ends without a fault. *)
Definition returns {A : Type} (r : run A) : bool :=
  match r with Ret _ => true | Fault _ => false end.

(** The state a run ends in, or [d] when it faults. *)
Definition returned (r : run Driver) (d : Driver) : Driver :=
  match r with Ret d' => d' | Fault _ => d end.

(** Only the log and the pool's serial number differ between [d] and [d']. *)
Definition same_but_log_pool (d d' : Driver) : Prop :=
  d' = with_log (log d') (with_poolSerial (poolSerial d') d).

(** ** Frames *)

(** [tPvBayerPattern] has four values. *)
Definition valid_BayerPattern (v : Z) : Prop :=
  v = ePvBayerRGGB \/ v = ePvBayerGBRG \/ v = ePvBayerGRBG \/ v = ePvBayerBGGR.

(** [framesRemaining] after one more good frame. *)
Definition after_frame (n : Z) : Z := if n >? 0 then n - 1 else n.

(** [framesRemaining] when acquisition starts; an image mode other than
    the three of [ADImageMode_t] sets nothing. *)
Definition initial_framesRemaining (imageMode numImages : Z) : option Z :=
  if imageMode =? ADImageSingle then Some 1
  else if imageMode =? ADImageMultiple then Some numImages
  else if imageMode =? ADImageContinuous then Some (-1)
  else None.




(** ** Geometry *)




(** ** Connection *)

(** The first [k] turns of the loop that frees the descriptors' images. *)
Definition free_frames (k : nat) (d : Driver) : Driver :=
  fold_left (fun d i => free_frame i d) (seq 0 k) d.

(** Without a camera no descriptor holds an image: so the constructor
    leaves the driver, and so does [disconnectCamera]. *)
Definition disconnected_clean (d : Driver) : Prop :=
  PvHandle d = None -> Forall (fun f => Context1 f = None) (PvFrames d).

(** A second [disconnectCamera] changes nothing and returns
    [asynSuccess], and the first has left no camera and no image. *)
Definition disconnect_twice (w : World) (d : Driver) : Prop :=
  let d1 := snd (disconnectCamera w d) in
  disconnectCamera w d1 = (asynSuccess, d1) /\
  PvHandle d1 = None /\
  Forall (fun f => Context1 f = None) (PvFrames d1).

(** [(PermittedAccess & ePvAccessMaster) == 0] *)
Definition denied (info : tPvCameraInfoEx) : bool :=
  Z.land (PermittedAccess info) ePvAccessMaster =? 0.

(** The calls of one turn of the retry loop, most recent first. *)
Definition retry_turn (id : Z) : list Event :=
  [EvPvCameraInfoEx id;
   EvThreadSleep CONNECT_RETRY_INTERVAL;
   EvAsynPrint ASYN_TRACE_FLOW "%s:%s: No RW access for camera %lu, retrying ...\n"].

Fixpoint turns (n : nat) (id : Z) : list Event :=
  match n with
  | O => []
  | S n' => retry_turn id ++ turns n' id
  end.

(** Every enquiry of the retry loop succeeds and reports no master access. *)
Definition access_stays_denied (w : World) : Prop :=
  forall n id, (1 <= n <= Z.to_nat CONNECT_RETRY_COUNT)%nat ->
    fst (r_PvCameraInfoEx w n id) = 0 /\ denied (snd (r_PvCameraInfoEx w n id)) = true.

(** The camera named by [cameraId] is found, by its number or by its
    address, and reports no master access. *)
Definition resolves_without_master_access (w : World) (d : Driver) : Prop :=
  if forallb isdigit (list_ascii_of_string (cameraId d)) then
    fst (r_PvCameraInfoEx w 0 (unsigned_long (atoi (cameraId d)))) = 0 /\
    denied (snd (r_PvCameraInfoEx w 0 (unsigned_long (atoi (cameraId d))))) = true
  else
    fst (r_hostToIPAddr w (cameraId d)) = 0 /\
    fst (r_PvCameraInfoByAddrEx w (snd (r_hostToIPAddr w (cameraId d)))) = 0 /\
    denied (snd (r_PvCameraInfoByAddrEx w (snd (r_hostToIPAddr w (cameraId d))))) = true.

(** ** Batch refresh *)

Inductive AttrKind := KUint32 | KFloat32 | KEnum | KString.

(** The status the camera answers a get of attribute [a] with. *)
Definition get_status (w : World) (a : string * AttrKind) : Z :=
  match snd a with
  | KUint32 => fst (r_PvAttrUint32Get w (fst a))
  | KFloat32 => fst (r_PvAttrFloat32Get w (fst a))
  | KEnum => fst (r_PvAttrEnumGet w (fst a))
  | KString => fst (r_PvAttrStringGet w (fst a))
  end.

(** The attributes [readStats] reads, in the order of the source. *)
Definition readStats_attributes : list (string * AttrKind) :=
  [("StatDriverType", KEnum); ("StatFilterVersion", KString); ("StatFrameRate", KFloat32);
   ("StreamBytesPerSecond", KUint32); ("PacketSize", KUint32);
   ("StatFramesCompleted", KUint32); ("StatFramesDropped", KUint32);
   ("StatPacketsErroneous", KUint32); ("StatPacketsMissed", KUint32);
   ("StatPacketsReceived", KUint32); ("StatPacketsRequested", KUint32);
   ("StatPacketsResent", KUint32); ("SyncInLevels", KUint32);
   ("SyncOutGpoLevels", KUint32); ("FrameStartTriggerDelay", KUint32);
   ("FrameStartTriggerEvent", KEnum); ("FrameStartTriggerOverlap", KEnum);
   ("SyncOut1Mode", KEnum); ("SyncOut2Mode", KEnum); ("SyncOut3Mode", KEnum);
   ("SyncOut1Invert", KEnum); ("SyncOut2Invert", KEnum); ("SyncOut3Invert", KEnum);
   ("Strobe1Mode", KEnum); ("Strobe1ControlledDuration", KEnum);
   ("Strobe1Delay", KUint32); ("Strobe1Duration", KUint32)].

(** The parameters [readStats] sets. *)
Definition readStats_slots : list Param :=
  [PSDriverType; PSFilterVersion; PSFrameRate; PSByteRate; PSPacketSize;
   PSFramesCompleted; PSFramesDropped; PSPacketsErroneous; PSPacketsMissed;
   PSPacketsReceived; PSPacketsRequested; PSPacketsResent;
   PSSyncIn1Level; PSSyncIn2Level; PSSyncOut1Level; PSSyncOut2Level; PSSyncOut3Level;
   PSTriggerDelay; PSTriggerEvent; PSTriggerOverlap;
   PSSyncOut1Mode; PSSyncOut2Mode; PSSyncOut3Mode;
   PSSyncOut1Invert; PSSyncOut2Invert; PSSyncOut3Invert;
   PSStrobe1Mode; PSStrobe1CtlDuration; PSStrobe1Delay; PSStrobe1Duration].

(** The attributes [readParameters] reads, [getGeometry] included. *)
Definition readParameters_attributes : list (string * AttrKind) :=
  [("TotalBytesPerFrame", KUint32); ("PixelFormat", KEnum);
   ("BinningX", KUint32); ("BinningY", KUint32); ("RegionX", KUint32);
   ("RegionY", KUint32); ("Width", KUint32); ("Height", KUint32);
   ("AcquisitionFrameCount", KUint32); ("AcquisitionMode", KEnum);
   ("FrameStartTriggerMode", KEnum); ("ExposureValue", KUint32);
   ("FrameRate", KFloat32); ("GainValue", KUint32);
   ("ExposureMode", KEnum); ("GainMode", KEnum)].

(** The parameters [readParameters] sets. *)
Definition readParameters_slots : list Param :=
  [NDArraySize; NDDataType; NDColorMode;
   ADBinX; ADBinY; ADMinX; ADMinY; ADSizeX; ADSizeY; NDArraySizeX; NDArraySizeY;
   ADNumImages; ADImageMode; ADTriggerMode; ADNumExposures;
   ADAcquireTime; ADAcquirePeriod; ADGain; PSExposureMode; PSGainMode].

(** The parameter has a value in the parameter library. *)
Definition defined (p : Param) (d : Driver) : bool :=
  match intParams d !! p, doubleParams d !! p, stringParams d !! p with
  | None, None, None => false
  | _, _, _ => true
  end.

(** The driver with an empty parameter library. *)
Definition blank (d : Driver) : Driver :=
  with_intParams ∅ (with_doubleParams ∅ (with_stringParams ∅ d)).

(** [BinningX] and [BinningY] may be missing: CMOS cameras have no binning. *)
Definition tolerated (w : World) (a : string * AttrKind) : Prop :=
  (fst a = "BinningX" \/ fst a = "BinningY") /\ get_status w a = ePvErrNotFound.

(** Whichever attribute get fails, [readParameters] returns a status
    other than [asynSuccess]. *)
Definition failure_is_accumulated (w : World) (d : Driver) : Prop :=
  forall a, In a readParameters_attributes -> get_status w a <> 0 ->
            fst (readParameters w d) <> 0.

(** ** Instances *)

Import Sample.

(** The sample driver with two queued descriptors and no image retained. *)
Definition connected : Driver :=
  driver [idle_frame 0; idle_frame 1] parameters None.

(** The driver as constructed when the vendor library could not be started. *)
Definition uninitialised : Driver :=
  driver_with false None [zeroed_frame; zeroed_frame] parameters None.

(** Another application holds the camera: every enquiry reports monitor
    access only. *)
Definition monitor_only_world : World :=
  world_with (fun _ _ => (0, info ePvAccessMonitor)) uint32_attr enum_attr
    (fun _ => Some recycled).

(** The region of interest starts 100 pixels into the sensor and asks
    for its whole width. *)
Definition offset_driver : Driver :=
  driver [idle_frame 0; idle_frame 1] (<[ADMinX := 100]> parameters) None.

(** Descriptor 0 completed with the given status, pixel format and Bayer
    pattern; image 9 is retained from an earlier frame. *)
Definition completed (status format bayerPattern : Z) : Driver :=
  driver [frame status format bayerPattern 0; idle_frame 1] parameters (Some (buffer 9)).

Definition cancelled_driver : Driver := completed ePvErrCancelled ePvFmtMono8 0.

Definition bad_frame_driver : Driver := completed ePvErrDataMissing ePvFmtMono8 0.

Definition good_frame_driver : Driver := completed ePvErrSuccess ePvFmtMono8 0.

(** A mono camera reporting a Bayer pattern outside the enumeration. *)
Definition odd_pattern_driver : Driver := completed ePvErrSuccess ePvFmtMono8 7.

(** [ePvFmtYuv411] is a format of the camera that the callback has no
    case for. *)
Definition unsupported_frame_driver : Driver := completed ePvErrSuccess ePvFmtYuv411 0.

(** An image the pool hands out again: it still carries the stamps of
    its previous use. *)
Definition stale : NDArray :=
  mkNDArray 0 3 (mkEpicsTimeStamp 1234 0) 1234%float 0 0 [] 0 ∅.

Definition stale_pool_world : World :=
  world_with (fun _ _ => (0, info ePvAccessMaster)) uint32_attr enum_attr
    (fun _ => Some stale).


Definition ioc_parameters (bayerConvert : Z) : gmap Param Z :=
  <[PSTimestampType := PSTimestampTypeIOC]> (<[PSBayerConvert := bayerConvert]> parameters).

(** A Bayer8 frame completed in descriptor 0, time stamps taken from the
    IOC clock. *)
Definition bayer_driver (bayerConvert : Z) : Driver :=
  driver [frame ePvErrSuccess ePvFmtBayer8 0 0; idle_frame 1]
    (ioc_parameters bayerConvert) None.

(** A CMOS camera: it has no [BinningX] and no [BinningY]. *)
Definition no_binning (name : string) : Z * option Z :=
  if String.eqb name "BinningX" then (ePvErrNotFound, None)
  else if String.eqb name "BinningY" then (ePvErrNotFound, None)
  else uint32_attr name.

Definition cmos_world : World :=
  world_with (fun _ _ => (0, info ePvAccessMaster)) no_binning enum_attr
    (fun _ => Some recycled).

(** ** Frames as they are published *)

Definition is_delivery (e : Event) : bool :=
  match e with EvDoCallbacksGenericPointer _ => true | _ => false end.


(** The frame goes through the Bayer conversion. *)
Definition is_converted (pFrame : tPvFrame) (bayerConvert : Z) : bool :=
  ((Format pFrame =? ePvFmtBayer8) || (Format pFrame =? ePvFmtBayer16))
  && negb (bayerConvert =? PSBayerConvertNone).

(** The pixel formats the callback has a case for: data type, colour
    mode, and whether the image has a colour axis. *)
Definition format_layout (fmt : Z) : option (Z * Z * bool) :=
  if fmt =? ePvFmtMono8 then Some (NDUInt8, NDColorModeMono, false)
  else if fmt =? ePvFmtMono16 then Some (NDUInt16, NDColorModeMono, false)
  else if fmt =? ePvFmtBayer8 then Some (NDUInt8, NDColorModeBayer, false)
  else if fmt =? ePvFmtBayer16 then Some (NDUInt16, NDColorModeBayer, false)
  else if fmt =? ePvFmtRgb24 then Some (NDUInt8, NDColorModeRGB1, true)
  else if fmt =? ePvFmtRgb48 then Some (NDUInt16, NDColorModeRGB1, true)
  else None.

(** The three kinds of axis of an image. *)
Definition axis_X (pFrame : tPvFrame) (binX : Z) : NDDimension :=
  mkDim (Width pFrame) (RegionX pFrame) binX.
Definition axis_Y (pFrame : tPvFrame) (binY : Z) : NDDimension :=
  mkDim (Height pFrame) (RegionY pFrame) binY.
Definition axis_color : NDDimension := mkDim 3 0 1.


(** The time stamp modes that divide by the tick frequency. *)
Definition uses_frequency (mode : Z) : bool :=
  (mode =? PSTimestampTypeNativeSeconds) || (mode =? PSTimestampTypePOSIX)
  || (mode =? PSTimestampTypeEPICS).

(** The time stamp of a frame by mode, in closed form: ticks, ticks over
    the frequency (1 for 0), the last synchronisation plus those seconds
    as POSIX or as EPICS seconds, or the clock read when the frame is
    decoded. *)
Definition expected_timeStamp (w : World) (mode : Z) (pFrame : tPvFrame) (d : Driver)
  : float :=
  let ticks := native_frame_ticks pFrame in
  let frequency := if timeStampFrequency d =? 0 then 1 else timeStampFrequency d in
  let seconds := PrimFloat.div ticks (double_of_Z frequency) in
  let frame_time := r_epicsTimeAddSeconds w (lastSyncTime d) seconds in
  if mode =? PSTimestampTypeNativeSeconds then seconds
  else if mode =? PSTimestampTypePOSIX then
    seconds_of (tv_sec (r_epicsTimeToTimespec w frame_time))
      (tv_nsec (r_epicsTimeToTimespec w frame_time))
  else if mode =? PSTimestampTypeEPICS then
    seconds_of (secPastEpoch frame_time) (nsec frame_time)
  else if mode =? PSTimestampTypeIOC then
    seconds_of (secPastEpoch (r_updateTimeStamp w)) (nsec (r_updateTimeStamp w))
  else ticks.

(** The colour mode and the order of the axes a Bayer conversion gives. *)
Definition conversion_layout (bayerConvert : Z) (pFrame : tPvFrame) (binX binY : Z)
  : option (Z * list NDDimension) :=
  if bayerConvert =? PSBayerConvertRGB1 then
    Some (NDColorModeRGB1, [axis_color; axis_X pFrame binX; axis_Y pFrame binY])
  else if bayerConvert =? PSBayerConvertRGB2 then
    Some (NDColorModeRGB2, [axis_X pFrame binX; axis_color; axis_Y pFrame binY])
  else if bayerConvert =? PSBayerConvertRGB3 then
    Some (NDColorModeRGB3, [axis_X pFrame binX; axis_Y pFrame binY; axis_color])
  else None.

(** ** Connection and link events *)

Definition is_enquiry (e : Event) : bool :=
  match e with EvPvCameraInfoEx _ => true | _ => false end.

(** Descriptor [pFrame], in slot [i], is bound to an image of [size]
    bytes of its own, which is allocation number [serial], and has been
    queued with it according to [l]. *)
Definition armed (i : nat) (serial : nat) (size : Z) (l : list Event) (pFrame : tPvFrame)
  : Prop :=
  exists pImage,
    Context1 pFrame = Some pImage /\
    nd_alloc pImage = serial /\
    nd_dataSize pImage = size /\
    ImageBuffer pFrame = Some serial /\
    ImageBufferSize pFrame = size /\
    In (EvPvCaptureQueueFrame i (Some serial)) l.

(** A driver the callback has only looked at. *)
Definition passed_over (d : Driver) : Driver := unlock (lock d).

(** ** Geometry and pixel format *)

(** The camera took an attribute, or does not have it. *)
Definition accepted_or_missing (status : Z) : bool :=
  (status =? 0) || (status =? ePvErrNotFound).

(** The size [setGeometry] keeps for an axis. *)
Definition clamped_size (offset size maximum : Z) : Z :=
  if int32 (offset + size) >? maximum then int32 (maximum - offset) else size.





(** The name [setPixelFormat] sends for a data type and a colour mode. *)
Definition pixel_format_name (dataType colorMode : Z) : option string :=
  if (colorMode =? NDColorModeMono) && (dataType =? NDUInt8) then Some "Mono8"
  else if (colorMode =? NDColorModeMono) && (dataType =? NDUInt16) then Some "Mono16"
  else if (colorMode =? NDColorModeRGB1) && (dataType =? NDUInt8) then Some "Rgb24"
  else if (colorMode =? NDColorModeRGB1) && (dataType =? NDUInt16) then Some "Rgb48"
  else if (colorMode =? NDColorModeBayer) && (dataType =? NDUInt8) then Some "Bayer8"
  else if (colorMode =? NDColorModeBayer) && (dataType =? NDUInt16) then Some "Bayer16"
  else None.

(** ** Writes *)

(** The tables [writeInt32] indexes by the value written, each with a
    parameter and the attribute it is sent to. *)
Definition mode_tables : list (list string) :=
  [PSTriggerStartModes; PSTriggerEventModes; PSTriggerOverlapModes; PSSyncOutModes;
   PSStrobeModes; PSExposureModes; PSGainModes].

(** The parameters whose value [writeInt32] uses as an index without
    comparing it with the length of the table. *)
Definition unchecked_tables : list (Param * list string) :=
  [(PSTriggerEvent, PSTriggerEventModes); (PSTriggerOverlap, PSTriggerOverlapModes);
   (PSSyncOut1Mode, PSSyncOutModes); (PSSyncOut2Mode, PSSyncOutModes);
   (PSSyncOut3Mode, PSSyncOutModes); (PSStrobe1Mode, PSStrobeModes);
   (PSExposureMode, PSExposureModes); (PSGainMode, PSGainModes)].

(** A write to the camera: an attribute set or a command. *)
Definition is_write (e : Event) : bool :=
  match e with
  | EvPvAttrUint32Set _ _ | EvPvAttrEnumSet _ _ | EvPvCommandRun _ _ => true
  | _ => false
  end.

(** Attribute [name] is set to the enumeration string [value]. *)
Definition sets_enum (name value : string) (e : Event) : bool :=
  match e with
  | EvPvAttrEnumSet n v => String.eqb n name && String.eqb v value
  | _ => false
  end.

(** The value [set_sync_level] sends for [SyncOutGpoLevels]. *)
Definition new_sync_levels (syncs k value : Z) : Z :=
  uint32 (Z.lor (Z.land syncs (Z.lnot (Z.shiftl 1 k)))
                (Z.land (Z.shiftl value k) (Z.shiftl 1 k))).

(** The bit of [SyncOutGpoLevels] that the level parameter of a sync
    output stands for. *)
Definition sync_level_bit (p : Param) : option Z :=
  match p with
  | PSSyncOut1Level => Some 0
  | PSSyncOut2Level => Some 1
  | PSSyncOut3Level => Some 2
  | _ => None
  end.

(** The mode parameters [readParameters] decodes, each with the
    attribute it mirrors and its table. *)
Definition read_back_tables : list (Param * string * list string) :=
  [(ADTriggerMode, "FrameStartTriggerMode", PSTriggerStartModes);
   (PSExposureMode, "ExposureMode", PSExposureModes);
   (PSGainMode, "GainMode", PSGainModes)].


(** ** More instances *)

(** The sample camera held open by another application: it is found,
    grants master access, and cannot be opened. *)
Definition unopenable_world : World :=
  {| r_PvCameraInfoEx := r_PvCameraInfoEx nominal;
     r_hostToIPAddr := r_hostToIPAddr nominal;
     r_PvCameraInfoByAddrEx := r_PvCameraInfoByAddrEx nominal;
     r_PvCameraOpen := (ePvErrUnplugged, None);
     r_PvCaptureAdjustPacketSize := r_PvCaptureAdjustPacketSize nominal;
     r_PvCaptureStart := r_PvCaptureStart nominal;
     r_PvCaptureQueueFrame := r_PvCaptureQueueFrame nominal;
     r_PvCaptureQueueClear := r_PvCaptureQueueClear nominal;
     r_PvCaptureEnd := r_PvCaptureEnd nominal;
     r_PvCameraClose := r_PvCameraClose nominal;
     r_PvCommandRun := r_PvCommandRun nominal;
     r_PvAttrUint32Get := r_PvAttrUint32Get nominal;
     r_PvAttrFloat32Get := r_PvAttrFloat32Get nominal;
     r_PvAttrEnumGet := r_PvAttrEnumGet nominal;
     r_PvAttrStringGet := r_PvAttrStringGet nominal;
     r_PvAttrUint32Set := r_PvAttrUint32Set nominal;
     r_PvAttrEnumSet := r_PvAttrEnumSet nominal;
     r_PvVersion := r_PvVersion nominal;
     r_exceptionConnect := r_exceptionConnect nominal;
     r_exceptionDisconnect := r_exceptionDisconnect nominal;
     r_ADDriver_writeInt32 := r_ADDriver_writeInt32 nominal;
     r_NDArrayPool_alloc := r_NDArrayPool_alloc nominal;
     r_epicsTimeGetCurrent := r_epicsTimeGetCurrent nominal;
     r_updateTimeStamp := r_updateTimeStamp nominal;
     r_epicsTimeAddSeconds := r_epicsTimeAddSeconds nominal;
     r_epicsTimeToTimespec := r_epicsTimeToTimespec nominal;
     indet := indet nominal;
     indet_buffer := indet_buffer nominal;
     indet_float := indet_float nominal |}.

(** A second camera of the same IOC. *)
Definition other_camera : Driver :=
  with_uniqueId 5002
    (driver_with true (Some 2) [idle_frame 0; idle_frame 1] parameters None).

(** The sample driver when its camera is unplugged. *)
Definition unplugged : Driver :=
  driver_with true None [zeroed_frame; zeroed_frame] parameters None.



(** * Properties *)

(** ** Arithmetic and logs *)

Lemma int32_small z : -2147483648 <= z <= 2147483647 -> int32 z = z.
Proof. intros H. unfold int32. rewrite Z.mod_small; lia. Qed.

Lemma or_status_0 a b : or_status a b = 0 -> a = 0 /\ b = 0.
Proof. unfold or_status. apply Z.lor_eq_0_iff. Qed.

Lemma returns_Ret (r : run Driver) (d : Driver) :
  returns r = true -> r = Ret (returned r d).
Proof. destruct r; [reflexivity|discriminate]. Qed.

Lemma count_app P l1 l2 : count P (l1 ++ l2) = (count P l1 + count P l2)%nat.
Proof. induction l1 as [|e l1 IH]; cbn; [reflexivity|]. rewrite IH. lia. Qed.

Lemma turns_snoc n id : turns n id ++ retry_turn id = retry_turn id ++ turns n id.
Proof. induction n as [|n IH]; cbn [turns]; [now rewrite app_nil_r|].
  rewrite <- app_assoc, IH. reflexivity. Qed.

Lemma count_sleep_turns n id : count is_sleep (turns n id) = n.
Proof. induction n as [|n IH]; cbn; [reflexivity|]. cbn in IH. rewrite IH. reflexivity. Qed.

Lemma attribute_gets_app l1 l2 :
  attribute_gets (l1 ++ l2) = attribute_gets l2 ++ attribute_gets l1.
Proof.
  induction l1 as [|e l1 IH]; cbn; [now rewrite app_nil_r|].
  destruct e; rewrite ?IH, ?app_assoc; reflexivity.
Qed.

(** A log that only grows keeps what it held. *)
Lemma grows_nil (L : list Event) : exists new, L = new ++ L.
Proof. exists []. reflexivity. Qed.
Lemma grows_cons (e : Event) (A L : list Event) :
  (exists new, A = new ++ L) -> exists new, e :: A = new ++ L.
Proof. intros [n ->]. exists (e :: n). reflexivity. Qed.
Lemma grows_if (c : bool) (e : Event) (A L : list Event) :
  (exists new, A = new ++ L) -> exists new, (if c then [e] else []) ++ A = new ++ L.
Proof. intros [n ->]. exists ((if c then [e] else []) ++ n). now rewrite app_assoc. Qed.

Ltac grows := repeat first [apply grows_cons | apply grows_if]; apply grows_nil.

(** ** The frame callback, phase by phase *)

Lemma decode_format_core w f bc bx by_ c a d img c' d1 :
  decode_format w f bc bx by_ c a d = Ret (img, c', d1) ->
  same_but_log_pool d d1 /\ (poolSerial d <= poolSerial d1)%nat /\
  count closes_shutter (log d1) = count closes_shutter (log d).
Proof.
  unfold decode_format, bayer_convert, NDArrayPool_alloc, same_but_log_pool.
  intros H. destruct d.
  repeat case_match; simplify_eq; cbn; (split; [reflexivity|]); (split; [lia|reflexivity]).
Qed.

Lemma set_timeStamp_attributes w f a d :
  nd_attributes (fst (set_timeStamp w f a d)) = nd_attributes a.
Proof. unfold set_timeStamp. repeat case_match; reflexivity. Qed.

Lemma set_timeStamp_alloc w f a d :
  nd_alloc (fst (set_timeStamp w f a d)) = nd_alloc a.
Proof. unfold set_timeStamp. repeat case_match; reflexivity. Qed.

(** [set_timeStamp] changes nothing of the driver but, possibly, [timeStampFrequency]. *)
Lemma set_timeStamp_driver w f a d :
  snd (set_timeStamp w f a d)
  = with_timeStampFrequency (timeStampFrequency (snd (set_timeStamp w f a d))) d.
Proof.
  unfold set_timeStamp, floor_frequency. destruct d.
  repeat case_match; reflexivity.
Qed.

Lemma deliver_driver w a d : deliver w a d = with_log (log (deliver w a d)) d.
Proof. unfold deliver. destruct d. case_match; reflexivity. Qed.

Lemma deliver_shutter w a d :
  count closes_shutter (log (deliver w a d)) = count closes_shutter (log d).
Proof. unfold deliver. case_match; reflexivity. Qed.

Lemma acquisition_done_framesRemaining d :
  framesRemaining (acquisition_done d) = after_frame (framesRemaining d).
Proof. unfold acquisition_done, after_frame. repeat case_match; reflexivity. Qed.

Lemma acquisition_done_shutter d :
  count closes_shutter (log (acquisition_done d))
  = Nat.add (if after_frame (framesRemaining d) =? 0 then 1%nat else 0%nat)
      (count closes_shutter (log d)).
Proof.
  unfold acquisition_done, after_frame.
  destruct (framesRemaining d >? 0) eqn:E; cbn; case_match; reflexivity.
Qed.

Lemma acquisition_done_params d p :
  intParams (acquisition_done d) !! p
  = if after_frame (framesRemaining d) =? 0
    then (if decide (p = ADStatus) then Some ADStatusIdle
          else if decide (p = ADAcquire) then Some 0
          else intParams d !! p)
    else intParams d !! p.
Proof.
  unfold acquisition_done, after_frame.
  destruct (framesRemaining d >? 0) eqn:E; cbn; case_match; cbn; try reflexivity.
  all: repeat case_decide; simplify_map_eq; reflexivity.
Qed.

Lemma acquisition_done_driver d :
  acquisition_done d
  = with_log (log (acquisition_done d)) (with_intParams (intParams (acquisition_done d))
      (with_framesRemaining (framesRemaining (acquisition_done d)) d)).
Proof. unfold acquisition_done. destruct d. repeat case_match; reflexivity. Qed.

Lemma update_frame_counter_driver w d :
  update_frame_counter w d
  = with_log (log (update_frame_counter w d))
      (with_intParams (intParams (update_frame_counter w d)) d).
Proof. destruct d; reflexivity. Qed.

Lemma update_frame_counter_params w d p :
  p <> NDArrayCounter -> intParams (update_frame_counter w d) !! p = intParams d !! p.
Proof. intros Hp. cbn. rewrite lookup_insert_ne by congruence. reflexivity. Qed.

Lemma update_frame_counter_shutter w d :
  count closes_shutter (log (update_frame_counter w d)) = count closes_shutter (log d).
Proof. reflexivity. Qed.

Lemma retain_image_driver a d :
  retain_image a d = with_pArrays0 (Some a) (with_log (log (retain_image a d)) d).
Proof. unfold retain_image. destruct d. cbn. case_match; reflexivity. Qed.

Lemma retain_image_shutter a d :
  count closes_shutter (log (retain_image a d)) = count closes_shutter (log d).
Proof. unfold retain_image. case_match; reflexivity. Qed.

Lemma rebind_inv w f d f' d' :
  rebind w f d = Ret (f', d') ->
  d' = with_poolSerial (S (poolSerial d)) d /\
  exists buf,
    Context1 f' = Some buf /\ ImageBuffer f' = Some (nd_alloc buf) /\
    nd_alloc buf = poolSerial d /\ nd_dataSize buf = maxFrameSize d /\
    nd_dims buf = alloc_dims 2 [sensorWidth d; sensorHeight d] /\
    f' = frame_with_ImageBuffer (Some (nd_alloc buf)) (frame_with_Context1 (Some buf) f).
Proof.
  unfold rebind, NDArrayPool_alloc. intros H.
  destruct (r_NDArrayPool_alloc w (poolSerial d)) as [raw|] eqn:E; cbn in H; [|discriminate].
  inversion H; subst. split; [reflexivity|].
  eexists. repeat split; reflexivity.
Qed.

(** What a good frame leaves behind. *)
Lemma frame_good_facts w f a d f' d' :
  frame_good w f a d = Ret (f', d') ->
  framesRemaining d' = after_frame (framesRemaining d) /\
  count closes_shutter (log d')
  = Nat.add (if after_frame (framesRemaining d) =? 0 then 1%nat else 0%nat)
      (count closes_shutter (log d)) /\
  (forall p, p <> NDArrayCounter ->
     intParams d' !! p
     = if after_frame (framesRemaining d) =? 0
       then (if decide (p = ADStatus) then Some ADStatusIdle
             else if decide (p = ADAcquire) then Some 0
             else intParams d !! p)
       else intParams d !! p) /\
  (exists img, pArrays0 d' = Some img /\
     nd_attributes img !! "BayerPattern" = Some (int32 (BayerPattern (fix_BayerPattern f)))) /\
  (exists buf, Context1 f' = Some buf /\ ImageBuffer f' = Some (nd_alloc buf) /\
     (poolSerial d <= nd_alloc buf)%nat /\
     nd_dataSize buf = maxFrameSize d /\
     nd_dims buf = alloc_dims 2 [sensorWidth d; sensorHeight d] /\
     f' = frame_with_ImageBuffer (Some (nd_alloc buf))
            (frame_with_Context1 (Some buf) (fix_BayerPattern f))) /\
  PvFrames d' = PvFrames d /\ PvHandle d' = PvHandle d.
Proof.
  unfold frame_good. intros H.
  destruct (decode_format _ _ _ _ _ _ _ _) as [[[img c] d1]|] eqn:E; [|discriminate].
  apply decode_format_core in E as (Hd1 & Hpool & Hsh1). unfold same_but_log_pool in Hd1.
  remember (attr_add "ColorMode" c (attr_add "BayerPattern" _ img)) as img1 eqn:Himg1.
  remember (set_timeStamp w (fix_BayerPattern f) img1 d1) as st eqn:Est.
  remember (deliver w (fst st) (snd st)) as d2 eqn:Ed2.
  remember (acquisition_done d2) as d3 eqn:Ed3.
  remember (update_frame_counter w d3) as d4 eqn:Ed4.
  remember (retain_image (fst st) d4) as d5 eqn:Ed5.
  apply rebind_inv in H as (Hd' & buf & Hc & Hib & Hal & Hds & Hdm & Hf').
  pose proof (set_timeStamp_driver w (fix_BayerPattern f) img1 d1) as Hst. rewrite <- Est in Hst.
  pose proof (deliver_driver w (fst st) (snd st)) as Hd2. rewrite <- Ed2 in Hd2.
  pose proof (deliver_shutter w (fst st) (snd st)) as Hsh2. rewrite <- Ed2 in Hsh2.
  pose proof (acquisition_done_driver d2) as Hd3. rewrite <- Ed3 in Hd3.
  pose proof (acquisition_done_framesRemaining d2) as Hfr3. rewrite <- Ed3 in Hfr3.
  pose proof (acquisition_done_shutter d2) as Hsh3. rewrite <- Ed3 in Hsh3.
  pose proof (acquisition_done_params d2) as Hpar3. rewrite <- Ed3 in Hpar3.
  pose proof (update_frame_counter_driver w d3) as Hd4. rewrite <- Ed4 in Hd4.
  pose proof (update_frame_counter_params w d3) as Hpar4. rewrite <- Ed4 in Hpar4.
  pose proof (update_frame_counter_shutter w d3) as Hsh4. rewrite <- Ed4 in Hsh4.
  pose proof (retain_image_driver (fst st) d4) as Hd5. rewrite <- Ed5 in Hd5.
  pose proof (retain_image_shutter (fst st) d4) as Hsh5. rewrite <- Ed5 in Hsh5.
  assert (Hattr : nd_attributes (fst st) !! "BayerPattern"
                  = Some (int32 (BayerPattern (fix_BayerPattern f)))).
  { rewrite Est, set_timeStamp_attributes, Himg1; cbn.
    rewrite lookup_insert_ne by discriminate. apply lookup_insert_eq. }
  clear Ed2 Ed3 Ed4 Ed5 Est Himg1.
  (* fields of [d2] in terms of [d] *)
  assert (F2 : framesRemaining d2 = framesRemaining d /\ intParams d2 = intParams d /\
               poolSerial d2 = poolSerial d1 /\ maxFrameSize d2 = maxFrameSize d /\
               sensorWidth d2 = sensorWidth d /\ sensorHeight d2 = sensorHeight d /\
               PvFrames d2 = PvFrames d /\ PvHandle d2 = PvHandle d).
  { rewrite Hd2; cbn. rewrite Hst; cbn. rewrite Hd1; cbn. repeat split. }
  destruct F2 as (F2a & F2b & F2c & F2d & F2e & F2f & F2g & F2h).
  assert (F5 : framesRemaining d5 = framesRemaining d3 /\ intParams d5 = intParams d4 /\
               poolSerial d5 = poolSerial d2 /\ maxFrameSize d5 = maxFrameSize d2 /\
               sensorWidth d5 = sensorWidth d2 /\ sensorHeight d5 = sensorHeight d2 /\
               PvFrames d5 = PvFrames d2 /\ PvHandle d5 = PvHandle d2 /\
               pArrays0 d5 = Some (fst st)).
  { rewrite Hd5; cbn. rewrite Hd4; cbn. rewrite Hd3; cbn. repeat split. }
  destruct F5 as (F5a & F5b & F5c & F5d & F5e & F5f & F5g & F5h & F5i).
  subst d'. cbn.
  split. { rewrite F5a, Hfr3, F2a. reflexivity. }
  split. { rewrite Hsh5, Hsh4, Hsh3, F2a, Hsh2, Hst; cbn. rewrite Hsh1. reflexivity. }
  split. { intros p Hp. rewrite F5b, Hpar4, Hpar3, F2a, F2b by exact Hp. reflexivity. }
  split. { eexists; split; [exact F5i|exact Hattr]. }
  split. { exists buf. repeat split; try assumption.
           - rewrite Hal, F5c, F2c. exact Hpool.
           - rewrite Hds, F5d, F2d. reflexivity.
           - rewrite Hdm, F5e, F5f, F2e, F2f. reflexivity. }
  rewrite F5g, F5h. auto.
Qed.

Lemma frameCallback_good w slot d f a :
  PvFrames d !! slot = Some f -> Context1 f = Some a -> Status f = ePvErrSuccess ->
  frameCallback w slot d
  = match frame_good w f a (lock d) with
    | Fault x => Fault x
    | Ret (f', d1) =>
        Ret (unlock (emit (EvPvCaptureQueueFrame slot (ImageBuffer f'))
               (callParamCallbacks (with_PvFrames (<[slot := f']> (PvFrames d1)) d1))))
    end.
Proof.
  intros Hf Ha Hs. unfold frameCallback. rewrite Hf, Ha, Hs. cbn.
  destruct (frame_good w f a (lock d)) as [[f' d1]|]; reflexivity.
Qed.

Lemma frameCallback_bad w slot d f :
  PvFrames d !! slot = Some f -> Status f <> ePvErrCancelled ->
  Context1 f = None \/ Status f <> ePvErrSuccess ->
  frameCallback w slot d
  = Ret (unlock (emit (EvPvCaptureQueueFrame slot (ImageBuffer f))
           (callParamCallbacks
              (with_PvFrames (<[slot := f]> (PvFrames d)) (frame_bad w (lock d)))))).
Proof.
  intros Hf Hc Hb. unfold frameCallback. rewrite Hf.
  destruct (Status f =? ePvErrCancelled) eqn:E; [apply Z.eqb_eq in E; contradiction|].
  destruct (Context1 f) as [a|] eqn:Ea.
  - destruct Hb as [Hb|Hb]; [discriminate|].
    destruct (Status f =? ePvErrSuccess) eqn:E2; [apply Z.eqb_eq in E2; contradiction|].
    reflexivity.
  - reflexivity.
Qed.




(** ** Cancelled frames *)

(** C10: when the completed frame is marked cancelled, the callback
    returns at once and the driver is left exactly as it was: the lock
    is not taken, no counter, parameter or retained image changes, and
    the descriptor is not queued again (nothing is added to the log of
    calls). *)
Theorem frameCallback_cancelled w slot d pFrame :
  PvFrames d !! slot = Some pFrame ->
  Status pFrame = ePvErrCancelled ->
  frameCallback w slot d = Ret d.
Proof.
  intros Hf Hs. unfold frameCallback. rewrite Hf, Hs. reflexivity.
Qed.

(** The sample driver with a cancelled frame in descriptor 0. *)
Lemma frameCallback_cancelled_witness :
  frameCallback nominal 0 cancelled_driver = Ret cancelled_driver.
Proof.
  apply (frameCallback_cancelled nominal 0%nat cancelled_driver
           (frame ePvErrCancelled ePvFmtMono8 0 0)); reflexivity.
Defined.

(** ** The Bayer pattern *)

(** C8: for a frame that completes successfully, the image the callback
    publishes carries a [BayerPattern] attribute within the enumeration
    of four patterns: the value the camera reported when that is one of
    the four, and the default [ePvBayerRGGB] otherwise.  The pattern is
    an unsigned enumeration, hence [0 <= BayerPattern pFrame]. *)
Theorem BayerPattern_attribute_valid w slot d pFrame pImage d' :
  PvFrames d !! slot = Some pFrame ->
  Context1 pFrame = Some pImage ->
  Status pFrame = ePvErrSuccess ->
  0 <= BayerPattern pFrame ->
  frameCallback w slot d = Ret d' ->
  exists img v,
    pArrays0 d' = Some img /\
    nd_attributes img !! "BayerPattern" = Some v /\
    valid_BayerPattern v /\
    (valid_BayerPattern (BayerPattern pFrame) -> v = BayerPattern pFrame) /\
    (~ valid_BayerPattern (BayerPattern pFrame) -> v = ePvBayerRGGB).
Proof.
  intros Hf Ha Hs Hnn H.
  rewrite (frameCallback_good w slot d pFrame pImage Hf Ha Hs) in H.
  destruct (frame_good w pFrame pImage (lock d)) as [[f' d1]|] eqn:E; [|discriminate].
  apply frame_good_facts in E as (_ & _ & _ & (img & Himg & Hattr) & _).
  inversion H; subst d'; clear H. cbn.
  exists img, (int32 (BayerPattern (fix_BayerPattern pFrame))).
  split; [exact Himg|]. split; [exact Hattr|].
  unfold fix_BayerPattern, valid_BayerPattern, ePvBayerRGGB, ePvBayerGBRG, ePvBayerGRBG,
    ePvBayerBGGR in *.
  destruct (BayerPattern pFrame >? 3) eqn:G; cbn.
  - apply Z.gtb_lt in G. split; [left; reflexivity|]. split; [lia|reflexivity].
  - assert (BayerPattern pFrame <= 3) by (rewrite Z.gtb_ltb in G; apply Z.ltb_ge in G; lia).
    rewrite int32_small by lia. split; [lia|]. split; [reflexivity|lia].
Qed.

(** A mono frame reporting pattern 7 is published with [ePvBayerRGGB]. *)
Lemma BayerPattern_attribute_valid_witness :
  exists img v,
    pArrays0 (returned (frameCallback nominal 0 odd_pattern_driver) odd_pattern_driver)
    = Some img /\
    nd_attributes img !! "BayerPattern" = Some v /\
    valid_BayerPattern v /\
    (valid_BayerPattern 7 -> v = 7) /\
    (~ valid_BayerPattern 7 -> v = ePvBayerRGGB).
Proof.
  apply (BayerPattern_attribute_valid nominal 0%nat odd_pattern_driver
           (frame ePvErrSuccess ePvFmtMono8 7 0) (buffer 0)).
  - reflexivity.
  - reflexivity.
  - reflexivity.
  - vm_compute. discriminate.
  - apply returns_Ret. vm_compute. reflexivity.
Defined.

(** ** Unsupported pixel formats *)

(** C1: a frame that completes successfully in a pixel format the
    callback has no case for ([ePvFmtYuv411]) is not dropped.  The
    bad-frame counter stays at 0, the image counter goes from 41 to 42,
    [framesRemaining] from 3 to 2; the frame's own buffer (number 0)
    replaces the retained image (number 9, which is released), is handed
    to the image consumer, and carries as its [ColorMode] whatever the
    uninitialised local [colorMode] holds. *)
Lemma unsupported_format_is_published :
  let d := unsupported_frame_driver in
  let d' := returned (frameCallback nominal 0 d) d in
  frameCallback nominal 0 d = Ret d' /\
  intParams d !! PSBadFrameCounter = Some 0 /\
  intParams d' !! PSBadFrameCounter = Some 0 /\
  intParams d !! NDArrayCounter = Some 41 /\
  intParams d' !! NDArrayCounter = Some 42 /\
  framesRemaining d = 3 /\
  framesRemaining d' = 2 /\
  nd_alloc <$> pArrays0 d = Some 9%nat /\
  nd_alloc <$> pArrays0 d' = Some 0%nat /\
  (pArrays0 d' ≫= fun img => nd_attributes img !! "ColorMode")
  = Some (indet nominal "colorMode") /\
  In (EvDoCallbacksGenericPointer 0) (log d') /\
  In (EvNDArrayRelease 9) (log d').
Proof.
  cbv zeta. split; [apply returns_Ret; vm_compute; reflexivity|].
  repeat (split; [vm_compute; reflexivity|]).
  split; vm_compute; repeat first [left; reflexivity | right].
Qed.

(** ** Time stamps *)

(** C4: with time stamps taken from the IOC clock, a Bayer8 frame that
    is converted to RGB1 is published in a newly allocated image that
    was never stamped: it carries the stamps (1234 s, id 3) the pool's
    image had, although the clock reads 2000 s and the frame count is 7.
    The same frame published without conversion carries 2000 s and 7. *)
Lemma converted_frame_is_not_stamped :
  let converted := bayer_driver PSBayerConvertRGB1 in
  let plain := bayer_driver PSBayerConvertNone in
  let d1 := returned (frameCallback stale_pool_world 0 converted) converted in
  let d2 := returned (frameCallback stale_pool_world 0 plain) plain in
  r_updateTimeStamp stale_pool_world = mkEpicsTimeStamp 2000 0 /\
  (frameCallback stale_pool_world 0 converted = Ret d1 /\
   nd_epicsTS <$> pArrays0 d1 = Some (mkEpicsTimeStamp 1234 0) /\
   nd_timeStamp <$> pArrays0 d1 = Some 1234%float /\
   nd_uniqueId <$> pArrays0 d1 = Some 3) /\
  (frameCallback stale_pool_world 0 plain = Ret d2 /\
   nd_epicsTS <$> pArrays0 d2 = Some (mkEpicsTimeStamp 2000 0) /\
   nd_timeStamp <$> pArrays0 d2 = Some 2000%float /\
   nd_uniqueId <$> pArrays0 d2 = Some 7).
Proof.
  cbv zeta. split; [reflexivity|].
  split; (split; [apply returns_Ret; vm_compute; reflexivity|]);
    repeat split; vm_compute; reflexivity.
Qed.

(** ** The frames-remaining counter *)

Lemma readParameters_log w d :
  exists new, log (snd (readParameters w d)) = new ++ log d.
Proof. cbn; grows. Qed.

Lemma readParameters_framesRemaining w d :
  framesRemaining (snd (readParameters w d)) = framesRemaining d.
Proof. reflexivity. Qed.

Lemma acquire_start w d value status imageMode numImages n :
  value <> 0 ->
  intParams d !! ADImageMode = Some imageMode ->
  intParams d !! ADNumImages = Some numImages ->
  initial_framesRemaining imageMode numImages = Some n ->
  framesRemaining (snd (acquire w value status d)) = n /\
  log (snd (acquire w value status d))
  = EvPvCommandRun "AcquisitionStart" n :: EvSetShutter 1 :: log d.
Proof.
  intros Hv Hm Hn Hi. unfold acquire, getIntegerParam.
  destruct (value =? 0) eqn:E; [apply Z.eqb_eq in E; contradiction|]. cbn.
  rewrite Hm, Hn. cbn. unfold initial_framesRemaining in Hi.
  repeat case_match; simplify_eq; cbn; split; reflexivity.
Qed.

(** C5: writing a non-zero value to [ADAcquire] sets [framesRemaining]
    to 1 in single mode, to [ADNumImages] in multiple mode and to -1 in
    continuous mode, and [AcquisitionStart] is issued with that value in
    place, after the shutter was opened.  A frame that completes
    successfully decrements a positive counter.  When the counter is 0
    after the frame, the shutter is closed once, [ADAcquire] is 0 and
    [ADStatus] is idle; when it is not, the shutter is not closed and
    both parameters are as before.  A negative counter stays as it is. *)
Theorem frames_remaining_counter :
  (forall w d value imageMode numImages n,
     value <> 0 ->
     intParams d !! ADImageMode = Some imageMode ->
     intParams d !! ADNumImages = Some numImages ->
     initial_framesRemaining imageMode numImages = Some n ->
     exists status d' later,
       writeInt32 w ADAcquire value d = Ret (status, d') /\
       framesRemaining d' = n /\
       log d' = later ++ EvPvCommandRun "AcquisitionStart" n :: EvSetShutter 1 :: log d) /\
  (forall w slot d pFrame pImage d',
     PvFrames d !! slot = Some pFrame ->
     Context1 pFrame = Some pImage ->
     Status pFrame = ePvErrSuccess ->
     frameCallback w slot d = Ret d' ->
     framesRemaining d' = after_frame (framesRemaining d) /\
     (framesRemaining d' = 0 ->
        count closes_shutter (log d') = S (count closes_shutter (log d)) /\
        intParams d' !! ADAcquire = Some 0 /\
        intParams d' !! ADStatus = Some ADStatusIdle) /\
     (framesRemaining d' <> 0 ->
        count closes_shutter (log d') = count closes_shutter (log d) /\
        intParams d' !! ADAcquire = intParams d !! ADAcquire /\
        intParams d' !! ADStatus = intParams d !! ADStatus) /\
     (framesRemaining d < 0 -> framesRemaining d' = framesRemaining d)).
Proof.
  split.
  - intros w d value imageMode numImages n Hv Hm Hn Hi.
    unfold writeInt32. cbn [acc setIntegerParam fst snd dispatch].
    set (d0 := with_intParams _ d).
    assert (Hm0 : intParams d0 !! ADImageMode = Some imageMode)
      by (subst d0; cbn; rewrite lookup_insert_ne by discriminate; exact Hm).
    assert (Hn0 : intParams d0 !! ADNumImages = Some numImages)
      by (subst d0; cbn; rewrite lookup_insert_ne by discriminate; exact Hn).
    destruct (acquire_start w d0 value (or_status asynSuccess asynSuccess)
                imageMode numImages n Hv Hm0 Hn0 Hi) as [Hfr Hlog].
    destruct (acquire w value _ d0) as [st1 d1] eqn:Ea. cbn in Hfr, Hlog.
    destruct (readParameters_log w d1) as [new Hnew].
    pose proof (readParameters_framesRemaining w d1) as Hfr2.
    destruct (readParameters w d1) as [st2 d2] eqn:Er. cbn in Hnew, Hfr2.
    cbn [acc fst snd].
    destruct (negb _); (eexists _, _, (_ :: new); split; [reflexivity|]);
      cbn; rewrite Hnew, Hlog; (split; [congruence|reflexivity]).
  - intros w slot d pFrame pImage d' Hf Ha Hs H.
    rewrite (frameCallback_good w slot d pFrame pImage Hf Ha Hs) in H.
    destruct (frame_good w pFrame pImage (lock d)) as [[f' d1]|] eqn:E; [|discriminate].
    apply frame_good_facts in E as (Hfr & Hsh & Hpar & _).
    inversion H; subst d'; clear H. cbn in *.
    pose proof (Hpar ADAcquire ltac:(discriminate)) as HA.
    pose proof (Hpar ADStatus ltac:(discriminate)) as HS.
    rewrite Hfr, Hsh, HA, HS. clear Hpar HA HS Hsh Hfr.
    split; [reflexivity|].
    split; [|split].
    + intros H0. rewrite H0. cbn. auto.
    + intros H0. apply Z.eqb_neq in H0. rewrite H0. cbn. auto.
    + intros Hneg. unfold after_frame.
      destruct (framesRemaining d >? 0) eqn:G; [apply Z.gtb_lt in G; lia|reflexivity].
Qed.

(** Multiple mode with three images on the sample driver, and one good
    frame. *)
Lemma frames_remaining_counter_witness :
  (exists status d' later,
     writeInt32 nominal ADAcquire 1 connected = Ret (status, d') /\
     framesRemaining d' = 3 /\
     log d' = later ++ EvPvCommandRun "AcquisitionStart" 3 :: EvSetShutter 1
                         :: log connected) /\
  framesRemaining (returned (frameCallback nominal 0 good_frame_driver) good_frame_driver)
  = after_frame (framesRemaining good_frame_driver).
Proof.
  split.
  - apply (proj1 frames_remaining_counter nominal connected 1 ADImageMultiple 3 3).
    + discriminate.
    + reflexivity.
    + reflexivity.
    + reflexivity.
  - apply (proj2 frames_remaining_counter nominal 0%nat good_frame_driver
             (frame ePvErrSuccess ePvFmtMono8 0 0) (buffer 0)).
    + reflexivity.
    + reflexivity.
    + reflexivity.
    + apply returns_Ret. vm_compute. reflexivity.
Defined.

(** ** Queuing the descriptor again *)








(** ** Geometry *)


(** ** Disconnecting *)

Lemma free_frames_S k d : free_frames (S k) d = free_frame k (free_frames k d).
Proof. unfold free_frames. rewrite seq_S, fold_left_app. reflexivity. Qed.

Lemma free_frame_driver i d :
  free_frame i d = with_log (log (free_frame i d)) (with_PvFrames (PvFrames (free_frame i d)) d).
Proof. unfold free_frame. destruct d; cbn. repeat case_match; reflexivity. Qed.

Lemma free_frame_lookup i d j :
  PvFrames (free_frame i d) !! j
  = if decide (j = i) then frame_with_Context1 None <$> PvFrames d !! j
    else PvFrames d !! j.
Proof.
  unfold free_frame. destruct (PvFrames d !! i) as [f|] eqn:E; cbn.
  - case_decide as Hji.
    + subst j. rewrite E. cbn.
      destruct (Context1 f); cbn; apply list_lookup_insert_eq; eapply lookup_lt_Some; exact E.
    + destruct (Context1 f); cbn; apply list_lookup_insert_ne; congruence.
  - case_decide as Hji; [subst j; rewrite E|]; reflexivity.
Qed.

Lemma free_frame_log i d :
  log (free_frame i d)
  = match PvFrames d !! i with
    | Some f => match Context1 f with
                | Some a => [EvNDArrayRelease (nd_alloc a)]
                | None => []
                end
    | None => []
    end ++ log d.
Proof. unfold free_frame. repeat case_match; reflexivity. Qed.

Lemma free_frames_spec k d :
  free_frames k d = with_log (log (free_frames k d)) (with_PvFrames (PvFrames (free_frames k d)) d) /\
  (forall j, PvFrames (free_frames k d) !! j
             = if decide (j < k)%nat then frame_with_Context1 None <$> PvFrames d !! j
               else PvFrames d !! j) /\
  (forall e, In e (log d) -> In e (log (free_frames k d))) /\
  (forall j f a, (j < k)%nat -> PvFrames d !! j = Some f -> Context1 f = Some a ->
                 In (EvNDArrayRelease (nd_alloc a)) (log (free_frames k d))).
Proof.
  induction k as [|k (IH1 & IH2 & IH3 & IH4)].
  - unfold free_frames; cbn [seq fold_left]. refine (conj _ (conj _ (conj _ _))).
    + destruct d; reflexivity.
    + intros j. case_decide; [lia|reflexivity].
    + auto.
    + intros; lia.
  - rewrite free_frames_S. set (dk := free_frames k d) in *.
    refine (conj _ (conj _ (conj _ _))).
    + etransitivity; [apply free_frame_driver|].
      generalize (log (free_frame k dk)) (PvFrames (free_frame k dk)). intros l fs.
      rewrite IH1. destruct d; reflexivity.
    + intros j. rewrite free_frame_lookup, IH2.
      repeat case_decide; try lia; try reflexivity.
    + intros e He. rewrite free_frame_log. apply in_or_app. right. apply IH3, He.
    + intros j f a Hj Hf Ha. rewrite free_frame_log.
      destruct (decide (j = k)) as [->|Hne].
      * rewrite IH2. case_decide; [lia|]. rewrite Hf, Ha. left. reflexivity.
      * apply in_or_app. right. eapply IH4; eauto. lia.
Qed.

(** C6, as stated, fails: without the vendor library [disconnectCamera]
    returns [asynError], the second time as the first. *)
Lemma uninitialised_disconnect_fails : ~ disconnect_twice nominal uninitialised.
Proof. intros [H _]. apply (f_equal fst) in H. vm_compute in H. discriminate H. Qed.

(** C6: let the driver hold [maxPvAPIFrames_] descriptors, none with an
    image when there is no camera.  If the vendor library is
    initialised, then after [disconnectCamera] a second call, whatever
    the collaborators answer, changes nothing and returns [asynSuccess];
    there is no camera; every descriptor is as it was but for its image
    reference [Context1], which is cleared ([ImageBuffer] is left as it
    was); every image a descriptor held was released; and a driver that
    had no camera is left untouched.  If the library is not initialised,
    every call returns [asynError] and only prints a message. *)
Theorem disconnect_idempotent w d :
  length (PvFrames d) = Z.to_nat (maxPvAPIFrames_ d) ->
  disconnected_clean d ->
  (PvApiInitialized d = true ->
     let d1 := snd (disconnectCamera w d) in
     (forall w', disconnectCamera w' d1 = (asynSuccess, d1)) /\
     PvHandle d1 = None /\
     Forall (fun f => Context1 f = None) (PvFrames d1) /\
     (forall j f1, PvFrames d1 !! j = Some f1 ->
        exists f, PvFrames d !! j = Some f /\ f1 = frame_with_Context1 None f) /\
     (forall f a, In f (PvFrames d) -> Context1 f = Some a ->
        In (EvNDArrayRelease (nd_alloc a)) (log d1)) /\
     (PvHandle d = None -> disconnectCamera w d = (asynSuccess, d))) /\
  (PvApiInitialized d = false ->
     forall w',
       disconnectCamera w' d
       = (asynError,
          asynPrint ASYN_TRACE_ERROR
            "%s:%s: Disconnecting from camera %ld while the PvAPI is uninitialized.\n" d) /\
       PvApiInitialized (snd (disconnectCamera w' d)) = false).
Proof.
  intros Hlen Hclean. split.
  - intros Hinit. unfold disconnectCamera. rewrite Hinit. cbn [negb].
    destruct (PvHandle d) as [h|] eqn:Hh.
    + cbn [acc fst snd].
      set (d0 := asynPrint_if _ _ "%s:%s: unable to close camera %lu\n" _).
      assert (Hd0 : d0 = with_log (log d0) d) by (destruct d; reflexivity).
      assert (Hidx : frame_indices d0 = seq 0 (length (PvFrames d))).
      { unfold frame_indices. rewrite Hd0; cbn. rewrite Hlen. reflexivity. }
      rewrite Hidx. fold (free_frames (length (PvFrames d)) d0).
      destruct (free_frames_spec (length (PvFrames d)) d0) as (F1 & F2 & F3 & F4).
      set (df := free_frames _ d0) in *.
      assert (Hfr0 : PvFrames d0 = PvFrames d) by (rewrite Hd0; reflexivity).
      assert (Hlook : forall j f1, PvFrames df !! j = Some f1 ->
                exists f, PvFrames d !! j = Some f /\ f1 = frame_with_Context1 None f).
      { intros j f1 Hj. rewrite F2, Hfr0 in Hj. case_decide as Hlt.
        - destruct (PvFrames d !! j) as [f|]; cbn in Hj; [|discriminate].
          exists f. split; [reflexivity|]. congruence.
        - apply lookup_lt_Some in Hj. lia. }
      assert (Hall : Forall (fun f => Context1 f = None) (PvFrames df)).
      { apply Forall_forall. intros f Hin.
        apply list_elem_of_lookup in Hin as [j Hj].
        destruct (Hlook j f Hj) as (f0 & _ & ->). reflexivity. }
      assert (Hinit' : PvApiInitialized df = true) by (rewrite F1; exact Hinit).
      cbn. refine (conj _ (conj _ (conj _ (conj _ (conj _ _))))).
      * intros w'. rewrite Hinit'. reflexivity.
      * reflexivity.
      * exact Hall.
      * exact Hlook.
      * intros f a Hin Ha.
        apply list_elem_of_In in Hin. apply list_elem_of_lookup in Hin as [j Hj].
        rewrite <- Hfr0 in Hj.
        assert (j < length (PvFrames d))%nat
          by (rewrite <- Hfr0; eapply lookup_lt_Some; exact Hj).
        right. apply in_or_app. right. right. eapply F4; eauto.
      * discriminate.
    + pose proof (Hclean Hh) as Hnone. rewrite Forall_forall in Hnone.
      cbn. rewrite Hinit, Hh. refine (conj _ (conj _ (conj _ (conj _ (conj _ _))))).
      * reflexivity.
      * reflexivity.
      * apply Forall_forall. exact Hnone.
      * intros j f1 Hj. exists f1. split; [exact Hj|].
        assert (Hc : Context1 f1 = None)
          by (apply Hnone; eapply list_elem_of_lookup_2; exact Hj).
        destruct f1; cbn in *; subst; reflexivity.
      * intros f a Hin Ha. apply list_elem_of_In in Hin.
        rewrite (Hnone f Hin) in Ha. discriminate.
      * reflexivity.
  - intros Hinit w'. unfold disconnectCamera. rewrite Hinit. cbn. split; [reflexivity|exact Hinit].
Qed.

(** The connected sample driver. *)
Lemma disconnect_idempotent_witness :
  let d1 := snd (disconnectCamera nominal connected) in
  (forall w', disconnectCamera w' d1 = (asynSuccess, d1)) /\
  PvHandle d1 = None /\
  Forall (fun f => Context1 f = None) (PvFrames d1) /\
  (forall j f1, PvFrames d1 !! j = Some f1 ->
     exists f, PvFrames connected !! j = Some f /\ f1 = frame_with_Context1 None f) /\
  (forall f a, In f (PvFrames connected) -> Context1 f = Some a ->
     In (EvNDArrayRelease (nd_alloc a)) (log d1)) /\
  (PvHandle connected = None -> disconnectCamera nominal connected = (asynSuccess, connected)).
Proof.
  apply (disconnect_idempotent nominal connected).
  - reflexivity.
  - unfold disconnected_clean. cbn. discriminate.
  - reflexivity.
Defined.

(** ** Connecting *)

Lemma free_frames_sleeps k d :
  count is_sleep (log (free_frames k d)) = count is_sleep (log d).
Proof.
  induction k as [|k IH]; [reflexivity|].
  rewrite free_frames_S, free_frame_log, count_app, IH.
  repeat case_match; reflexivity.
Qed.

Lemma disconnectCamera_initialised w d :
  PvApiInitialized d = true ->
  let d1 := snd (disconnectCamera w d) in
  PvHandle d1 = None /\ PvApiInitialized d1 = true /\ cameraId d1 = cameraId d /\
  count is_sleep (log d1) = count is_sleep (log d).
Proof.
  intros Hinit. unfold disconnectCamera. rewrite Hinit. cbn [negb].
  destruct (PvHandle d) as [h|] eqn:Hh; [|cbn; auto].
  cbn [acc fst snd].
  set (d0 := asynPrint_if _ _ "%s:%s: unable to close camera %lu\n" _).
  unfold frame_indices. fold (free_frames (Z.to_nat (maxPvAPIFrames_ d0)) d0).
  destruct (free_frames_spec (Z.to_nat (maxPvAPIFrames_ d0)) d0) as (F1 & _).
  pose proof (free_frames_sleeps (Z.to_nat (maxPvAPIFrames_ d0)) d0) as Hs.
  set (df := free_frames _ d0) in *.
  cbn. split; [reflexivity|].
  split; [rewrite F1; exact Hinit|].
  split; [rewrite F1; reflexivity|].
  rewrite count_app. cbn. rewrite Hs. subst d0. cbn. rewrite count_app.
  destruct (negb _), (negb _); reflexivity.
Qed.

Lemma retry_loop_fuel w fuel retryCount d :
  0 <= retryCount < CONNECT_RETRY_COUNT ->
  CONNECT_RETRY_COUNT <= retryCount + Z.of_nat fuel ->
  fst (retry_loop w fuel retryCount d) <> LoopFuel.
Proof.
  unfold CONNECT_RETRY_COUNT. revert retryCount d.
  induction fuel as [|fuel IH]; intros k d Hk Hf; [lia|].
  cbn [retry_loop]. unfold CONNECT_RETRY_COUNT.
  destruct (negb (no_master_access d)); [cbn; congruence|].
  match goal with |- context [if negb (?c =? 0) then _ else _] => destruct (negb (c =? 0)) end;
    [cbn; congruence|].
  assert (Hu : uint32 (k + 1) = k + 1) by (unfold uint32; apply Z.mod_small; lia).
  rewrite Hu. destruct (k + 1 >=? 30) eqn:G; [cbn; congruence|].
  apply IH; [|lia]. rewrite Z.geb_leb in G. apply Z.leb_gt in G. lia.
Qed.

Lemma retry_loop_denied w fuel retryCount d :
  access_stays_denied w ->
  no_master_access d = true ->
  0 <= retryCount ->
  retryCount + Z.of_nat (S fuel) = CONNECT_RETRY_COUNT ->
  exists d',
    retry_loop w (S fuel) retryCount d = (LoopDone, d') /\
    no_master_access d' = true /\
    d' = with_log (log d') (with_PvCameraInfo (PvCameraInfo d') d) /\
    log d' = turns (S fuel) (uniqueId d) ++ log d.
Proof.
  unfold CONNECT_RETRY_COUNT. intros Hw. revert retryCount d.
  induction fuel as [|fuel IH]; intros k d Hd Hk Hf.
  - assert (k = 29) by lia. subst k. cbn [retry_loop]. rewrite Hd. cbn [negb].
    destruct (Hw 30%nat (uniqueId d)) as [H1 H2]; [unfold CONNECT_RETRY_COUNT; lia|].
    change (Z.to_nat (29 + 1)) with 30%nat. cbn [uniqueId emit asynPrint with_log with_PvCameraInfo].
    rewrite H1. cbn.
    eexists. split; [reflexivity|]. split; [exact H2|]. split; [destruct d|]; reflexivity.
  - cbn [retry_loop]. unfold CONNECT_RETRY_COUNT. rewrite Hd. cbn [negb].
    destruct (Hw (Z.to_nat (k + 1)) (uniqueId d)) as [H1 H2];
      [unfold CONNECT_RETRY_COUNT; lia|].
    cbn [uniqueId emit asynPrint with_log with_PvCameraInfo].
    rewrite H1. cbn [Z.eqb negb].
    assert (Hu : uint32 (k + 1) = k + 1) by (unfold uint32; apply Z.mod_small; lia).
    rewrite Hu. destruct (k + 1 >=? 30) eqn:G; [apply Z.geb_le in G; lia|].
    set (d1 := emit _ _).
    destruct (IH (k + 1) d1) as (d' & Hr & Hn & Hd' & Hl); [exact H2|lia|lia|].
    exists d'. split; [exact Hr|]. split; [exact Hn|]. split.
    + rewrite Hd' at 1. subst d1. destruct d; reflexivity.
    + rewrite Hl. subst d1. cbn [uniqueId emit with_log with_PvCameraInfo log].
      change (turns (S (S fuel)) (uniqueId d)) with (retry_turn (uniqueId d) ++ turns (S fuel) (uniqueId d)).
      rewrite <- turns_snoc, <- app_assoc. reflexivity.
Qed.

(** C2: let the vendor library be initialised, the camera be found, and
    every enquiry report no master access.  Then [connectCamera] returns
    [asynError] with no camera open, and what it did after
    disconnecting and finding the camera is exactly
    [CONNECT_RETRY_COUNT] = 30 turns of message, sleep of
    [CONNECT_RETRY_INTERVAL] and enquiry, followed by the error message:
    30 sleeps, no more and no fewer. *)
Theorem connect_access_denied w d :
  PvApiInitialized d = true ->
  resolves_without_master_access w d ->
  access_stays_denied w ->
  exists id base,
    fst (connectCamera w d) = asynError /\
    PvHandle (snd (connectCamera w d)) = None /\
    log (snd (connectCamera w d))
    = EvAsynPrint ASYN_TRACE_ERROR
        "%s:%s: Cannot get control of camera %lu, access flags=%lx\n"
        :: turns (Z.to_nat CONNECT_RETRY_COUNT) id ++ base /\
    count is_sleep base = count is_sleep (log d) /\
    count is_sleep (log (snd (connectCamera w d)))
    = (count is_sleep (log d) + Z.to_nat CONNECT_RETRY_COUNT)%nat.
Proof.
  intros Hinit Hres Hw.
  destruct (disconnectCamera_initialised w d Hinit) as (Hh & Hi & Hid & Hsl).
  unfold connectCamera. rewrite Hinit. cbn [negb].
  set (d1 := snd (disconnectCamera w d)) in *.
  unfold resolves_without_master_access in Hres. rewrite Hid.
  assert (Hgo : forall (isUniqueId : bool) (ipAddr : Z) d2,
             no_master_access d2 = true -> PvHandle d2 = None ->
             count is_sleep (log d2) = count is_sleep (log d) ->
             let r := match retry_loop w (Z.to_nat CONNECT_RETRY_COUNT) 0 d2 with
                      | (LoopReturn status, d) => (status, d)
                      | (LoopFuel, d) => (asynError, d)
                      | (LoopDone, d) =>
                          if no_master_access d then
                            (asynError,
                             asynPrint ASYN_TRACE_ERROR
                               "%s:%s: Cannot get control of camera %lu, access flags=%lx\n" d)
                          else
                            let r := r_PvCameraOpen w in
                            let d := emit (if isUniqueId then EvPvCameraOpen (uniqueId d)
                                           else EvPvCameraOpenByAddr ipAddr) d in
                            let d := with_PvHandle (snd r) d in
                            if negb (fst r =? 0) then
                              (asynError,
                               with_PvHandle None
                                 (asynPrint ASYN_TRACE_ERROR
                                    "%s:%s: unable to open camera %lu\n" d))
                            else connect_opened w d
                      end in
             exists id base,
               fst r = asynError /\ PvHandle (snd r) = None /\
               log (snd r)
               = EvAsynPrint ASYN_TRACE_ERROR
                   "%s:%s: Cannot get control of camera %lu, access flags=%lx\n"
                   :: turns (Z.to_nat CONNECT_RETRY_COUNT) id ++ base /\
               count is_sleep base = count is_sleep (log d) /\
               count is_sleep (log (snd r))
               = (count is_sleep (log d) + Z.to_nat CONNECT_RETRY_COUNT)%nat).
  { intros isU ip d2 Hn Hh2 Hs2.
    change (Z.to_nat CONNECT_RETRY_COUNT) with 30%nat.
    destruct (retry_loop_denied w 29 0 d2 Hw Hn) as (d' & Hr & Hn' & Hd' & Hl);
      [lia|reflexivity|].
    rewrite Hr. cbn zeta. rewrite Hn'. cbn [fst snd].
    exists (uniqueId d2), (log d2). split; [reflexivity|].
    split; [cbn; rewrite Hd'; exact Hh2|].
    split; [cbn; rewrite Hl; reflexivity|].
    split; [exact Hs2|].
    cbn [asynPrint emit log with_log]. rewrite Hl. cbn [count is_sleep].
    rewrite count_app, count_sleep_turns, Hs2. lia. }
  destruct (forallb isdigit (list_ascii_of_string (cameraId d))) eqn:Eid.
  - destruct Hres as [H1 H2].
    cbn [uniqueId with_uniqueId]. rewrite H1. cbn [Z.eqb negb]. cbv beta iota.
    refine (Hgo true 0 _ _ _ _); [exact H2|exact Hh|exact Hsl].
  - destruct Hres as (H0 & H1 & H2).
    rewrite H0. cbn [Z.eqb negb]. rewrite H1. cbn [Z.eqb negb]. cbv beta iota.
    refine (Hgo false _ _ _ _ _); [exact H2|exact Hh|exact Hsl].
Qed.

(** The sample camera held by another application. *)
Lemma connect_access_denied_witness :
  exists id base,
    fst (connectCamera monitor_only_world connected) = asynError /\
    PvHandle (snd (connectCamera monitor_only_world connected)) = None /\
    log (snd (connectCamera monitor_only_world connected))
    = EvAsynPrint ASYN_TRACE_ERROR
        "%s:%s: Cannot get control of camera %lu, access flags=%lx\n"
        :: turns (Z.to_nat CONNECT_RETRY_COUNT) id ++ base /\
    count is_sleep base = count is_sleep (log connected) /\
    count is_sleep (log (snd (connectCamera monitor_only_world connected)))
    = (count is_sleep (log connected) + Z.to_nat CONNECT_RETRY_COUNT)%nat.
Proof.
  apply (connect_access_denied monitor_only_world connected).
  - reflexivity.
  - vm_compute. split; reflexivity.
  - intros n id _. split; reflexivity.
Defined.

(** ** Batch refresh *)

Lemma readStats_body_log w d :
  log (snd (readStats_body w d))
  = map EvPvAttrGet (rev (map fst readStats_attributes)) ++ log d.
Proof. reflexivity. Qed.

Lemma readStats_gets w d :
  attribute_gets (log (snd (readStats w d)))
  = attribute_gets (log d) ++ map fst readStats_attributes.
Proof.
  unfold readStats. cbn [snd asynPrint_if log with_log].
  rewrite attribute_gets_app, readStats_body_log, attribute_gets_app.
  destruct (negb _); cbn [attribute_gets app]; rewrite ?app_nil_r; reflexivity.
Qed.

Lemma readStats_slots_written w d :
  forallb (fun p => defined p (snd (readStats w (blank d)))) readStats_slots = true.
Proof. vm_compute. reflexivity. Qed.

Lemma readParameters_gets w d :
  attribute_gets (log (snd (readParameters w d)))
  = attribute_gets (log d) ++ map fst readParameters_attributes.
Proof.
  cbn -[or_status].
  repeat match goal with |- context [if ?c then [_] else []] => destruct c end;
  cbn [app attribute_gets]; rewrite <- ?app_assoc; reflexivity.
Qed.

Lemma readParameters_slots_written w d :
  forallb (fun p => defined p (snd (readParameters w (blank d)))) readParameters_slots = true.
Proof. vm_compute. reflexivity. Qed.

Lemma acc_0 {A : Type} s (r : Z * A) s' x :
  acc s r = (s', x) -> s' = 0 -> s = 0 /\ fst r = 0.
Proof. unfold acc. intros E H. injection E as <- _. apply or_status_0, H. Qed.

Lemma acc_unless_NotFound_0 {A : Type} s (r : Z * A) s' x :
  acc_unless_NotFound s r = (s', x) -> s' = 0 ->
  s = 0 /\ (fst r = 0 \/ fst r = ePvErrNotFound).
Proof.
  unfold acc_unless_NotFound. intros E H. injection E as <- _.
  destruct (fst r =? ePvErrNotFound) eqn:N.
  - apply Z.eqb_eq in N. auto.
  - apply or_status_0 in H as [? ?]. auto.
Qed.

Lemma mode_to_param_0 p modes buffer s d s' d' :
  mode_to_param p modes buffer s d = (s', d') -> s' = 0 -> s = 0.
Proof.
  unfold mode_to_param, acc, setIntegerParam. cbn [fst snd]. intros E H.
  injection E as <- _. destruct (index_of buffer modes).
  - apply or_status_0 in H as [? _]. assumption.
  - apply or_status_0 in H as [H _]. apply or_status_0 in H as [? _]. assumption.
Qed.

(** The next call whose result the function takes apart. *)
Ltac next_call H :=
  match type of H with
  | context [match ?s with _ => _ end] =>
      lazymatch s with
      | acc _ _ => idtac
      | acc_unless_NotFound _ _ => idtac
      | mode_to_param _ _ _ _ _ => idtac
      end;
      let E := fresh "E" in destruct s as [? ?] eqn:E
  | context [match ?s with _ => _ end] => is_var s; destruct s as [? ?]
  end.

(** From a final status of 0 back to the status of every call. *)
Ltac back_status :=
  repeat match goal with
         | E : acc _ _ = (?s', _), H : ?s' = 0 |- _ =>
             destruct (acc_0 _ _ _ _ E H) as [? ?]; clear E
         | E : acc_unless_NotFound _ _ = (?s', _), H : ?s' = 0 |- _ =>
             destruct (acc_unless_NotFound_0 _ _ _ _ E H) as [? ?]; clear E
         | E : mode_to_param _ _ _ _ _ = (?s', _), H : ?s' = 0 |- _ =>
             pose proof (mode_to_param_0 _ _ _ _ _ _ _ E H); clear E
         | H : fst (if ?c then _ else _) = 0 |- _ => destruct c; cbn [fst] in H
         | H : or_status _ _ = 0 |- _ => apply or_status_0 in H; destruct H
         | H : asynError = 0 |- _ => discriminate H
         end.

Lemma getGeometry_status_0 w d :
  fst (getGeometry w d) = 0 ->
  Forall (fun a => get_status w a = 0 \/ tolerated w a)
    [("BinningX", KUint32); ("BinningY", KUint32); ("RegionX", KUint32);
     ("RegionY", KUint32); ("Width", KUint32); ("Height", KUint32)].
Proof.
  intros H. unfold getGeometry in H. cbv zeta in H.
  repeat next_call H. cbn [fst] in H. back_status.
  unfold tolerated.
  repeat (constructor; [cbn [get_status fst snd PvAttrUint32Get] in *; tauto|]).
  constructor.
Qed.

Lemma readParameters_status_0 w d :
  fst (readParameters w d) = 0 ->
  Forall (fun a => get_status w a = 0 \/ tolerated w a) readParameters_attributes.
Proof.
  intros H. unfold readParameters in H. cbv zeta in H.
  repeat next_call H. cbn [fst] in H. back_status.
  all: match goal with
       | G : fst (getGeometry _ _) = 0 |- _ => apply getGeometry_status_0 in G
       end;
    unfold readParameters_attributes;
    repeat match goal with
           | G : Forall _ (_ :: _) |- _ => apply Forall_cons in G; destruct G
           end;
    repeat (constructor;
            [first [assumption
                   | left; cbn [get_status fst snd PvAttrUint32Get PvAttrEnumGet
                                  PvAttrFloat32Get] in *; assumption]|]).
  all: constructor.
Qed.

(** C9, as stated, fails: on a camera without binning the gets of
    [BinningX] and [BinningY] fail with [ePvErrNotFound], and
    [readParameters] still returns [asynSuccess]. *)
Lemma missing_binning_is_not_accumulated :
  ~ failure_is_accumulated cmos_world connected.
Proof.
  intros H. apply (H ("BinningX", KUint32)).
  - cbn. tauto.
  - vm_compute. discriminate.
  - vm_compute. reflexivity.
Qed.

(** C9: [readStats] and [readParameters] ask the camera for every
    attribute of their list, in order, whatever the gets answer, and set
    every parameter of their list.  [readParameters] returns a status
    other than [asynSuccess] when a get fails, unless the failure is
    [ePvErrNotFound] on [BinningX] or [BinningY]; [readStats] prints an
    error and returns [asynSuccess] in every case. *)
Theorem batch_refresh_runs_to_the_end w d :
  (* the statistics read *)
  (attribute_gets (log (snd (readStats w d)))
   = attribute_gets (log d) ++ map fst readStats_attributes /\
   forallb (fun p => defined p (snd (readStats w (blank d)))) readStats_slots = true /\
   fst (readStats w d) = asynSuccess) /\
  (* the parameter read-back *)
  (attribute_gets (log (snd (readParameters w d)))
   = attribute_gets (log d) ++ map fst readParameters_attributes /\
   forallb (fun p => defined p (snd (readParameters w (blank d)))) readParameters_slots = true /\
   (forall a, In a readParameters_attributes ->
              get_status w a <> 0 -> ~ tolerated w a ->
              fst (readParameters w d) <> 0)).
Proof.
  split; split.
  - apply readStats_gets.
  - split; [apply readStats_slots_written|reflexivity].
  - apply readParameters_gets.
  - split; [apply readParameters_slots_written|].
    intros a Hin Hs Ht H0.
    apply readParameters_status_0 in H0.
    rewrite Forall_forall in H0. apply list_elem_of_In in Hin.
    destruct (H0 a Hin); contradiction.
Qed.


(** * Properties of the rest of the driver *)

(** ** A completed frame *)

Lemma deliver_log w a d :
  log (deliver w a d)
  = (if snd (getIntegerParam NDArrayCallbacks (indet w "arrayCallbacks") d) =? 0
     then [] else [EvDoCallbacksGenericPointer (nd_alloc a)])
    ++ EvGetAttributes (nd_alloc a) :: log d.
Proof.
  unfold deliver. cbn [emit with_log].
  change (getIntegerParam NDArrayCallbacks (indet w "arrayCallbacks")
            (with_log (EvGetAttributes (nd_alloc a) :: log d) d))
    with (getIntegerParam NDArrayCallbacks (indet w "arrayCallbacks") d).
  destruct (_ =? 0); reflexivity.
Qed.

Lemma acquisition_done_log d :
  log (acquisition_done d)
  = (if after_frame (framesRemaining d) =? 0 then [EvSetShutter 0] else []) ++ log d.
Proof.
  unfold acquisition_done, after_frame.
  destruct (framesRemaining d >? 0) eqn:E; cbn; case_match; reflexivity.
Qed.

Lemma acquisition_done_pArrays0 d : pArrays0 (acquisition_done d) = pArrays0 d.
Proof. unfold acquisition_done. repeat case_match; reflexivity. Qed.

Lemma retain_image_log a d :
  log (retain_image a d)
  = match pArrays0 d with
    | Some old => [EvNDArrayRelease (nd_alloc old)]
    | None => []
    end ++ log d.
Proof. unfold retain_image. case_match; reflexivity. Qed.

(** The image a good frame publishes, the counter and the calls made
    after the pixel format was decoded. *)
Lemma frame_good_image w f a d f' d' :
  frame_good w f a d = Ret (f', d') ->
  exists img c d1,
    decode_format w (fix_BayerPattern f)
      (snd (getIntegerParam PSBayerConvert (indet w "bayerConvert") d))
      (snd (getIntegerParam ADBinX (indet w "binX") d))
      (snd (getIntegerParam ADBinY (indet w "binY") d))
      (indet w "colorMode")
      (array_with_epicsTS (r_updateTimeStamp w)
         (array_with_uniqueId (int32 (FrameCount f)) a)) d = Ret (img, c, d1) /\
    same_but_log_pool d d1 /\
    let stamped :=
      set_timeStamp w (fix_BayerPattern f)
        (attr_add "ColorMode" c
           (attr_add "BayerPattern" (int32 (BayerPattern (fix_BayerPattern f))) img)) d1 in
    pArrays0 d' = Some (fst stamped) /\
    timeStampFrequency d' = timeStampFrequency (snd stamped) /\
    intParams d' !! NDArrayCounter
    = Some (int32 (snd (getIntegerParam NDArrayCounter (indet w "imageCounter") d) + 1)) /\
    log d'
    = match pArrays0 d with
      | Some old => [EvNDArrayRelease (nd_alloc old)]
      | None => []
      end
      ++ EvAsynPrint ASYN_TRACEIO_DRIVER "%s:%s: frameId=%d, timeStamp=%f\n"
      :: (if after_frame (framesRemaining d) =? 0 then [EvSetShutter 0] else [])
      ++ (if snd (getIntegerParam NDArrayCallbacks (indet w "arrayCallbacks") d) =? 0
          then [] else [EvDoCallbacksGenericPointer (nd_alloc (fst stamped))])
      ++ EvGetAttributes (nd_alloc (fst stamped)) :: log d1.
Proof.
  unfold frame_good. intros H.
  destruct (decode_format _ _ _ _ _ _ _ _) as [[[img c] d1]|] eqn:E; [|discriminate].
  exists img, c, d1. split; [reflexivity|].
  pose proof (decode_format_core _ _ _ _ _ _ _ _ _ _ _ E) as (Hd1 & _ & _).
  split; [exact Hd1|]. unfold same_but_log_pool in Hd1.
  remember (attr_add "ColorMode" c (attr_add "BayerPattern" _ img)) as img1 eqn:Himg1.
  remember (set_timeStamp w (fix_BayerPattern f) img1 d1) as st eqn:Est.
  remember (deliver w (fst st) (snd st)) as d2 eqn:Ed2.
  remember (acquisition_done d2) as d3 eqn:Ed3.
  remember (update_frame_counter w d3) as d4 eqn:Ed4.
  remember (retain_image (fst st) d4) as d5 eqn:Ed5.
  apply rebind_inv in H as (Hd' & _).
  pose proof (set_timeStamp_driver w (fix_BayerPattern f) img1 d1) as Hst. rewrite <- Est in Hst.
  pose proof (deliver_driver w (fst st) (snd st)) as Hd2. rewrite <- Ed2 in Hd2.
  pose proof (deliver_log w (fst st) (snd st)) as Hl2. rewrite <- Ed2 in Hl2.
  pose proof (acquisition_done_driver d2) as Hd3. rewrite <- Ed3 in Hd3.
  pose proof (acquisition_done_log d2) as Hl3. rewrite <- Ed3 in Hl3.
  pose proof (acquisition_done_params d2 NDArrayCounter) as Hp3. rewrite <- Ed3 in Hp3.
  pose proof (acquisition_done_params d2 NDArrayCallbacks) as Hc3. rewrite <- Ed3 in Hc3.
  pose proof (retain_image_driver (fst st) d4) as Hd5. rewrite <- Ed5 in Hd5.
  pose proof (retain_image_log (fst st) d4) as Hl5. rewrite <- Ed5 in Hl5.
  assert (F2 : framesRemaining d2 = framesRemaining d /\ intParams d2 = intParams d /\
               pArrays0 d2 = pArrays0 d /\ timeStampFrequency d2 = timeStampFrequency (snd st)).
  { rewrite Hd2; cbn. rewrite Hst; cbn. rewrite Hd1; cbn. repeat split. }
  destruct F2 as (F2a & F2b & F2c & F2d).
  assert (Hcb : getIntegerParam NDArrayCallbacks (indet w "arrayCallbacks") (snd st)
                = getIntegerParam NDArrayCallbacks (indet w "arrayCallbacks") d).
  { unfold getIntegerParam. rewrite Hst; cbn. rewrite Hd1; cbn. reflexivity. }
  assert (Hic : getIntegerParam NDArrayCounter (indet w "imageCounter") d3
                = getIntegerParam NDArrayCounter (indet w "imageCounter") d).
  { unfold getIntegerParam. rewrite Hp3, F2b.
    repeat (case_decide; [discriminate|]).
    destruct (after_frame (framesRemaining d2) =? 0); reflexivity. }
  assert (F3 : pArrays0 d3 = pArrays0 d /\ timeStampFrequency d3 = timeStampFrequency (snd st)).
  { rewrite Hd3; cbn. auto. }
  destruct F3 as (F3a & F3b).
  assert (F4 : pArrays0 d4 = pArrays0 d /\ timeStampFrequency d4 = timeStampFrequency (snd st) /\
               log d4 = EvAsynPrint ASYN_TRACEIO_DRIVER "%s:%s: frameId=%d, timeStamp=%f\n"
                          :: log d3 /\
               intParams d4 !! NDArrayCounter
               = Some (int32 (snd (getIntegerParam NDArrayCounter (indet w "imageCounter") d) + 1))).
  { rewrite Ed4. cbn. rewrite Hic. rewrite lookup_insert_eq. auto. }
  destruct F4 as (F4a & F4b & F4c & F4d).
  subst d'. cbn zeta. cbn [pArrays0 timeStampFrequency intParams log with_poolSerial].
  rewrite Hd5. cbn [pArrays0 timeStampFrequency intParams log with_pArrays0 with_log].
  refine (conj eq_refl (conj F4b (conj F4d _))).
  rewrite Hl5, F4a, F4c, Hl3, F2a, Hl2, Hcb.
  assert (Hls : log (snd st) = log d1) by (rewrite Hst; reflexivity).
  rewrite Hls.
  reflexivity.
Qed.


Lemma fix_BayerPattern_fields f :
  Format (fix_BayerPattern f) = Format f /\ Width (fix_BayerPattern f) = Width f /\
  Height (fix_BayerPattern f) = Height f /\ RegionX (fix_BayerPattern f) = RegionX f /\
  RegionY (fix_BayerPattern f) = RegionY f /\
  TimestampLo (fix_BayerPattern f) = TimestampLo f /\
  TimestampHi (fix_BayerPattern f) = TimestampHi f.
Proof. unfold fix_BayerPattern. destruct (_ >? _); repeat split. Qed.

(** A frame that is not converted is decoded in the buffer it arrived in. *)
Lemma decode_format_plain w f bc bx by_ c a d img c' d1 :
  is_converted f bc = false ->
  decode_format w f bc bx by_ c a d = Ret (img, c', d1) ->
  nd_alloc img = nd_alloc a /\ nd_uniqueId img = nd_uniqueId a /\
  nd_epicsTS img = nd_epicsTS a /\ nd_attributes img = nd_attributes a /\
  match format_layout (Format f) with
  | Some (dataType, colorMode, rgb) =>
      nd_dataType img = dataType /\ c' = colorMode /\ log d1 = log d /\
      nd_ndims img = (if rgb then 3 else 2) /\
      nd_dims img
      = if rgb
        then <[2%nat := axis_Y f by_]> (<[1%nat := axis_X f bx]>
               (<[0%nat := axis_color]> (nd_dims a)))
        else <[1%nat := axis_Y f by_]> (<[0%nat := axis_X f bx]> (nd_dims a))
  | None =>
      img = a /\ c' = c /\
      log d1 = EvAsynPrint ASYN_TRACE_ERROR "%s:%s: error unsupported pixel format %d\n"
                 :: log d
  end.
Proof.
  unfold is_converted, decode_format, format_layout. intros Hc H.
  destruct (Format f =? ePvFmtMono8) eqn:F1.
  { injection H as <- <- <-. repeat split. }
  destruct (Format f =? ePvFmtMono16) eqn:F2.
  { injection H as <- <- <-. repeat split. }
  destruct (Format f =? ePvFmtBayer8) eqn:F3.
  { cbn in Hc. apply negb_false_iff in Hc. rewrite Hc in H.
    injection H as <- <- <-. repeat split. }
  destruct (Format f =? ePvFmtBayer16) eqn:F4.
  { cbn in Hc. apply negb_false_iff in Hc. rewrite Hc in H.
    injection H as <- <- <-. repeat split. }
  destruct (Format f =? ePvFmtRgb24) eqn:F5.
  { injection H as <- <- <-. repeat split. }
  destruct (Format f =? ePvFmtRgb48) eqn:F6.
  { injection H as <- <- <-. repeat split. }
  injection H as <- <- <-. repeat split.
Qed.

Lemma decode_format_count (P : Event -> bool) w f bc bx by_ c a d img c' d1 :
  (forall m s, P (EvAsynPrint m s) = false) ->
  (forall n, P (EvNDArrayRelease n) = false) ->
  (forall s t g b p l, P (EvPvUtilityColorInterpolate s t g b p l) = false) ->
  decode_format w f bc bx by_ c a d = Ret (img, c', d1) ->
  count P (log d1) = count P (log d).
Proof.
  intros P1 P2 P3. unfold decode_format, bayer_convert, NDArrayPool_alloc. intros H.
  repeat case_match; simplify_eq; cbn; rewrite ?P1, ?P2, ?P3; reflexivity.
Qed.

(** X1: a frame that is not cancelled and completes with an error status (or
    whose descriptor carries no image) is only counted: the callback
    returns, [PSBadFrameCounter] goes up by one and no other integer
    parameter changes, the retained image, [framesRemaining] and the
    descriptors stay as they were, and the calls made are, in order:
    lock, the trace of the error, [callParamCallbacks], queuing the
    descriptor again with the buffer it had, unlock.  Nothing is published, allocated or
    released.  The counter is an [int] that is assumed not to overflow. *)
Theorem bad_frame_is_counted w slot d pFrame n :
  PvFrames d !! slot = Some pFrame ->
  Status pFrame <> ePvErrCancelled ->
  Context1 pFrame = None \/ Status pFrame <> ePvErrSuccess ->
  intParams d !! PSBadFrameCounter = Some n ->
  INT_MIN <= n < INT_MAX ->
  exists d',
    frameCallback w slot d = Ret d' /\
    intParams d' = <[PSBadFrameCounter := n + 1]> (intParams d) /\
    pArrays0 d' = pArrays0 d /\
    framesRemaining d' = framesRemaining d /\
    PvFrames d' = PvFrames d /\
    log d'
    = [EvUnlock; EvPvCaptureQueueFrame slot (ImageBuffer pFrame); EvCallParamCallbacks;
       EvAsynPrint ASYN_TRACE_FLOW "%s:%s: ERROR, frame has error code %d\n"; EvLock]
      ++ log d.
Proof.
  intros Hf Hc Hb Hn Hr. rewrite (frameCallback_bad w slot d pFrame Hf Hc Hb).
  eexists. split; [reflexivity|].
  unfold frame_bad, getIntegerParam. cbn. rewrite Hn. cbn.
  rewrite int32_small by (unfold INT_MIN, INT_MAX in Hr; lia).
  repeat split. apply list_insert_id, Hf.
Qed.

Lemma bad_frame_is_counted_witness :
  exists d',
    frameCallback nominal 0 bad_frame_driver = Ret d' /\
    intParams d' = <[PSBadFrameCounter := 0 + 1]> (intParams bad_frame_driver) /\
    pArrays0 d' = pArrays0 bad_frame_driver /\
    framesRemaining d' = framesRemaining bad_frame_driver /\
    PvFrames d' = PvFrames bad_frame_driver /\
    log d'
    = [EvUnlock;
       EvPvCaptureQueueFrame 0 (ImageBuffer (frame ePvErrDataMissing ePvFmtMono8 0 0));
       EvCallParamCallbacks;
       EvAsynPrint ASYN_TRACE_FLOW "%s:%s: ERROR, frame has error code %d\n"; EvLock]
      ++ log bad_frame_driver.
Proof.
  apply (bad_frame_is_counted nominal 0%nat bad_frame_driver
           (frame ePvErrDataMissing ePvFmtMono8 0 0) 0).
  - reflexivity.
  - discriminate.
  - right. discriminate.
  - reflexivity.
  - unfold INT_MIN, INT_MAX. lia.
Defined.

(** X2: when the callback returns for a frame that completed successfully,
    an image is retained in [pArrays[0]], [NDArrayCounter] has gone up by
    one and [PSBadFrameCounter] is untouched; the image is handed to the
    consumers exactly once when [NDArrayCallbacks] is not 0 (and it is
    the retained image that is handed over), and not at all when it is 0;
    the image that was retained before is released.  The counter is an
    [int] that is assumed not to overflow. *)
Theorem good_frame_bookkeeping w slot d pFrame pImage d' (n c : Z) :
  PvFrames d !! slot = Some pFrame ->
  Context1 pFrame = Some pImage ->
  Status pFrame = ePvErrSuccess ->
  intParams d !! NDArrayCounter = Some n ->
  intParams d !! NDArrayCallbacks = Some c ->
  INT_MIN <= n < INT_MAX ->
  frameCallback w slot d = Ret d' ->
  exists img,
    pArrays0 d' = Some img /\
    intParams d' !! NDArrayCounter = Some (n + 1) /\
    intParams d' !! PSBadFrameCounter = intParams d !! PSBadFrameCounter /\
    count is_delivery (log d')
    = Nat.add (if c =? 0 then 0%nat else 1%nat) (count is_delivery (log d)) /\
    (c <> 0 -> In (EvDoCallbacksGenericPointer (nd_alloc img)) (log d')) /\
    (forall old, pArrays0 d = Some old -> In (EvNDArrayRelease (nd_alloc old)) (log d')).
Proof.
  intros Hf Ha Hs Hn Hcb Hr H.
  rewrite (frameCallback_good w slot d pFrame pImage Hf Ha Hs) in H.
  destruct (frame_good w pFrame pImage (lock d)) as [[f' d1]|] eqn:E; [|discriminate].
  pose proof (frame_good_facts _ _ _ _ _ _ E) as (_ & _ & Hpar & _).
  apply frame_good_image in E as (img & c0 & d0 & Hdec & _ & Himg & _ & Hctr & Hlog).
  cbv zeta in Himg, Hlog.
  set (published := fst (set_timeStamp _ _ _ _)) in *.
  inversion H; subst d'; clear H.
  cbn [pArrays0 intParams log unlock emit callParamCallbacks with_log with_PvFrames].
  change (pArrays0 (lock d)) with (pArrays0 d) in Hlog.
  change (framesRemaining (lock d)) with (framesRemaining d) in Hlog.
  change (getIntegerParam NDArrayCallbacks (indet w "arrayCallbacks") (lock d))
    with (getIntegerParam NDArrayCallbacks (indet w "arrayCallbacks") d) in Hlog.
  change (getIntegerParam NDArrayCounter (indet w "imageCounter") (lock d))
    with (getIntegerParam NDArrayCounter (indet w "imageCounter") d) in Hctr.
  unfold getIntegerParam in Hlog, Hctr. rewrite Hcb in Hlog. rewrite Hn in Hctr.
  cbn [snd] in Hlog, Hctr.
  rewrite int32_small in Hctr by (unfold INT_MIN, INT_MAX in Hr; lia).
  assert (Hdel : count is_delivery (log d0) = count is_delivery (log d)).
  { rewrite (decode_format_count is_delivery _ _ _ _ _ _ _ _ _ _ _
               ltac:(reflexivity) ltac:(reflexivity) ltac:(reflexivity) Hdec).
    reflexivity. }
  exists published. split; [exact Himg|]. split; [exact Hctr|].
  split.
  { rewrite (Hpar PSBadFrameCounter) by discriminate.
    repeat (case_decide; [discriminate|]). destruct (_ =? 0); reflexivity. }
  rewrite Hlog. split; [|split].
  - cbn [count is_delivery]. rewrite !count_app. cbn [count is_delivery].
    rewrite !count_app. cbn [count is_delivery]. rewrite Hdel.
    destruct (pArrays0 d), (after_frame (framesRemaining d) =? 0), (c =? 0); reflexivity.
  - intros Hc. apply Z.eqb_neq in Hc. rewrite Hc.
    do 3 right. apply in_or_app. right. right. apply in_or_app. right.
    left. reflexivity.
  - intros old Hold. rewrite Hold. do 3 right. left. reflexivity.
Qed.

Lemma good_frame_bookkeeping_witness :
  exists img,
    pArrays0 (returned (frameCallback nominal 0 good_frame_driver) good_frame_driver)
    = Some img /\
    intParams (returned (frameCallback nominal 0 good_frame_driver) good_frame_driver)
      !! NDArrayCounter = Some (41 + 1) /\
    intParams (returned (frameCallback nominal 0 good_frame_driver) good_frame_driver)
      !! PSBadFrameCounter = intParams good_frame_driver !! PSBadFrameCounter /\
    count is_delivery
      (log (returned (frameCallback nominal 0 good_frame_driver) good_frame_driver))
    = Nat.add (if 1 =? 0 then 0%nat else 1%nat) (count is_delivery (log good_frame_driver)) /\
    (1 <> 0 ->
     In (EvDoCallbacksGenericPointer (nd_alloc img))
        (log (returned (frameCallback nominal 0 good_frame_driver) good_frame_driver))) /\
    (forall old, pArrays0 good_frame_driver = Some old ->
       In (EvNDArrayRelease (nd_alloc old))
          (log (returned (frameCallback nominal 0 good_frame_driver) good_frame_driver))).
Proof.
  apply (good_frame_bookkeeping nominal 0%nat good_frame_driver
           (frame ePvErrSuccess ePvFmtMono8 0 0) (buffer 0) _ 41 1).
  - reflexivity.
  - reflexivity.
  - reflexivity.
  - reflexivity.
  - reflexivity.
  - unfold INT_MIN, INT_MAX. lia.
  - apply returns_Ret. vm_compute. reflexivity.
Defined.


Lemma set_timeStamp_image w f a d :
  fst (set_timeStamp w f a d)
  = array_with_timeStamp (nd_timeStamp (fst (set_timeStamp w f a d))) a.
Proof. unfold set_timeStamp. repeat case_match; reflexivity. Qed.

Lemma native_frame_ticks_fix f :
  native_frame_ticks (fix_BayerPattern f) = native_frame_ticks f.
Proof. unfold native_frame_ticks, fix_BayerPattern. destruct (_ >? _); reflexivity. Qed.

Lemma set_timeStamp_value w f a d mode :
  intParams d !! PSTimestampType = Some mode ->
  nd_epicsTS a = r_updateTimeStamp w \/ mode <> PSTimestampTypeIOC ->
  nd_timeStamp (fst (set_timeStamp w f a d)) = expected_timeStamp w mode f d /\
  timeStampFrequency (snd (set_timeStamp w f a d))
  = if uses_frequency mode && (timeStampFrequency d =? 0) then 1 else timeStampFrequency d.
Proof.
  intros Hm Hs. unfold set_timeStamp, expected_timeStamp, uses_frequency, floor_frequency,
    getIntegerParam. rewrite Hm. cbn [snd].
  destruct (mode =? PSTimestampTypeNativeTicks) eqn:M0.
  { apply Z.eqb_eq in M0. subst mode. cbn. auto. }
  destruct (mode =? PSTimestampTypeNativeSeconds) eqn:M1.
  { cbn. destruct (timeStampFrequency d =? 0) eqn:F; cbn; rewrite ?F; auto. }
  destruct (mode =? PSTimestampTypePOSIX) eqn:M2.
  { cbn. destruct (timeStampFrequency d =? 0) eqn:F; cbn; rewrite ?F; auto. }
  destruct (mode =? PSTimestampTypeEPICS) eqn:M3.
  { cbn. destruct (timeStampFrequency d =? 0) eqn:F; cbn; rewrite ?F; auto. }
  destruct (mode =? PSTimestampTypeIOC) eqn:M4.
  { apply Z.eqb_eq in M4. destruct Hs as [Hs|Hs]; [|contradiction].
    cbn. rewrite Hs. auto. }
  cbn. auto.
Qed.

(** X3: the time stamp of the image the callback publishes follows
    [PSTimestampType]: the camera's ticks; the ticks over the tick
    frequency; the last synchronisation plus those seconds, as POSIX or
    as EPICS seconds; or the IOC clock read when the frame was decoded.
    In the three modes that divide, a tick frequency of 0 is replaced by
    1 in the driver, and in no other case is the frequency changed.  For
    the IOC clock the frame is assumed not to go through the Bayer
    conversion. *)
Theorem timeStamp_by_mode w slot d pFrame pImage d' mode bayerConvert :
  PvFrames d !! slot = Some pFrame ->
  Context1 pFrame = Some pImage ->
  Status pFrame = ePvErrSuccess ->
  intParams d !! PSTimestampType = Some mode ->
  intParams d !! PSBayerConvert = Some bayerConvert ->
  (mode = PSTimestampTypeIOC -> is_converted pFrame bayerConvert = false) ->
  frameCallback w slot d = Ret d' ->
  exists img,
    pArrays0 d' = Some img /\
    nd_timeStamp img = expected_timeStamp w mode pFrame d /\
    timeStampFrequency d'
    = if uses_frequency mode && (timeStampFrequency d =? 0) then 1
      else timeStampFrequency d.
Proof.
  intros Hf Ha Hs Hm Hbc Hconv H.
  rewrite (frameCallback_good w slot d pFrame pImage Hf Ha Hs) in H.
  destruct (frame_good w pFrame pImage (lock d)) as [[f' d1]|] eqn:E; [|discriminate].
  apply frame_good_image in E as (img & c0 & d0 & Hdec & Hd0 & Himg & Hfreq & _ & _).
  cbv zeta in Himg, Hfreq. unfold same_but_log_pool in Hd0.
  inversion H; subst d'; clear H.
  cbn [pArrays0 timeStampFrequency unlock emit callParamCallbacks with_log with_PvFrames].
  change (getIntegerParam PSBayerConvert (indet w "bayerConvert") (lock d))
    with (getIntegerParam PSBayerConvert (indet w "bayerConvert") d) in Hdec.
  unfold getIntegerParam at 1 in Hdec. rewrite Hbc in Hdec. cbn [snd] in Hdec.
  set (img1 := attr_add "ColorMode" c0 _) in *.
  assert (Hm0 : intParams d0 !! PSTimestampType = Some mode) by (rewrite Hd0; exact Hm).
  assert (Hts : nd_epicsTS img1 = r_updateTimeStamp w \/ mode <> PSTimestampTypeIOC).
  { destruct (Z.eq_dec mode PSTimestampTypeIOC) as [Hi|Hi]; [left|right; exact Hi].
    assert (Hc : is_converted (fix_BayerPattern pFrame) bayerConvert = false).
    { unfold is_converted. rewrite (proj1 (fix_BayerPattern_fields pFrame)).
      apply Hconv, Hi. }
    destruct (decode_format_plain _ _ _ _ _ _ _ _ _ _ _ Hc Hdec) as (_ & _ & He & _).
    subst img1. cbn. exact He. }
  destruct (set_timeStamp_value w (fix_BayerPattern pFrame) img1 d0 mode Hm0 Hts)
    as [Hv Hfr].
  eexists. split; [exact Himg|]. split.
  - rewrite Hv. unfold expected_timeStamp. rewrite native_frame_ticks_fix.
    rewrite Hd0. reflexivity.
  - rewrite Hfreq, Hfr, Hd0. reflexivity.
Qed.

Lemma timeStamp_by_mode_witness :
  exists img,
    pArrays0 (returned (frameCallback stale_pool_world 0 (bayer_driver PSBayerConvertNone))
                (bayer_driver PSBayerConvertNone)) = Some img /\
    nd_timeStamp img
    = expected_timeStamp stale_pool_world PSTimestampTypeIOC
        (frame ePvErrSuccess ePvFmtBayer8 0 0) (bayer_driver PSBayerConvertNone) /\
    timeStampFrequency
      (returned (frameCallback stale_pool_world 0 (bayer_driver PSBayerConvertNone))
         (bayer_driver PSBayerConvertNone))
    = if uses_frequency PSTimestampTypeIOC
         && (timeStampFrequency (bayer_driver PSBayerConvertNone) =? 0)
      then 1 else timeStampFrequency (bayer_driver PSBayerConvertNone).
Proof.
  apply (timeStamp_by_mode stale_pool_world 0%nat (bayer_driver PSBayerConvertNone)
           (frame ePvErrSuccess ePvFmtBayer8 0 0) (buffer 0) _
           PSTimestampTypeIOC PSBayerConvertNone).
  - reflexivity.
  - reflexivity.
  - reflexivity.
  - reflexivity.
  - reflexivity.
  - reflexivity.
  - apply returns_Ret. vm_compute. reflexivity.
Defined.

Lemma take_2_insert {A : Type} (x y : A) (l : list A) :
  (2 <= length l)%nat -> take 2 (<[1%nat := y]> (<[0%nat := x]> l)) = [x; y].
Proof. destruct l as [|a [|b l]]; cbn; intros; try lia; reflexivity. Qed.

Lemma take_3_insert {A : Type} (i j k : nat) (x y z : A) (l : list A) :
  (3 <= length l)%nat ->
  (i, j, k) = (0, 1, 2)%nat \/ (i, j, k) = (1, 0, 2)%nat \/ (i, j, k) = (2, 1, 0)%nat
  \/ (i, j, k) = (0, 2, 1)%nat ->
  take 3 (<[k := z]> (<[j := y]> (<[i := x]> l)))
  = <[k := z]> (<[j := y]> (<[i := x]> (take 3 l))).
Proof.
  destruct l as [|a [|b [|c l]]]; cbn; intros Hl H; try lia.
  destruct H as [H|[H|[H|H]]]; injection H as -> -> ->; reflexivity.
Qed.

(** X4: a frame in one of the six pixel formats the callback decodes, and
    which is not converted, is published in its own buffer, stamped with
    the frame count as [uniqueId] and with the IOC time as [epicsTS],
    with the data type and the [ColorMode] attribute of its format, and
    with the axes (width, height) taken from the frame's region and the
    binning parameters; the RGB formats put a colour axis of size 3 in
    front of these. *)
Theorem published_image_layout w slot d pFrame pImage d'
    bayerConvert binX binY dataType colorMode (rgb : bool) :
  PvFrames d !! slot = Some pFrame ->
  Context1 pFrame = Some pImage ->
  Status pFrame = ePvErrSuccess ->
  intParams d !! PSBayerConvert = Some bayerConvert ->
  intParams d !! ADBinX = Some binX ->
  intParams d !! ADBinY = Some binY ->
  is_converted pFrame bayerConvert = false ->
  format_layout (Format pFrame) = Some (dataType, colorMode, rgb) ->
  (3 <= length (nd_dims pImage))%nat ->
  frameCallback w slot d = Ret d' ->
  exists img,
    pArrays0 d' = Some img /\
    nd_alloc img = nd_alloc pImage /\
    nd_uniqueId img = int32 (FrameCount pFrame) /\
    nd_epicsTS img = r_updateTimeStamp w /\
    nd_dataType img = dataType /\
    nd_attributes img !! "ColorMode" = Some colorMode /\
    nd_ndims img = (if rgb then 3 else 2) /\
    take (if rgb then 3 else 2) (nd_dims img)
    = if rgb then [axis_color; axis_X pFrame binX; axis_Y pFrame binY]
      else [axis_X pFrame binX; axis_Y pFrame binY].
Proof.
  intros Hf Ha Hs Hbc Hbx Hby Hconv Hlay Hlen H.
  rewrite (frameCallback_good w slot d pFrame pImage Hf Ha Hs) in H.
  destruct (frame_good w pFrame pImage (lock d)) as [[f' d1]|] eqn:E; [|discriminate].
  apply frame_good_image in E as (img & c0 & d0 & Hdec & _ & Himg & _).
  cbv zeta in Himg.
  inversion H; subst d'; clear H.
  cbn [pArrays0 unlock emit callParamCallbacks with_log with_PvFrames].
  change (getIntegerParam PSBayerConvert (indet w "bayerConvert") (lock d))
    with (getIntegerParam PSBayerConvert (indet w "bayerConvert") d) in Hdec.
  change (getIntegerParam ADBinX (indet w "binX") (lock d))
    with (getIntegerParam ADBinX (indet w "binX") d) in Hdec.
  change (getIntegerParam ADBinY (indet w "binY") (lock d))
    with (getIntegerParam ADBinY (indet w "binY") d) in Hdec.
  unfold getIntegerParam in Hdec. rewrite Hbc, Hbx, Hby in Hdec. cbn [snd] in Hdec.
  destruct (fix_BayerPattern_fields pFrame) as (Ffmt & Fw & Fh & Frx & Fry & _).
  assert (Hc : is_converted (fix_BayerPattern pFrame) bayerConvert = false)
    by (unfold is_converted; rewrite Ffmt; exact Hconv).
  destruct (decode_format_plain _ _ _ _ _ _ _ _ _ _ _ Hc Hdec)
    as (Hal & Hid & Hts & _ & Hl).
  rewrite Ffmt, Hlay in Hl. destruct Hl as (Hdt & Hcm & _ & Hnd & Hdims).
  eexists. split; [exact Himg|].
  rewrite set_timeStamp_image. cbn.
  rewrite Hal, Hid, Hts, Hdt, Hnd, Hdims, Hcm. cbn.
  repeat (split; [reflexivity|]).
  split; [apply lookup_insert_eq|]. split; [reflexivity|].
  unfold axis_X, axis_Y. rewrite Fw, Fh, Frx, Fry.
  destruct rgb.
  - rewrite take_3_insert by (auto; lia).
    destruct (nd_dims pImage) as [|x [|y [|z l]]]; cbn in Hlen; try lia. reflexivity.
  - apply take_2_insert. lia.
Qed.

Lemma published_image_layout_witness :
  exists img,
    pArrays0 (returned (frameCallback nominal 0 good_frame_driver) good_frame_driver)
    = Some img /\
    nd_alloc img = nd_alloc (buffer 0) /\
    nd_uniqueId img = int32 (FrameCount (frame ePvErrSuccess ePvFmtMono8 0 0)) /\
    nd_epicsTS img = r_updateTimeStamp nominal /\
    nd_dataType img = NDUInt8 /\
    nd_attributes img !! "ColorMode" = Some NDColorModeMono /\
    nd_ndims img = (if false then 3 else 2) /\
    take (if false then 3 else 2) (nd_dims img)
    = if false
      then [axis_color; axis_X (frame ePvErrSuccess ePvFmtMono8 0 0) 1;
            axis_Y (frame ePvErrSuccess ePvFmtMono8 0 0) 1]
      else [axis_X (frame ePvErrSuccess ePvFmtMono8 0 0) 1;
            axis_Y (frame ePvErrSuccess ePvFmtMono8 0 0) 1].
Proof.
  apply (published_image_layout nominal 0%nat good_frame_driver
           (frame ePvErrSuccess ePvFmtMono8 0 0) (buffer 0) _
           PSBayerConvertNone 1 1 NDUInt8 NDColorModeMono false).
  - reflexivity.
  - reflexivity.
  - reflexivity.
  - reflexivity.
  - reflexivity.
  - reflexivity.
  - reflexivity.
  - reflexivity.
  - vm_compute. lia.
  - apply returns_Ret. vm_compute. reflexivity.
Defined.

(** A Bayer frame that is converted is demosaiced into a new buffer. *)
Lemma decode_format_converted w f bc bx by_ c a d img c' d1 colorMode axes :
  Format f = ePvFmtBayer8 \/ Format f = ePvFmtBayer16 ->
  conversion_layout bc f bx by_ = Some (colorMode, axes) ->
  decode_format w f bc bx by_ c a d = Ret (img, c', d1) ->
  nd_alloc img = poolSerial d /\ c' = colorMode /\
  nd_dataType img = (if Format f =? ePvFmtBayer8 then NDUInt8 else NDUInt16) /\
  nd_ndims img = 3 /\ take 3 (nd_dims img) = axes /\
  nd_dataSize img = maxFrameSize d /\
  exists g b p l,
    log d1 = EvNDArrayRelease (nd_alloc a)
               :: EvPvUtilityColorInterpolate (nd_alloc a) (poolSerial d) g b p l :: log d.
Proof.
  intros Hfmt Hlay H.
  unfold decode_format, bayer_convert, NDArrayPool_alloc, conversion_layout in *.
  destruct (r_NDArrayPool_alloc w (poolSerial d)) as [raw|] eqn:Hraw.
  - destruct Hfmt as [Hf|Hf]; rewrite Hf in *; cbn in H;
      (destruct (bc =? PSBayerConvertRGB1) eqn:B1;
       [apply Z.eqb_eq in B1; subst bc|
        destruct (bc =? PSBayerConvertRGB2) eqn:B2;
        [apply Z.eqb_eq in B2; subst bc|
         destruct (bc =? PSBayerConvertRGB3) eqn:B3;
         [apply Z.eqb_eq in B3; subst bc|discriminate]]]);
      cbn in H; injection H as <- <- <-; injection Hlay as <- <-;
      cbn; repeat split; eauto.
  - destruct Hfmt as [Hf|Hf]; rewrite Hf in *; cbn in H;
      (destruct (bc =? PSBayerConvertRGB1) eqn:B1;
       [apply Z.eqb_eq in B1; subst bc|
        destruct (bc =? PSBayerConvertRGB2) eqn:B2;
        [apply Z.eqb_eq in B2; subst bc|
         destruct (bc =? PSBayerConvertRGB3) eqn:B3;
         [apply Z.eqb_eq in B3; subst bc|discriminate]]]);
      cbn in H; discriminate.
Qed.

(** X5: a Bayer8 or Bayer16 frame with [PSBayerConvert] set to RGB1, RGB2 or
    RGB3 is published in an image newly allocated from the pool, of
    [maxFrameSize] bytes, and the frame's own image is released; the new
    image has three axes, with the colour axis first, second or last, the
    matching [ColorMode] attribute, and the data type of the Bayer
    format. *)
Theorem bayer_conversion_layout w slot d pFrame pImage d'
    bayerConvert binX binY colorMode axes :
  PvFrames d !! slot = Some pFrame ->
  Context1 pFrame = Some pImage ->
  Status pFrame = ePvErrSuccess ->
  intParams d !! PSBayerConvert = Some bayerConvert ->
  intParams d !! ADBinX = Some binX ->
  intParams d !! ADBinY = Some binY ->
  Format pFrame = ePvFmtBayer8 \/ Format pFrame = ePvFmtBayer16 ->
  conversion_layout bayerConvert pFrame binX binY = Some (colorMode, axes) ->
  frameCallback w slot d = Ret d' ->
  exists img,
    pArrays0 d' = Some img /\
    nd_alloc img = poolSerial d /\
    In (EvNDArrayRelease (nd_alloc pImage)) (log d') /\
    nd_dataType img = (if Format pFrame =? ePvFmtBayer8 then NDUInt8 else NDUInt16) /\
    nd_attributes img !! "ColorMode" = Some colorMode /\
    nd_ndims img = 3 /\
    take 3 (nd_dims img) = axes /\
    nd_dataSize img = maxFrameSize d.
Proof.
  intros Hf Ha Hs Hbc Hbx Hby Hfmt Hlay H.
  rewrite (frameCallback_good w slot d pFrame pImage Hf Ha Hs) in H.
  destruct (frame_good w pFrame pImage (lock d)) as [[f' d1]|] eqn:E; [|discriminate].
  apply frame_good_image in E as (img & c0 & d0 & Hdec & _ & Himg & _ & _ & Hlog).
  cbv zeta in Himg, Hlog.
  inversion H; subst d'; clear H.
  cbn [pArrays0 log unlock emit callParamCallbacks with_log with_PvFrames].
  change (getIntegerParam PSBayerConvert (indet w "bayerConvert") (lock d))
    with (getIntegerParam PSBayerConvert (indet w "bayerConvert") d) in Hdec.
  change (getIntegerParam ADBinX (indet w "binX") (lock d))
    with (getIntegerParam ADBinX (indet w "binX") d) in Hdec.
  change (getIntegerParam ADBinY (indet w "binY") (lock d))
    with (getIntegerParam ADBinY (indet w "binY") d) in Hdec.
  unfold getIntegerParam in Hdec. rewrite Hbc, Hbx, Hby in Hdec. cbn [snd] in Hdec.
  destruct (fix_BayerPattern_fields pFrame) as (Ffmt & Fw & Fh & Frx & Fry & _).
  assert (Hlay' : conversion_layout bayerConvert (fix_BayerPattern pFrame) binX binY
                  = Some (colorMode, axes)).
  { rewrite <- Hlay. unfold conversion_layout, axis_X, axis_Y.
    rewrite Fw, Fh, Frx, Fry. reflexivity. }
  rewrite <- Ffmt in Hfmt.
  destruct (decode_format_converted _ _ _ _ _ _ _ _ _ _ _ _ _ Hfmt Hlay' Hdec)
    as (Hal & Hcm & Hdt & Hnd & Hdims & Hsz & g & b & p & l & Hl0).
  eexists. split; [exact Himg|].
  rewrite set_timeStamp_image. cbn [nd_alloc nd_dataType nd_attributes nd_ndims nd_dims
    nd_dataSize array_with_timeStamp attr_add array_with_attributes].
  rewrite Hal, Hdt, Hnd, Hdims, Hsz, Hcm, Ffmt.
  split; [reflexivity|]. split.
  { rewrite Hlog, Hl0. do 3 right. apply in_or_app. right. right.
    apply in_or_app. right. apply in_or_app. right. right. left. reflexivity. }
  split; [reflexivity|]. split; [apply lookup_insert_eq|]. auto.
Qed.

Lemma bayer_conversion_layout_witness :
  exists img,
    pArrays0 (returned (frameCallback stale_pool_world 0 (bayer_driver PSBayerConvertRGB1))
                (bayer_driver PSBayerConvertRGB1)) = Some img /\
    nd_alloc img = poolSerial (bayer_driver PSBayerConvertRGB1) /\
    In (EvNDArrayRelease (nd_alloc (buffer 0)))
       (log (returned (frameCallback stale_pool_world 0 (bayer_driver PSBayerConvertRGB1))
               (bayer_driver PSBayerConvertRGB1))) /\
    nd_dataType img
    = (if Format (frame ePvErrSuccess ePvFmtBayer8 0 0) =? ePvFmtBayer8
       then NDUInt8 else NDUInt16) /\
    nd_attributes img !! "ColorMode" = Some NDColorModeRGB1 /\
    nd_ndims img = 3 /\
    take 3 (nd_dims img)
    = [axis_color; axis_X (frame ePvErrSuccess ePvFmtBayer8 0 0) 1;
       axis_Y (frame ePvErrSuccess ePvFmtBayer8 0 0) 1] /\
    nd_dataSize img = maxFrameSize (bayer_driver PSBayerConvertRGB1).
Proof.
  apply (bayer_conversion_layout stale_pool_world 0%nat (bayer_driver PSBayerConvertRGB1)
           (frame ePvErrSuccess ePvFmtBayer8 0 0) (buffer 0) _
           PSBayerConvertRGB1 1 1).
  - reflexivity.
  - reflexivity.
  - reflexivity.
  - reflexivity.
  - reflexivity.
  - reflexivity.
  - left. reflexivity.
  - reflexivity.
  - apply returns_Ret. vm_compute. reflexivity.
Defined.

(** ** Opening the camera *)

(** The retry loop changes the log and the camera information only. *)
Lemma retry_loop_driver w fuel retryCount d :
  snd (retry_loop w fuel retryCount d)
  = with_log (log (snd (retry_loop w fuel retryCount d)))
      (with_PvCameraInfo (PvCameraInfo (snd (retry_loop w fuel retryCount d))) d).
Proof.
  revert retryCount d. induction fuel as [|fuel IH]; intros k d; cbn [retry_loop].
  - destruct (negb (no_master_access d)); destruct d; reflexivity.
  - destruct (negb (no_master_access d)); [destruct d; reflexivity|].
    match goal with |- context [if negb (?c =? 0) then _ else _] => destruct (negb (c =? 0)) end;
      [destruct d; reflexivity|].
    destruct (uint32 (k + 1) >=? CONNECT_RETRY_COUNT); [destruct d; reflexivity|].
    rewrite IH at 1. destruct d; reflexivity.
Qed.

(** Whatever the camera answers, the loop takes at most
    [CONNECT_RETRY_COUNT - retryCount] turns. *)
Lemma retry_loop_turns w fuel retryCount d :
  0 <= retryCount < CONNECT_RETRY_COUNT ->
  exists n,
    Z.of_nat n <= CONNECT_RETRY_COUNT - retryCount /\
    count is_sleep (log (snd (retry_loop w fuel retryCount d)))
    = (n + count is_sleep (log d))%nat /\
    count is_enquiry (log (snd (retry_loop w fuel retryCount d)))
    = (n + count is_enquiry (log d))%nat.
Proof.
  unfold CONNECT_RETRY_COUNT. revert retryCount d.
  induction fuel as [|fuel IH]; intros k d Hk; cbn [retry_loop].
  - exists 0%nat. destruct (negb (no_master_access d)); cbn; split; auto; lia.
  - destruct (negb (no_master_access d)); [exists 0%nat; cbn; split; auto; lia|].
    match goal with |- context [if negb (?c =? 0) then _ else _] => destruct (negb (c =? 0)) end.
    { exists 1%nat. cbn. split; [lia|auto]. }
    assert (Hu : uint32 (k + 1) = k + 1) by (unfold uint32; apply Z.mod_small; lia).
    rewrite Hu. unfold CONNECT_RETRY_COUNT.
    destruct (k + 1 >=? 30) eqn:G.
    { exists 1%nat. cbn. split; [lia|auto]. }
    rewrite Z.geb_leb in G. apply Z.leb_gt in G.
    match goal with |- context [retry_loop w fuel (k + 1) ?d1] =>
      destruct (IH (k + 1) d1) as (n & Hn & Hs & He); [lia|] end.
    exists (S n). split; [lia|]. rewrite Hs, He. cbn. split; lia.
Qed.

(** X6: the loop of [connectCamera] that waits for master access ends within
    [CONNECT_RETRY_COUNT] turns whatever the camera answers, and every
    turn sleeps once and asks for the camera's information once: the
    numbers of sleeps and of enquiries it adds are equal and at most
    [CONNECT_RETRY_COUNT]. *)
Theorem retry_is_bounded w d :
  let r := retry_loop w (Z.to_nat CONNECT_RETRY_COUNT) 0 d in
  fst r <> LoopFuel /\
  exists n,
    (n <= Z.to_nat CONNECT_RETRY_COUNT)%nat /\
    count is_sleep (log (snd r)) = (n + count is_sleep (log d))%nat /\
    count is_enquiry (log (snd r)) = (n + count is_enquiry (log d))%nat.
Proof.
  cbv zeta. split.
  - apply retry_loop_fuel; unfold CONNECT_RETRY_COUNT; cbn; lia.
  - destruct (retry_loop_turns w (Z.to_nat CONNECT_RETRY_COUNT) 0 d) as (n & Hn & H);
      [unfold CONNECT_RETRY_COUNT; lia|].
    exists n. split; [unfold CONNECT_RETRY_COUNT in *; lia|exact H].
Qed.

Lemma retry_loop_return w fuel retryCount d status :
  fst (retry_loop w fuel retryCount d) = LoopReturn status -> status = asynError.
Proof.
  revert retryCount d. induction fuel as [|fuel IH]; intros k d; cbn [retry_loop].
  - destruct (negb (no_master_access d)); discriminate.
  - destruct (negb (no_master_access d)); [discriminate|].
    match goal with |- context [if negb (?c =? 0) then _ else _] => destruct (negb (c =? 0)) end;
      [cbn; congruence|].
    destruct (uint32 (k + 1) >=? CONNECT_RETRY_COUNT); [discriminate|]. apply IH.
Qed.

(** What [connectCamera] does once the camera has been found, when it
    cannot be opened. *)
Lemma connect_tail_open_failure w (isUniqueId : bool) (ipAddr : Z) d2 :
  PvHandle d2 = None ->
  fst (r_PvCameraOpen w) <> 0 ->
  let r := match retry_loop w (Z.to_nat CONNECT_RETRY_COUNT) 0 d2 with
           | (LoopReturn status, d) => (status, d)
           | (LoopFuel, d) => (asynError, d)
           | (LoopDone, d) =>
               if no_master_access d then
                 (asynError,
                  asynPrint ASYN_TRACE_ERROR
                    "%s:%s: Cannot get control of camera %lu, access flags=%lx\n" d)
               else
                 let r := r_PvCameraOpen w in
                 let d := emit (if isUniqueId then EvPvCameraOpen (uniqueId d)
                                else EvPvCameraOpenByAddr ipAddr) d in
                 let d := with_PvHandle (snd r) d in
                 if negb (fst r =? 0) then
                   (asynError,
                    with_PvHandle None
                      (asynPrint ASYN_TRACE_ERROR "%s:%s: unable to open camera %lu\n" d))
                 else connect_opened w d
           end in
  fst r = asynError /\ PvHandle (snd r) = None.
Proof.
  intros Hh Hopen.
  pose proof (retry_loop_driver w (Z.to_nat CONNECT_RETRY_COUNT) 0 d2) as Hd.
  pose proof (retry_loop_fuel w (Z.to_nat CONNECT_RETRY_COUNT) 0 d2) as Hfuel.
  pose proof (retry_loop_return w (Z.to_nat CONNECT_RETRY_COUNT) 0 d2) as Hret.
  destruct (retry_loop w (Z.to_nat CONNECT_RETRY_COUNT) 0 d2) as [ex d3].
  cbn [fst snd] in Hd, Hfuel, Hret.
  assert (Hh3 : PvHandle d3 = None) by (rewrite Hd; exact Hh).
  cbv zeta. destruct ex as [|status|].
  - destruct (no_master_access d3); [split; [reflexivity|exact Hh3]|].
    apply Z.eqb_neq in Hopen. rewrite Hopen. split; reflexivity.
  - rewrite (Hret status eq_refl). split; [reflexivity|exact Hh3].
  - exfalso. apply Hfuel; [unfold CONNECT_RETRY_COUNT; lia| |reflexivity].
    unfold CONNECT_RETRY_COUNT. lia.
Qed.

(** X7: with the API initialised, when the camera cannot be opened
    [connectCamera] returns [asynError] and leaves the driver without a
    handle, whether it failed at the call that opens the camera or at an
    earlier step. *)
Theorem connect_open_failure w d :
  PvApiInitialized d = true ->
  fst (r_PvCameraOpen w) <> 0 ->
  fst (connectCamera w d) = asynError /\ PvHandle (snd (connectCamera w d)) = None.
Proof.
  intros Hinit Hopen.
  destruct (disconnectCamera_initialised w d Hinit) as (Hh & _).
  unfold connectCamera. rewrite Hinit. cbn [negb].
  set (d1 := snd (disconnectCamera w d)) in *.
  destruct (forallb isdigit (list_ascii_of_string (cameraId d1))).
  - cbn [uniqueId with_uniqueId].
    match goal with |- context [if negb (?c =? 0) then _ else _] => destruct (negb (c =? 0)) end.
    + cbn. split; [reflexivity|exact Hh].
    + cbn [negb]. cbv beta iota.
      refine (connect_tail_open_failure w true 0 _ _ Hopen). exact Hh.
  - match goal with |- context [if negb (?c =? 0) then _ else _] => destruct (negb (c =? 0)) end.
    + cbn. split; [reflexivity|exact Hh].
    + match goal with |- context [if negb (?c =? 0) then _ else _] =>
        destruct (negb (c =? 0)) end.
      * cbn. split; [reflexivity|exact Hh].
      * cbn [negb]. cbv beta iota.
        refine (connect_tail_open_failure w false _ _ _ Hopen). exact Hh.
Qed.

Lemma connect_open_failure_witness :
  fst (connectCamera unopenable_world connected) = asynError /\
  PvHandle (snd (connectCamera unopenable_world connected)) = None.
Proof.
  apply (connect_open_failure unopenable_world connected).
  - reflexivity.
  - discriminate.
Defined.

Lemma arm_frame_inv w i d d' f :
  PvFrames d !! i = Some f ->
  arm_frame w i d = (true, d') ->
  exists f',
    d' = with_log (EvPvCaptureQueueFrame i (Some (poolSerial d)) :: log d)
           (with_poolSerial (S (poolSerial d))
              (with_PvFrames (<[i := f']> (PvFrames d)) d)) /\
    armed i (poolSerial d) (maxFrameSize d) (log d') f'.
Proof.
  intros Hf. unfold arm_frame, NDArrayPool_alloc, PvCaptureQueueFrame. rewrite Hf.
  destruct (r_NDArrayPool_alloc w (poolSerial d)) as [raw|]; [|discriminate].
  cbn. destruct (negb (r_PvCaptureQueueFrame w i =? 0)); [discriminate|].
  intros H. injection H as <-.
  eexists. split; [destruct d; reflexivity|].
  eexists. cbn. repeat split. left. reflexivity.
Qed.

Lemma armed_later i serial size l l' f :
  (forall e, In e l -> In e l') -> armed i serial size l f -> armed i serial size l' f.
Proof. intros Hl (a & ? & ? & ? & ? & ? & Hin). exists a. repeat split; auto. Qed.

(** The loop that binds and queues the descriptors [first], ...,
    [first + k - 1]. *)
Lemma arm_frames_inv w k : forall first d d',
  (first + k <= length (PvFrames d))%nat ->
  arm_frames w (seq first k) d = (true, d') ->
  d' = with_log (log d') (with_poolSerial (poolSerial d')
         (with_PvFrames (PvFrames d') d)) /\
  length (PvFrames d') = length (PvFrames d) /\
  (forall e, In e (log d) -> In e (log d')) /\
  (forall j, (j < first \/ first + k <= j)%nat -> PvFrames d' !! j = PvFrames d !! j) /\
  (forall j, (first <= j < first + k)%nat ->
     exists f', PvFrames d' !! j = Some f' /\
       armed j (poolSerial d + (j - first)) (maxFrameSize d) (log d') f').
Proof.
  induction k as [|k IH]; intros first d d' Hlen H.
  - cbn in H. injection H as <-. split; [destruct d; reflexivity|].
    split; [reflexivity|]. split; [auto|]. split; [auto|]. intros j Hj. lia.
  - cbn [seq arm_frames] in H.
    destruct (lookup_lt_is_Some_2 (PvFrames d) first ltac:(lia)) as [f Hf].
    destruct (arm_frame w first d) as [ok d1] eqn:E.
    destruct ok; [|discriminate].
    destruct (arm_frame_inv w first d d1 f Hf E) as (f1 & Hd1 & Harm1).
    assert (Hlen1 : length (PvFrames d1) = length (PvFrames d))
      by (rewrite Hd1; cbn; apply length_insert).
    destruct (IH (S first) d1 d' ltac:(lia) H) as (Hd' & Hl' & Hlog & Hout & Hin).
    assert (Hps : poolSerial d1 = S (poolSerial d)) by (rewrite Hd1; reflexivity).
    assert (Hmf : maxFrameSize d1 = maxFrameSize d) by (rewrite Hd1; reflexivity).
    assert (Hlog1 : forall e, In e (log d) -> In e (log d1))
      by (intros e He; rewrite Hd1; right; exact He).
    refine (conj _ (conj _ (conj _ (conj _ _)))).
    + rewrite Hd' at 1. rewrite Hd1. destruct d; reflexivity.
    + congruence.
    + auto.
    + intros j Hj. rewrite Hout by lia. rewrite Hd1. cbn.
      apply list_lookup_insert_ne. lia.
    + intros j Hj. destruct (decide (j = first)) as [->|Hne].
      * exists f1. split.
        -- rewrite Hout by lia. rewrite Hd1. cbn. apply list_lookup_insert_eq.
           eapply lookup_lt_Some. exact Hf.
        -- replace (poolSerial d + (first - first))%nat with (poolSerial d) by lia.
           eapply armed_later; [exact Hlog|exact Harm1].
      * destruct (Hin j ltac:(lia)) as (f' & Hf' & Harm).
        exists f'. split; [exact Hf'|].
        rewrite Hps, Hmf in Harm.
        replace (poolSerial d + (j - first))%nat with (S (poolSerial d) + (j - S first))%nat
          by lia.
        exact Harm.
Qed.

Lemma readParameters_fields w d :
  PvFrames (snd (readParameters w d)) = PvFrames d /\
  PvHandle (snd (readParameters w d)) = PvHandle d /\
  maxFrameSize (snd (readParameters w d)) = maxFrameSize d.
Proof. repeat split. Qed.

Lemma readStats_fields w d :
  PvFrames (snd (readStats w d)) = PvFrames d /\
  PvHandle (snd (readStats w d)) = PvHandle d /\
  maxFrameSize (snd (readStats w d)) = maxFrameSize d.
Proof. repeat split. Qed.

Lemma readStats_log w d : exists new, log (snd (readStats w d)) = new ++ log d.
Proof.
  unfold readStats. cbn [snd asynPrint_if log with_log]. rewrite readStats_body_log.
  eexists. rewrite app_assoc. reflexivity.
Qed.

Lemma syncTimer_fields w d :
  PvFrames (snd (syncTimer w d)) = PvFrames d /\
  PvHandle (snd (syncTimer w d)) = PvHandle d /\
  maxFrameSize (snd (syncTimer w d)) = maxFrameSize d /\
  exists new, log (snd (syncTimer w d)) = new ++ log d.
Proof.
  unfold syncTimer. destruct (PvHandle d) eqn:E; cbn; rewrite ?E; repeat split.
  - exists [EvPvCommandRun "TimeStampReset" (framesRemaining d)]. reflexivity.
  - exists []. reflexivity.
Qed.

(** Setting a parameter leaves the rest of the driver as it is. *)
Lemma setStringParam_fields p v d :
  PvFrames (snd (setStringParam p v d)) = PvFrames d /\
  PvHandle (snd (setStringParam p v d)) = PvHandle d /\
  maxFrameSize (snd (setStringParam p v d)) = maxFrameSize d /\
  log (snd (setStringParam p v d)) = log d.
Proof. repeat split. Qed.

Lemma setIntegerParam_fields p v d :
  PvFrames (snd (setIntegerParam p v d)) = PvFrames d /\
  PvHandle (snd (setIntegerParam p v d)) = PvHandle d /\
  maxFrameSize (snd (setIntegerParam p v d)) = maxFrameSize d /\
  log (snd (setIntegerParam p v d)) = log d.
Proof. repeat split. Qed.

(** The next parameter set in the goal, its result named. *)
Ltac next_set :=
  match goal with
  | |- context [setStringParam ?p ?v ?d] =>
      is_var d;
      let F := fresh "F" in
      pose proof (setStringParam_fields p v d) as F;
      let d' := fresh "dp" in
      set (d' := snd (setStringParam p v d)) in *;
      change (setStringParam p v d) with (asynSuccess, d');
      clearbody d'; cbn [acc fst snd]
  | |- context [setIntegerParam ?p ?v ?d] =>
      is_var d;
      let F := fresh "F" in
      pose proof (setIntegerParam_fields p v d) as F;
      let d' := fresh "dp" in
      set (d' := snd (setIntegerParam p v d)) in *;
      change (setIntegerParam p v d) with (asynSuccess, d');
      clearbody d'; cbn [acc fst snd]
  end.

Lemma connect_opened_success w d d' :
  connect_opened w d = (asynSuccess, d') ->
  exists d3 d4,
    PvFrames d3 = PvFrames d /\ maxPvAPIFrames_ d3 = maxPvAPIFrames_ d /\
    PvHandle d3 = PvHandle d /\ poolSerial d3 = poolSerial d /\
    (forall e, In e (log d) -> In e (log d3)) /\
    arm_frames w (frame_indices d3) d3 = (true, d4) /\
    PvFrames d' = PvFrames d4 /\ maxFrameSize d' = maxFrameSize d4 /\
    PvHandle d' = PvHandle d4 /\
    (forall e, In e (log d4) -> In e (log d')).
Proof.
  unfold connect_opened.
  destruct (negb (r_PvCaptureAdjustPacketSize w =? 0)); [discriminate|].
  destruct (negb (r_PvCaptureStart w =? 0)); [discriminate|].
  cbn [PvAttrEnumGet PvAttrUint32Get PvAttrStringGet acc fst snd].
  match goal with |- context [if negb (?c =? 0) then (asynError, _) else _] =>
    destruct (negb (c =? 0)) end; [discriminate|].
  match goal with |- context [arm_frames w (frame_indices ?d3) ?d3'] =>
    set (dd3 := d3) end.
  assert (H3 : PvFrames dd3 = PvFrames d /\ maxPvAPIFrames_ dd3 = maxPvAPIFrames_ d /\
               PvHandle dd3 = PvHandle d /\ poolSerial dd3 = poolSerial d /\
               forall e, In e (log d) -> In e (log dd3)).
  { subst dd3. cbn. repeat split. intros e He. do 8 right. exact He. }
  clearbody dd3.
  destruct (arm_frames w (frame_indices dd3) dd3) as [ok d4] eqn:Ea.
  destruct ok; cbn [negb]; [|discriminate].
  repeat next_set.
  match goal with |- context [if negb (?c =? 0) then (asynError, _) else _] =>
    destruct (negb (c =? 0)) end; [discriminate|].
  match goal with |- context [readParameters w ?dA] =>
    pose proof (readParameters_fields w dA) as (Rf & Rh & Rm);
    destruct (readParameters_log w dA) as [newR Rl];
    destruct (readParameters w dA) as [s1 dB] end.
  cbn [snd] in Rf, Rh, Rm, Rl.
  destruct (negb (s1 =? 0)) eqn:S1.
  { intros H. injection H as -> _. discriminate. }
  pose proof (readStats_fields w dB) as (Sf & Sh & Sm).
  destruct (readStats_log w dB) as [newS Sl].
  destruct (readStats w dB) as [s2 dC].
  cbn [snd] in Sf, Sh, Sm, Sl.
  destruct (negb (s2 =? 0)) eqn:S2.
  { intros H. injection H as -> _. discriminate. }
  cbn [PvCommandRun snd].
  match goal with |- context [syncTimer w ?dS] =>
    pose proof (syncTimer_fields w dS) as (Tf & Th & Tm & newT & Tl) end.
  cbn [emit PvFrames maxFrameSize PvHandle log with_log] in Tf, Th, Tm, Tl.
  destruct (negb (r_exceptionConnect w =? 0)); [discriminate|].
  intros H. injection H as <-.
  exists dd3, d4.
  refine (conj (proj1 H3) (conj (proj1 (proj2 H3)) (conj (proj1 (proj2 (proj2 H3)))
            (conj (proj1 (proj2 (proj2 (proj2 H3))))
               (conj (proj2 (proj2 (proj2 (proj2 H3)))) (conj Ea _)))))).
  cbn [asynPrint emit PvFrames maxFrameSize PvHandle log with_log].
  rewrite Tf, Th, Tm, Tl, Sf, Sh, Sm, Sl, Rf, Rh, Rm, Rl.
  repeat match goal with
         | F : PvFrames ?x = PvFrames _ /\ _ |- _ =>
             destruct F as (-> & -> & -> & ->)
         end.
  split; [reflexivity|]. split; [reflexivity|]. split; [reflexivity|].
  intros e He. do 2 right. apply in_or_app. right. right.
  apply in_or_app. right. apply in_or_app. right. exact He.
Qed.

Lemma free_frames_length k d : length (PvFrames (free_frames k d)) = length (PvFrames d).
Proof.
  induction k as [|k IH]; [reflexivity|].
  rewrite free_frames_S. unfold free_frame at 1.
  destruct (PvFrames (free_frames k d) !! k) as [f|]; [|exact IH].
  destruct (Context1 f); cbn; rewrite length_insert; exact IH.
Qed.

Lemma disconnectCamera_fields w d :
  length (PvFrames (snd (disconnectCamera w d))) = length (PvFrames d) /\
  maxPvAPIFrames_ (snd (disconnectCamera w d)) = maxPvAPIFrames_ d /\
  poolSerial (snd (disconnectCamera w d)) = poolSerial d /\
  PvApiInitialized (snd (disconnectCamera w d)) = PvApiInitialized d.
Proof.
  unfold disconnectCamera. destruct (negb (PvApiInitialized d)); [repeat split|].
  destruct (PvHandle d) as [h|]; [|repeat split].
  cbn [acc fst snd].
  set (d0 := asynPrint_if _ _ "%s:%s: unable to close camera %lu\n" _).
  unfold frame_indices. fold (free_frames (Z.to_nat (maxPvAPIFrames_ d0)) d0).
  destruct (free_frames_spec (Z.to_nat (maxPvAPIFrames_ d0)) d0) as (F1 & _).
  pose proof (free_frames_length (Z.to_nat (maxPvAPIFrames_ d0)) d0) as Hl.
  set (df := free_frames _ d0) in *.
  cbn. rewrite Hl. split; [reflexivity|]. rewrite F1. repeat split.
Qed.

(** [connectCamera] succeeds only through [connect_opened]. *)
Lemma connectCamera_success w d d' :
  connectCamera w d = (asynSuccess, d') ->
  PvApiInitialized d = true /\
  exists d2,
    connect_opened w d2 = (asynSuccess, d') /\
    PvHandle d2 = snd (r_PvCameraOpen w) /\
    length (PvFrames d2) = length (PvFrames d) /\
    maxPvAPIFrames_ d2 = maxPvAPIFrames_ d /\
    poolSerial d2 = poolSerial d.
Proof.
  unfold connectCamera.
  destruct (PvApiInitialized d) eqn:Hinit; cbn [negb]; [|discriminate].
  destruct (disconnectCamera_fields w d) as (Dl & Dm & Dp & _).
  set (d1 := snd (disconnectCamera w d)) in *. clearbody d1.
  intros H. split; [reflexivity|].
  assert (Hgo : forall (isUniqueId : bool) (ipAddr : Z) d2,
            length (PvFrames d2) = length (PvFrames d) ->
            maxPvAPIFrames_ d2 = maxPvAPIFrames_ d ->
            poolSerial d2 = poolSerial d ->
            match retry_loop w (Z.to_nat CONNECT_RETRY_COUNT) 0 d2 with
            | (LoopReturn status, d) => (status, d)
            | (LoopFuel, d) => (asynError, d)
            | (LoopDone, d) =>
                if no_master_access d then
                  (asynError,
                   asynPrint ASYN_TRACE_ERROR
                     "%s:%s: Cannot get control of camera %lu, access flags=%lx\n" d)
                else
                  let r := r_PvCameraOpen w in
                  let d := emit (if isUniqueId then EvPvCameraOpen (uniqueId d)
                                 else EvPvCameraOpenByAddr ipAddr) d in
                  let d := with_PvHandle (snd r) d in
                  if negb (fst r =? 0) then
                    (asynError,
                     with_PvHandle None
                       (asynPrint ASYN_TRACE_ERROR "%s:%s: unable to open camera %lu\n" d))
                  else connect_opened w d
            end = (asynSuccess, d') ->
            exists d2',
              connect_opened w d2' = (asynSuccess, d') /\
              PvHandle d2' = snd (r_PvCameraOpen w) /\
              length (PvFrames d2') = length (PvFrames d) /\
              maxPvAPIFrames_ d2' = maxPvAPIFrames_ d /\
              poolSerial d2' = poolSerial d).
  { intros isU ip d2 Hl Hm Hp.
    pose proof (retry_loop_driver w (Z.to_nat CONNECT_RETRY_COUNT) 0 d2) as Hd.
    pose proof (retry_loop_return w (Z.to_nat CONNECT_RETRY_COUNT) 0 d2) as Hret.
    destruct (retry_loop w (Z.to_nat CONNECT_RETRY_COUNT) 0 d2) as [ex d3].
    cbn [fst snd] in Hd, Hret. destruct ex as [|status|].
    - destruct (no_master_access d3); [discriminate|].
      cbv zeta. destruct (negb (fst (r_PvCameraOpen w) =? 0)); [discriminate|].
      intros E. eexists. split; [exact E|].
      cbn. rewrite Hd. cbn. auto.
    - rewrite (Hret status eq_refl). discriminate.
    - discriminate. }
  revert H.
  destruct (forallb isdigit (list_ascii_of_string (cameraId d1))).
  - cbn [uniqueId with_uniqueId].
    match goal with |- context [if negb (?c =? 0) then _ else _] => destruct (negb (c =? 0)) end.
    + discriminate.
    + cbn [negb]. cbv beta iota. intros H.
      refine (Hgo true 0 _ _ _ _ H); assumption.
  - match goal with |- context [if negb (?c =? 0) then _ else _] => destruct (negb (c =? 0)) end.
    + discriminate.
    + match goal with |- context [if negb (?c =? 0) then _ else _] =>
        destruct (negb (c =? 0)) end.
      * discriminate.
      * cbn [negb]. cbv beta iota. intros H.
        refine (Hgo false _ _ _ _ _ H); assumption.
Qed.

(** X8: when [connectCamera] succeeds on a driver with [maxPvAPIFrames_]
    descriptors, the API was initialised, the driver holds the handle
    the camera gave, and every descriptor is bound to an image of its
    own, allocated in slot order, of [maxFrameSize] bytes, with
    [ImageBuffer], [ImageBufferSize] and [Context[1]] set, and has been
    queued to the camera with that buffer. *)
Theorem connect_arms_every_descriptor w d :
  fst (connectCamera w d) = asynSuccess ->
  length (PvFrames d) = Z.to_nat (maxPvAPIFrames_ d) ->
  let d' := snd (connectCamera w d) in
  PvApiInitialized d = true /\
  PvHandle d' = snd (r_PvCameraOpen w) /\
  length (PvFrames d') = length (PvFrames d) /\
  forall i, (i < length (PvFrames d))%nat ->
    exists pFrame,
      PvFrames d' !! i = Some pFrame /\
      armed i (poolSerial d + i) (maxFrameSize d') (log d') pFrame.
Proof.
  intros Hs Hlen. cbv zeta.
  destruct (connectCamera w d) as [s d'] eqn:E. cbn [fst snd] in *. subst s.
  apply connectCamera_success in E as (Hinit & d2 & E & Hh & Hl2 & Hm2 & Hp2).
  apply connect_opened_success in E
    as (d3 & d4 & Hf3 & Hm3 & Hh3 & Hp3 & _ & Ea & Hf' & Hmf' & Hh' & Hlog').
  assert (Hk : frame_indices d3 = seq 0 (length (PvFrames d3))).
  { unfold frame_indices. rewrite Hm3, Hm2, <- Hlen, Hf3, Hl2. reflexivity. }
  rewrite Hk in Ea.
  apply arm_frames_inv in Ea as (Hd4 & Hl4 & _ & _ & Harm); [|lia].
  split; [exact Hinit|]. split.
  { rewrite Hh', Hd4. cbn. rewrite Hh3. exact Hh. }
  split; [rewrite Hf', Hl4, Hf3; exact Hl2|].
  intros i Hi.
  destruct (Harm i) as (f & Hf & Ha); [rewrite Hf3, Hl2; lia|].
  exists f. split; [rewrite Hf'; exact Hf|].
  rewrite Hmf', Hd4. cbn [maxFrameSize with_log with_poolSerial with_PvFrames].
  rewrite Hp3, Hp2, Nat.sub_0_r in Ha.
  eapply armed_later; [exact Hlog'|exact Ha].
Qed.

Lemma connect_arms_every_descriptor_witness :
  PvApiInitialized unplugged = true /\
  PvHandle (snd (connectCamera nominal unplugged)) = snd (r_PvCameraOpen nominal) /\
  length (PvFrames (snd (connectCamera nominal unplugged))) = length (PvFrames unplugged) /\
  forall i, (i < length (PvFrames unplugged))%nat ->
    exists pFrame,
      PvFrames (snd (connectCamera nominal unplugged)) !! i = Some pFrame /\
      armed i (poolSerial unplugged + i)
        (maxFrameSize (snd (connectCamera nominal unplugged)))
        (log (snd (connectCamera nominal unplugged))) pFrame.
Proof.
  apply (connect_arms_every_descriptor nominal unplugged).
  - vm_compute. reflexivity.
  - reflexivity.
Defined.

(** ** Region of interest *)

Lemma or_status_idle : or_status asynSuccess asynSuccess = asynSuccess.
Proof. reflexivity. Qed.

Lemma or_status_first s : or_status asynSuccess s = s.
Proof. reflexivity. Qed.

(** The status after the two binning sets is 0 exactly when both were
    accepted or the camera has no binning. *)
Lemma binning_status s1 s2 :
  ((if s2 =? ePvErrNotFound
    then (if s1 =? ePvErrNotFound then asynSuccess else s1)
    else or_status (if s1 =? ePvErrNotFound then asynSuccess else s1) s2) =? 0)
  = accepted_or_missing s1 && accepted_or_missing s2.
Proof.
  unfold accepted_or_missing.
  destruct (s1 =? ePvErrNotFound) eqn:N1; destruct (s2 =? ePvErrNotFound) eqn:N2;
    rewrite ?orb_true_r, ?orb_false_r; cbn [andb].
  - reflexivity.
  - rewrite or_status_first. reflexivity.
  - rewrite andb_true_r. reflexivity.
  - destruct (s1 =? 0) eqn:Z1.
    + apply Z.eqb_eq in Z1. subst s1. rewrite or_status_first. reflexivity.
    + cbn [andb]. apply Z.eqb_neq. intros E. apply or_status_0 in E as [E _].
      apply Z.eqb_neq in Z1. contradiction.
Qed.

(** The calls of [setGeometry], most recent first, and its status when
    a binning attribute is refused. *)
Lemma setGeometry_log w d binX binY minX minY sizeX sizeY maxSizeX maxSizeY :
  intParams d !! ADBinX = Some binX -> intParams d !! ADBinY = Some binY ->
  intParams d !! ADMinX = Some minX -> intParams d !! ADMinY = Some minY ->
  intParams d !! ADSizeX = Some sizeX -> intParams d !! ADSizeY = Some sizeY ->
  intParams d !! ADMaxSizeX = Some maxSizeX -> intParams d !! ADMaxSizeY = Some maxSizeY ->
  let bx := Z.max 1 binX in
  let by_ := Z.max 1 binY in
  let sx := clamped_size minX sizeX maxSizeX in
  let sy := clamped_size minY sizeY maxSizeY in
  let binning := [EvPvAttrUint32Set "BinningY" (uint32 by_);
                  EvPvAttrUint32Set "BinningX" (uint32 bx)] in
  let region := [EvPvAttrUint32Set "Height" (uint32 (Z.quot sy by_));
                 EvPvAttrUint32Set "Width" (uint32 (Z.quot sx bx));
                 EvPvAttrUint32Set "RegionY" (uint32 (Z.quot minY by_));
                 EvPvAttrUint32Set "RegionX" (uint32 (Z.quot minX bx))] in
  let accepted :=
    accepted_or_missing (r_PvAttrUint32Set w "BinningX" (uint32 bx))
    && accepted_or_missing (r_PvAttrUint32Set w "BinningY" (uint32 by_)) in
  log (snd (setGeometry w d))
  = (if negb (fst (setGeometry w d) =? 0)
     then [EvAsynPrint ASYN_TRACE_ERROR "%s:%s: error, status=%d\n"] else [])
    ++ (if accepted then region else []) ++ binning ++ log d /\
  (accepted = false -> fst (setGeometry w d) <> asynSuccess).
Proof.
  intros Hbx Hby Hmx Hmy Hsx Hsy HMx HMy. cbv zeta.
  unfold setGeometry, getIntegerParam, clamped_size.
  rewrite Hbx, Hby, Hmx, Hmy, Hsx, Hsy, HMx, HMy. cbn [acc fst snd].
  replace (if binX <? 1 then 1 else binX) with (Z.max 1 binX)
    by (destruct (Z.ltb_spec binX 1); lia).
  replace (if binY <? 1 then 1 else binY) with (Z.max 1 binY)
    by (destruct (Z.ltb_spec binY 1); lia).
  set (bx := Z.max 1 binX). set (by_ := Z.max 1 binY).
  set (s1 := r_PvAttrUint32Set w "BinningX" (uint32 bx)).
  set (s2 := r_PvAttrUint32Set w "BinningY" (uint32 by_)).
  pose proof (binning_status s1 s2) as Hst.
  destruct (int32 (minX + sizeX) >? maxSizeX); destruct (int32 (minY + sizeY) >? maxSizeY);
    cbn [setIntegerParam fst snd acc_unless_NotFound PvAttrUint32Set acc];
    fold s1 s2; rewrite !or_status_idle, !or_status_first, Hst;
    (destruct (accepted_or_missing s1 && accepted_or_missing s2);
     [apply Z.eqb_eq in Hst; rewrite Hst;
      cbn [acc fst snd PvAttrUint32Set];
      split; [reflexivity|discriminate]
     |cbn [fst snd]; rewrite Hst; cbn [negb];
      split; [reflexivity|intros _; apply Z.eqb_neq; exact Hst]]).
Qed.

(** X9: [setGeometry] sends the binning first, with values below 1 raised to
    1, then, only when both binning attributes were accepted or are
    missing on the camera, the region in the order [RegionX], [RegionY],
    [Width], [Height], each divided by the binning and the sizes clamped
    to the sensor; an error is traced last when the status is not
    success.  When a binning attribute is refused the region is not sent
    and the status is not success. *)
Theorem setGeometry_sends w d binX binY minX minY sizeX sizeY maxSizeX maxSizeY :
  intParams d !! ADBinX = Some binX -> intParams d !! ADBinY = Some binY ->
  intParams d !! ADMinX = Some minX -> intParams d !! ADMinY = Some minY ->
  intParams d !! ADSizeX = Some sizeX -> intParams d !! ADSizeY = Some sizeY ->
  intParams d !! ADMaxSizeX = Some maxSizeX -> intParams d !! ADMaxSizeY = Some maxSizeY ->
  let bx := Z.max 1 binX in
  let by_ := Z.max 1 binY in
  let sx := clamped_size minX sizeX maxSizeX in
  let sy := clamped_size minY sizeY maxSizeY in
  let binning := [EvPvAttrUint32Set "BinningY" (uint32 by_);
                  EvPvAttrUint32Set "BinningX" (uint32 bx)] in
  let region := [EvPvAttrUint32Set "Height" (uint32 (Z.quot sy by_));
                 EvPvAttrUint32Set "Width" (uint32 (Z.quot sx bx));
                 EvPvAttrUint32Set "RegionY" (uint32 (Z.quot minY by_));
                 EvPvAttrUint32Set "RegionX" (uint32 (Z.quot minX bx))] in
  let accepted :=
    accepted_or_missing (r_PvAttrUint32Set w "BinningX" (uint32 bx))
    && accepted_or_missing (r_PvAttrUint32Set w "BinningY" (uint32 by_)) in
  log (snd (setGeometry w d))
  = (if negb (fst (setGeometry w d) =? 0)
     then [EvAsynPrint ASYN_TRACE_ERROR "%s:%s: error, status=%d\n"] else [])
    ++ (if accepted then region else []) ++ binning ++ log d /\
  (accepted = false -> fst (setGeometry w d) <> asynSuccess).
Proof.
  exact (setGeometry_log w d binX binY minX minY sizeX sizeY maxSizeX maxSizeY).
Qed.

Lemma setGeometry_sends_witness :
  log (snd (setGeometry nominal offset_driver))
  = (if negb (fst (setGeometry nominal offset_driver) =? 0)
     then [EvAsynPrint ASYN_TRACE_ERROR "%s:%s: error, status=%d\n"] else [])
    ++ (if accepted_or_missing (r_PvAttrUint32Set nominal "BinningX" (uint32 (Z.max 1 1)))
           && accepted_or_missing (r_PvAttrUint32Set nominal "BinningY" (uint32 (Z.max 1 1)))
        then [EvPvAttrUint32Set "Height"
                (uint32 (Z.quot (clamped_size 0 1024 1024) (Z.max 1 1)));
              EvPvAttrUint32Set "Width"
                (uint32 (Z.quot (clamped_size 100 1360 1360) (Z.max 1 1)));
              EvPvAttrUint32Set "RegionY" (uint32 (Z.quot 0 (Z.max 1 1)));
              EvPvAttrUint32Set "RegionX" (uint32 (Z.quot 100 (Z.max 1 1)))]
        else [])
    ++ [EvPvAttrUint32Set "BinningY" (uint32 (Z.max 1 1));
        EvPvAttrUint32Set "BinningX" (uint32 (Z.max 1 1))]
    ++ log offset_driver /\
  (accepted_or_missing (r_PvAttrUint32Set nominal "BinningX" (uint32 (Z.max 1 1)))
   && accepted_or_missing (r_PvAttrUint32Set nominal "BinningY" (uint32 (Z.max 1 1)))
   = false ->
   fst (setGeometry nominal offset_driver) <> asynSuccess).
Proof.
  apply (setGeometry_sends nominal offset_driver 1 1 100 0 1360 1024 1360 1024);
    reflexivity.
Defined.


Lemma getGeometry_params w d :
  let rx := r_PvAttrUint32Get w "BinningX" in
  let ry := r_PvAttrUint32Get w "BinningY" in
  let bx := if fst rx =? 0 then default (indet w "binX") (snd rx) else 1 in
  let by_ := if fst ry =? 0 then default (indet w "binY") (snd ry) else 1 in
  let minX := default (indet w "minX") (snd (r_PvAttrUint32Get w "RegionX")) in
  let minY := default (indet w "minY") (snd (r_PvAttrUint32Get w "RegionY")) in
  let sizeX := default (indet w "sizeX") (snd (r_PvAttrUint32Get w "Width")) in
  let sizeY := default (indet w "sizeY") (snd (r_PvAttrUint32Get w "Height")) in
  let p := intParams (snd (getGeometry w d)) in
  p !! ADBinX = Some (int32 bx) /\ p !! ADBinY = Some (int32 by_) /\
  p !! ADMinX = Some (int32 (uint32 (minX * bx))) /\
  p !! ADMinY = Some (int32 (uint32 (minY * by_))) /\
  p !! ADSizeX = Some (int32 (uint32 (sizeX * bx))) /\
  p !! ADSizeY = Some (int32 (uint32 (sizeY * by_))) /\
  p !! NDArraySizeX = Some (int32 sizeX) /\ p !! NDArraySizeY = Some (int32 sizeY).
Proof.
  cbv zeta. cbn -[int32 uint32 Z.mul default].
  repeat split; rewrite ?lookup_insert_ne by discriminate; apply lookup_insert_eq.
Qed.

Lemma round_trip_value v b :
  0 <= v <= INT_MAX -> 1 <= b <= INT_MAX ->
  int32 (uint32 (uint32 (Z.quot v b) * uint32 b)) = b * (v / b).
Proof.
  unfold INT_MAX. intros Hv Hb.
  rewrite Z.quot_div_nonneg by lia.
  assert (0 <= v / b <= v).
  { split; [apply Z.div_pos; lia|]. apply Z.div_le_upper_bound; nia. }
  assert (0 <= b * (v / b) <= v).
  { split; [nia|]. apply Z.mul_div_le. lia. }
  unfold uint32. rewrite (Z.mod_small (v / b)), (Z.mod_small b) by lia.
  rewrite (Z.mul_comm (v / b)). rewrite Z.mod_small by lia.
  apply int32_small. lia.
Qed.

(** X10: when the camera holds the binning and the region [setGeometry]
    sends for a request within the [int] range, [getGeometry] succeeds
    and leaves the binning as asked for, offsets and sizes rounded down
    to multiples of the binning, and the image sizes as the sizes divided
    by the binning. *)
Theorem geometry_round_trip w d binX binY minX minY sizeX sizeY :
  1 <= binX <= INT_MAX -> 1 <= binY <= INT_MAX ->
  0 <= minX <= INT_MAX -> 0 <= minY <= INT_MAX ->
  0 <= sizeX <= INT_MAX -> 0 <= sizeY <= INT_MAX ->
  r_PvAttrUint32Get w "BinningX" = (0, Some (uint32 binX)) ->
  r_PvAttrUint32Get w "BinningY" = (0, Some (uint32 binY)) ->
  r_PvAttrUint32Get w "RegionX" = (0, Some (uint32 (Z.quot minX binX))) ->
  r_PvAttrUint32Get w "RegionY" = (0, Some (uint32 (Z.quot minY binY))) ->
  r_PvAttrUint32Get w "Width" = (0, Some (uint32 (Z.quot sizeX binX))) ->
  r_PvAttrUint32Get w "Height" = (0, Some (uint32 (Z.quot sizeY binY))) ->
  let p := intParams (snd (getGeometry w d)) in
  fst (getGeometry w d) = asynSuccess /\
  p !! ADBinX = Some binX /\ p !! ADBinY = Some binY /\
  p !! ADMinX = Some (binX * (minX / binX)) /\
  p !! ADMinY = Some (binY * (minY / binY)) /\
  p !! ADSizeX = Some (binX * (sizeX / binX)) /\
  p !! ADSizeY = Some (binY * (sizeY / binY)) /\
  p !! NDArraySizeX = Some (sizeX / binX) /\
  p !! NDArraySizeY = Some (sizeY / binY).
Proof.
  intros Hbx Hby Hmx Hmy Hsx Hsy Rbx Rby Rmx Rmy Rsx Rsy. cbv zeta.
  destruct (getGeometry_params w d) as (P1 & P2 & P3 & P4 & P5 & P6 & P7 & P8).
  rewrite Rbx in P1, P3, P5. rewrite Rby in P2, P4, P6.
  rewrite Rmx in P3. rewrite Rmy in P4. rewrite Rsx in P5, P7. rewrite Rsy in P6, P8.
  cbn -[int32 uint32 Z.mul Z.quot Z.div getGeometry] in P1, P2, P3, P4, P5, P6, P7, P8.
  assert (Hu : forall b, 1 <= b <= INT_MAX -> int32 (uint32 b) = b).
  { unfold INT_MAX. intros b Hb. unfold uint32. rewrite Z.mod_small by lia.
    apply int32_small. lia. }
  assert (Hq : forall v b, 0 <= v <= INT_MAX -> 1 <= b <= INT_MAX ->
                           int32 (uint32 (Z.quot v b)) = v / b).
  { unfold INT_MAX. intros v b Hv Hb. rewrite Z.quot_div_nonneg by lia.
    assert (0 <= v / b <= v).
    { split; [apply Z.div_pos; lia|]. apply Z.div_le_upper_bound; nia. }
    unfold uint32. rewrite Z.mod_small by lia. apply int32_small. lia. }
  rewrite Hu in P1, P2 by assumption.
  rewrite round_trip_value in P3, P4, P5, P6 by assumption.
  rewrite Hq in P7, P8 by assumption.
  split; [|repeat split; assumption].
  unfold getGeometry. cbn [PvAttrUint32Get acc acc_unless_NotFound setIntegerParam fst snd].
  rewrite Rbx, Rby, Rmx, Rmy, Rsx, Rsy. reflexivity.
Qed.

Lemma geometry_round_trip_witness :
  let p := intParams (snd (getGeometry nominal connected)) in
  fst (getGeometry nominal connected) = asynSuccess /\
  p !! ADBinX = Some 1 /\ p !! ADBinY = Some 1 /\
  p !! ADMinX = Some (1 * (0 / 1)) /\
  p !! ADMinY = Some (1 * (0 / 1)) /\
  p !! ADSizeX = Some (1 * (1360 / 1)) /\
  p !! ADSizeY = Some (1 * (1024 / 1)) /\
  p !! NDArraySizeX = Some (1360 / 1) /\
  p !! NDArraySizeY = Some (1024 / 1).
Proof.
  apply (geometry_round_trip nominal connected 1 1 0 0 1360 1024);
    try reflexivity; unfold INT_MAX; lia.
Defined.

(** ** Pixel format *)

Lemma readParameters_pixel_format w d :
  let buffer := default (indet_buffer w "buffer") (snd (r_PvAttrEnumGet w "PixelFormat")) in
  let known :=
    if String.eqb buffer "Mono8" then Some (NDUInt8, NDColorModeMono)
    else if String.eqb buffer "Mono16" then Some (NDUInt16, NDColorModeMono)
    else if String.eqb buffer "Rgb24" then Some (NDUInt8, NDColorModeRGB1)
    else if String.eqb buffer "Rgb48" then Some (NDUInt16, NDColorModeRGB1)
    else if String.eqb buffer "Bayer8" then Some (NDUInt8, NDColorModeBayer)
    else if String.eqb buffer "Bayer16" then Some (NDUInt16, NDColorModeBayer)
    else None in
  intParams (snd (readParameters w d)) !! NDDataType
  = Some (fst (default (NDUInt8, NDColorModeMono) known)) /\
  intParams (snd (readParameters w d)) !! NDColorMode
  = Some (snd (default (NDUInt8, NDColorModeMono) known)).
Proof.
  cbv zeta. cbn -[String.eqb default].
  split.
  - rewrite !lookup_insert_ne by discriminate. apply lookup_insert_eq.
  - rewrite !lookup_insert_ne by discriminate. apply lookup_insert_eq.
Qed.

(** X11: for the six pairs of data type and colour mode that [setPixelFormat]
    supports it sends one [PixelFormat] name and returns the camera's
    status, and a camera that reports this name is read back by
    [readParameters] as the same data type and colour mode; for any other
    pair nothing is sent, an error is traced and [asynError] is
    returned. *)
Theorem pixel_format_round_trip w d dataType colorMode :
  intParams d !! NDColorMode = Some colorMode ->
  intParams d !! NDDataType = Some dataType ->
  match pixel_format_name dataType colorMode with
  | Some name =>
      setPixelFormat w d
      = (r_PvAttrEnumSet w "PixelFormat" name, emit (EvPvAttrEnumSet "PixelFormat" name) d) /\
      forall w' d2,
        snd (r_PvAttrEnumGet w' "PixelFormat") = Some name ->
        intParams (snd (readParameters w' d2)) !! NDDataType = Some dataType /\
        intParams (snd (readParameters w' d2)) !! NDColorMode = Some colorMode
  | None =>
      setPixelFormat w d
      = (asynError,
         asynPrint ASYN_TRACE_ERROR
           "%s:%s: error unsupported data type %d and/or color mode %d\n" d)
  end.
Proof.
  intros Hc Ht.
  assert (Hs : setPixelFormat w d
               = match pixel_format_name dataType colorMode with
                 | None =>
                     (asynError,
                      asynPrint ASYN_TRACE_ERROR
                        "%s:%s: error unsupported data type %d and/or color mode %d\n" d)
                 | Some name => PvAttrEnumSet w "PixelFormat" name d
                 end).
  { unfold setPixelFormat, getIntegerParam, pixel_format_name. rewrite Hc, Ht.
    cbn [acc fst snd]. repeat case_match; reflexivity. }
  destruct (pixel_format_name dataType colorMode) as [name|] eqn:N; [|exact Hs].
  split; [exact Hs|].
  intros w' d2 Hn.
  destruct (readParameters_pixel_format w' d2) as [H1 H2]. rewrite H1, H2, Hn.
  unfold pixel_format_name in N.
  destruct (dataType =? NDUInt8) eqn:D8; destruct (dataType =? NDUInt16) eqn:D16;
    destruct (colorMode =? NDColorModeMono) eqn:C0;
    destruct (colorMode =? NDColorModeRGB1) eqn:C1;
    destruct (colorMode =? NDColorModeBayer) eqn:C2;
    cbn in N; try discriminate N; injection N as <-;
    repeat match goal with
           | A : (_ =? _) = true |- _ => apply Z.eqb_eq in A
           end;
    subst; split; reflexivity.
Qed.

Lemma pixel_format_round_trip_witness :
  match pixel_format_name NDUInt16 NDColorModeBayer with
  | Some name =>
      setPixelFormat nominal
        (snd (setIntegerParam NDDataType NDUInt16
           (snd (setIntegerParam NDColorMode NDColorModeBayer connected))))
      = (r_PvAttrEnumSet nominal "PixelFormat" name,
         emit (EvPvAttrEnumSet "PixelFormat" name)
           (snd (setIntegerParam NDDataType NDUInt16
              (snd (setIntegerParam NDColorMode NDColorModeBayer connected))))) /\
      forall w' d2,
        snd (r_PvAttrEnumGet w' "PixelFormat") = Some name ->
        intParams (snd (readParameters w' d2)) !! NDDataType = Some NDUInt16 /\
        intParams (snd (readParameters w' d2)) !! NDColorMode = Some NDColorModeBayer
  | None =>
      setPixelFormat nominal
        (snd (setIntegerParam NDDataType NDUInt16
           (snd (setIntegerParam NDColorMode NDColorModeBayer connected))))
      = (asynError,
         asynPrint ASYN_TRACE_ERROR
           "%s:%s: error unsupported data type %d and/or color mode %d\n"
           (snd (setIntegerParam NDDataType NDUInt16
              (snd (setIntegerParam NDColorMode NDColorModeBayer connected)))))
  end.
Proof.
  apply (pixel_format_round_trip nominal
           (snd (setIntegerParam NDDataType NDUInt16
              (snd (setIntegerParam NDColorMode NDColorModeBayer connected))))
           NDUInt16 NDColorModeBayer); reflexivity.
Defined.

(** ** Writes of integer parameters *)

Lemma index_of_lookup modes i mode :
  NoDup modes -> modes !! i = Some mode -> index_of mode modes = Some i.
Proof.
  intros Hnd. revert i. induction Hnd as [|m modes Hm Hnd IH]; intros i Hi; [discriminate|].
  destruct i as [|i]; cbn in Hi.
  - injection Hi as ->. cbn. rewrite String.eqb_refl. reflexivity.
  - cbn. destruct (String.eqb mode m) eqn:E.
    + apply String.eqb_eq in E. subst m. exfalso. apply Hm.
      eapply list_elem_of_lookup_2. exact Hi.
    + rewrite (IH i Hi). reflexivity.
Qed.

Lemma mode_tables_NoDup modes : In modes mode_tables -> NoDup modes.
Proof.
  intros H. cbn in H.
  repeat (destruct H as [<-|H]; [apply (bool_decide_unpack _); vm_compute; exact I|]).
  contradiction.
Qed.

Lemma bit_set_testbit uval k :
  0 <= k -> bit_set uval (Z.shiftl 1 k) = if Z.testbit uval k then 1 else 0.
Proof.
  intros Hk. unfold bit_set.
  destruct (Z.testbit uval k) eqn:T.
  - destruct (Z.land uval (Z.shiftl 1 k) =? 0) eqn:E; [|reflexivity].
    apply Z.eqb_eq in E. apply (f_equal (fun z => Z.testbit z k)) in E.
    rewrite Z.land_spec, T, Z.shiftl_spec, Z.sub_diag, Z.bits_0 in E by lia.
    cbn in E. discriminate.
  - destruct (Z.land uval (Z.shiftl 1 k) =? 0) eqn:E; [reflexivity|].
    apply Z.eqb_neq in E. exfalso. apply E. apply Z.bits_inj'. intros n Hn.
    rewrite Z.land_spec, Z.bits_0, Z.shiftl_spec by lia.
    destruct (Z.eq_dec n k) as [->|Hne]; [rewrite T; reflexivity|].
    replace (Z.testbit 1 (n - k)) with false; [apply andb_false_r|].
    destruct (Z.ltb_spec n k).
    + rewrite Z.testbit_neg_r by lia. reflexivity.
    + symmetry. apply (Z.bits_above_log2 1 (n - k)); cbn; lia.
Qed.

Lemma new_sync_levels_testbit syncs k value j :
  0 <= k < 32 -> 0 <= j < 32 ->
  Z.testbit (new_sync_levels syncs k value) j
  = if Z.eq_dec j k then Z.testbit value 0 else Z.testbit syncs j.
Proof.
  intros Hk Hj. unfold new_sync_levels, uint32.
  change 4294967296 with (2 ^ 32). rewrite Z.mod_pow2_bits_low by lia.
  rewrite Z.lor_spec, !Z.land_spec, Z.lnot_spec, !Z.shiftl_spec by lia.
  destruct (Z.eq_dec j k) as [->|Hne].
  - rewrite Z.sub_diag. cbn. rewrite andb_false_r, andb_true_r. reflexivity.
  - replace (Z.testbit 1 (j - k)) with false.
    + cbn. rewrite andb_true_r, andb_false_r, orb_false_r. reflexivity.
    + destruct (Z.ltb_spec j k).
      * rewrite Z.testbit_neg_r by lia. reflexivity.
      * symmetry. apply (Z.bits_above_log2 1 (j - k)); cbn; lia.
Qed.

Lemma set_sync_level_sends w k value status d :
  log (snd (set_sync_level w k value status d))
  = EvPvAttrUint32Set "SyncOutGpoLevels"
      (new_sync_levels (default (indet w "syncs") (snd (r_PvAttrUint32Get w "SyncOutGpoLevels")))
         k value)
      :: EvPvAttrGet "SyncOutGpoLevels" :: log d.
Proof. reflexivity. Qed.

Lemma count_cons_false P e l : P e = false -> count P (e :: l) = count P l.
Proof. intros H. cbn. rewrite H. reflexivity. Qed.

Lemma count_if_false P (c : bool) e l :
  P e = false -> count P ((if c then [e] else []) ++ l) = count P l.
Proof. intros H. destruct c; cbn; rewrite ?H; reflexivity. Qed.

(** Events of a log that do not satisfy [P] do not count. *)
Ltac skip_events :=
  repeat first [rewrite count_cons_false by reflexivity
               | rewrite count_if_false by reflexivity].

Lemma readParameters_writes w d :
  count is_write (log (snd (readParameters w d))) = count is_write (log d).
Proof. cbn. skip_events. reflexivity. Qed.

Lemma readParameters_nonzero w d status :
  status <> 0 -> or_status status (fst (readParameters w d)) <> 0.
Proof. intros H E. apply or_status_0 in E as [? _]. contradiction. Qed.

(** X14: [writeInt32] on [ADTriggerMode] always returns.  A value below 0 or
    above the last trigger start mode gives a status that is not success
    and writes nothing to the camera; a value within the table sends the
    table's string to [FrameStartTriggerMode], once, and that is the only
    write of the call. *)
Theorem trigger_mode_is_range_checked w value d :
  exists status d',
    writeInt32 w ADTriggerMode value d = Ret (status, d') /\
    if (value <? 0) || (value >? NUM_TRIGGER_START_MODES - 1) then
      status <> asynSuccess /\ count is_write (log d') = count is_write (log d)
    else
      exists mode,
        table_at PSTriggerStartModes value = Some mode /\
        count (sets_enum "FrameStartTriggerMode" mode) (log d')
        = S (count (sets_enum "FrameStartTriggerMode" mode) (log d)) /\
        count is_write (log d') = S (count is_write (log d)).
Proof.
  unfold writeInt32. cbn [acc setIntegerParam fst snd dispatch].
  set (d0 := with_intParams _ d).
  destruct ((value <? 0) || (value >? NUM_TRIGGER_START_MODES - 1)) eqn:R.
  - cbn [acc fst snd].
    eexists _, _. split; [reflexivity|]. split.
    + apply readParameters_nonzero. discriminate.
    + destruct (negb _); cbn [log asynPrint emit with_log];
        rewrite count_cons_false by reflexivity; rewrite readParameters_writes;
        reflexivity.
  - apply orb_false_elim in R as [R1 R2].
    apply Z.ltb_ge in R1. rewrite Z.gtb_ltb in R2. apply Z.ltb_ge in R2.
    change (NUM_TRIGGER_START_MODES - 1) with 6 in R2.
    unfold set_from_table, table_at. rewrite (proj2 (Z.ltb_ge value 0) R1).
    destruct (PSTriggerStartModes !! Z.to_nat value) as [mode|] eqn:L.
    2: { apply lookup_ge_None in L. cbn in L. lia. }
    cbn [acc fst snd PvAttrEnumSet].
    eexists _, _. split; [reflexivity|]. exists mode. split; [reflexivity|].
    split.
    + destruct (negb _); cbn [log asynPrint emit with_log];
        rewrite count_cons_false by reflexivity; cbn; skip_events;
        cbn; rewrite String.eqb_refl; reflexivity.
    + destruct (negb _); cbn [log asynPrint emit with_log];
        rewrite count_cons_false by reflexivity; rewrite readParameters_writes;
        reflexivity.
Qed.

(** X15: for the eight other parameters that [writeInt32] looks up in a mode
    table (trigger event and overlap, the three sync output modes, the
    strobe mode, the exposure and gain modes) the value is used as an
    index without a comparison with the table's length: a negative value,
    or one at or beyond the length, reads outside the table. *)
Theorem unchecked_table_index w p modes value d :
  In (p, modes) unchecked_tables ->
  value < 0 \/ Z.of_nat (length modes) <= value ->
  writeInt32 w p value d = Fault IndexOutOfBounds.
Proof.
  intros Hin Hv.
  assert (Ht : table_at modes value = None).
  { unfold table_at. destruct (value <? 0) eqn:N; [reflexivity|].
    apply Z.ltb_ge in N. apply lookup_ge_None. lia. }
  cbn in Hin.
  repeat (destruct Hin as [Hin|Hin];
          [injection Hin as <- <-;
           unfold writeInt32; cbn [acc setIntegerParam fst snd dispatch];
           unfold set_from_table; rewrite Ht; reflexivity|]).
  contradiction.
Qed.

Lemma unchecked_table_index_witness :
  writeInt32 nominal PSGainMode 3 connected = Fault IndexOutOfBounds.
Proof.
  apply (unchecked_table_index nominal PSGainMode PSGainModes 3 connected).
  - cbn. tauto.
  - right. cbn. lia.
Defined.

Lemma readParameters_keeps_acquire w d :
  intParams (snd (readParameters w d)) !! ADStatus = intParams d !! ADStatus /\
  intParams (snd (readParameters w d)) !! ADAcquire = intParams d !! ADAcquire.
Proof.
  cbn -[String.eqb default int32 uint32].
  split; rewrite !lookup_insert_ne by discriminate; reflexivity.
Qed.

(** X16: writing 0 to [ADAcquire] always returns, closes the shutter and
    then runs [AcquisitionAbort], and these are the first calls and the
    only write to the camera; afterwards [ADAcquire] is 0, [ADStatus] is
    idle, and [framesRemaining] is left as it was. *)
Theorem acquisition_stop w d :
  exists status d' later,
    writeInt32 w ADAcquire 0 d = Ret (status, d') /\
    log d' = later ++ EvPvCommandRun "AcquisitionAbort" (framesRemaining d)
                   :: EvSetShutter 0 :: log d /\
    count is_write later = 0%nat /\
    framesRemaining d' = framesRemaining d /\
    intParams d' !! ADAcquire = Some 0 /\
    intParams d' !! ADStatus = Some ADStatusIdle.
Proof.
  unfold writeInt32. cbn [acc setIntegerParam fst snd dispatch acquire Z.eqb negb
    PvCommandRun setShutter emit].
  match goal with |- context [readParameters w ?x] => set (d1 := x) end.
  destruct (readParameters_log w d1) as [new Hnew].
  pose proof (readParameters_writes w d1) as Hw.
  pose proof (readParameters_framesRemaining w d1) as Hfr.
  destruct (readParameters_keeps_acquire w d1) as [Hst Hac].
  destruct (readParameters w d1) as [s2 d2]. cbn [fst snd] in *.
  assert (Hnw : count is_write new = 0%nat).
  { rewrite Hnew, count_app in Hw. subst d1. cbn in Hw. lia. }
  destruct (negb _);
    (eexists _, _, (_ :: new); split; [reflexivity|]);
    cbn [log asynPrint emit with_log framesRemaining intParams];
    rewrite Hnew, Hfr, Hst, Hac; subst d1; cbn;
    rewrite Hnw; repeat split;
    rewrite ?lookup_insert_ne by discriminate; apply lookup_insert_eq.
Qed.

(** ** Writes that are read back *)

(** What [writeInt32] adds after its branch: the read-back and a trace. *)
Lemma writeInt32_tail w function value d status1 d1 :
  dispatch w function value (or_status asynSuccess asynSuccess)
    (snd (setIntegerParam function value d)) = Ret (status1, d1) ->
  exists status d' later,
    writeInt32 w function value d = Ret (status, d') /\
    status = or_status status1 (fst (readParameters w d1)) /\
    intParams d' = intParams (snd (readParameters w d1)) /\
    log d' = later ++ log d1 /\
    count is_write later = 0%nat.
Proof.
  intros H. unfold writeInt32. cbn [acc setIntegerParam fst snd] in *. rewrite H.
  destruct (readParameters_log w d1) as [new Hnew].
  pose proof (readParameters_writes w d1) as Hw.
  destruct (readParameters w d1) as [s2 d2]. cbn [acc fst snd] in *.
  assert (Hnw : count is_write new = 0%nat).
  { rewrite Hnew, count_app in Hw. lia. }
  destruct (negb _);
    (eexists _, _, (_ :: new); split; [reflexivity|]; split; [reflexivity|];
     split; [reflexivity|]; split; [cbn; rewrite Hnew; reflexivity|exact Hnw]).
Qed.

(** X13: [writeInt32] on the level of sync output 1, 2 or 3 returns; it
    reads [SyncOutGpoLevels] and writes it back, as the only write of the
    call, with bit 0, 1 or 2 respectively replaced by the lowest bit of
    the value and every other bit of the 32 as it was read; for the
    values 0 and 1 that bit then reads as the value written. *)
Theorem sync_level_changes_one_bit w p k value d :
  sync_level_bit p = Some k ->
  let syncs := default (indet w "syncs") (snd (r_PvAttrUint32Get w "SyncOutGpoLevels")) in
  exists status d' syncs' later,
    writeInt32 w p value d = Ret (status, d') /\
    log d' = later ++ EvPvAttrUint32Set "SyncOutGpoLevels" syncs'
                   :: EvPvAttrGet "SyncOutGpoLevels" :: log d /\
    count is_write later = 0%nat /\
    (forall j, 0 <= j < 32 -> j <> k -> Z.testbit syncs' j = Z.testbit syncs j) /\
    Z.testbit syncs' k = Z.testbit value 0 /\
    (value = 0 \/ value = 1 -> bit_set syncs' (Z.shiftl 1 k) = value).
Proof.
  intros Hp syncs.
  assert (Hk : 0 <= k < 32) by (destruct p; try discriminate; injection Hp as <-; lia).
  assert (Hd : exists status1,
             dispatch w p value (or_status asynSuccess asynSuccess)
               (snd (setIntegerParam p value d))
             = Ret (status1,
                    snd (set_sync_level w k value (or_status asynSuccess asynSuccess)
                           (snd (setIntegerParam p value d))))).
  { destruct p; try discriminate; injection Hp as <-; cbn [dispatch];
      match goal with |- context [Ret ?r] => destruct r as [s1 d1] eqn:E end;
      cbn [snd]; eauto. }
  destruct Hd as [status1 Hd].
  destruct (writeInt32_tail w p value d _ _ Hd) as (status & d' & later & Hw & _ & _ & Hl & Hn).
  rewrite set_sync_level_sends in Hl.
  change (log (snd (setIntegerParam p value d))) with (log d) in Hl.
  exists status, d', (new_sync_levels syncs k value), later.
  split; [exact Hw|]. split; [exact Hl|]. split; [exact Hn|].
  split.
  { intros j Hj Hne. rewrite new_sync_levels_testbit by lia.
    destruct (Z.eq_dec j k); [contradiction|reflexivity]. }
  assert (Hb : Z.testbit (new_sync_levels syncs k value) k = Z.testbit value 0).
  { rewrite new_sync_levels_testbit by lia.
    destruct (Z.eq_dec k k); [reflexivity|contradiction]. }
  split; [exact Hb|].
  intros Hv. rewrite bit_set_testbit, Hb by lia.
  destruct Hv as [-> | ->]; reflexivity.
Qed.

Lemma sync_level_changes_one_bit_witness :
  exists status d' syncs' later,
    writeInt32 nominal PSSyncOut2Level 1 connected = Ret (status, d') /\
    log d' = later ++ EvPvAttrUint32Set "SyncOutGpoLevels" syncs'
                   :: EvPvAttrGet "SyncOutGpoLevels" :: log connected /\
    count is_write later = 0%nat /\
    (forall j, 0 <= j < 32 -> j <> 1 ->
       Z.testbit syncs' j
       = Z.testbit (default (indet nominal "syncs")
                      (snd (r_PvAttrUint32Get nominal "SyncOutGpoLevels"))) j) /\
    Z.testbit syncs' 1 = Z.testbit 1 0 /\
    (1 = 0 \/ 1 = 1 -> bit_set syncs' (Z.shiftl 1 1) = 1).
Proof.
  apply (sync_level_changes_one_bit nominal PSSyncOut2Level 1 1 connected).
  reflexivity.
Defined.

Lemma count_le P Q l :
  (forall e, P e = true -> Q e = true) -> (count P l <= count Q l)%nat.
Proof.
  intros H. induction l as [|e l IH]; [reflexivity|].
  cbn. destruct (P e) eqn:E.
  - rewrite (H e E). lia.
  - destruct (Q e); lia.
Qed.

Lemma sets_enum_is_write name value e : sets_enum name value e = true -> is_write e = true.
Proof. destruct e; cbn; try discriminate; reflexivity. Qed.

Lemma table_at_index modes value mode :
  In modes mode_tables -> table_at modes value = Some mode ->
  0 <= value /\ index_of mode modes = Some (Z.to_nat value).
Proof.
  intros Hin Ht. unfold table_at in Ht.
  destruct (value <? 0) eqn:Hneg; [discriminate|]. apply Z.ltb_ge in Hneg.
  split; [exact Hneg|].
  apply index_of_lookup; [apply mode_tables_NoDup, Hin|exact Ht].
Qed.

(** The three mode parameters of [readParameters] as the position of the
    string the camera reports, 0 when it is not in the table. *)
Lemma readParameters_modes w d p attr modes buffer :
  In (p, attr, modes) read_back_tables ->
  snd (r_PvAttrEnumGet w attr) = Some buffer ->
  intParams (snd (readParameters w d)) !! p
  = Some (match index_of buffer modes with Some i => Z.of_nat i | None => 0 end).
Proof.
  intros Hin Hb. cbn in Hin.
  repeat (destruct Hin as [Hin|Hin];
          [injection Hin as <- <- <-;
           cbn -[String.eqb default int32 uint32 index_of];
           rewrite Hb; cbn [default from_option]; unfold id;
           rewrite ?lookup_insert_ne by discriminate; apply lookup_insert_eq|]).
  contradiction.
Qed.

(** X12: for the three mode parameters that [readParameters] decodes
    (trigger mode, exposure mode and gain mode), [writeInt32] with an
    index within the table returns and sends the table's string to the
    parameter's attribute, once, as the only write of the call; and
    whenever the camera reports that string, [readParameters], and so
    the read-back that ends the write, leaves the parameter at the index
    written. *)
Theorem written_mode_reads_back w p attr modes value mode d :
  In (p, attr, modes) read_back_tables ->
  table_at modes value = Some mode ->
  exists status d',
    writeInt32 w p value d = Ret (status, d') /\
    count (sets_enum attr mode) (log d') = S (count (sets_enum attr mode) (log d)) /\
    count is_write (log d') = S (count is_write (log d)) /\
    (snd (r_PvAttrEnumGet w attr) = Some mode -> intParams d' !! p = Some value) /\
    (forall w' d2,
       snd (r_PvAttrEnumGet w' attr) = Some mode ->
       intParams (snd (readParameters w' d2)) !! p = Some value).
Proof.
  intros Hin Ht.
  assert (Hm : In modes mode_tables).
  { cbn in Hin. cbn.
    repeat (destruct Hin as [Hin|Hin]; [injection Hin as <- <- <-; tauto|]).
    contradiction. }
  destruct (table_at_index modes value mode Hm Ht) as [Hv Hi].
  assert (Hread : forall w' d2,
            snd (r_PvAttrEnumGet w' attr) = Some mode ->
            intParams (snd (readParameters w' d2)) !! p = Some value).
  { intros w' d2 Hb. rewrite (readParameters_modes w' d2 p attr modes mode Hin Hb), Hi.
    rewrite Z2Nat.id by exact Hv. reflexivity. }
  assert (Hd : exists status1,
             dispatch w p value (or_status asynSuccess asynSuccess)
               (snd (setIntegerParam p value d))
             = Ret (status1,
                    emit (EvPvAttrEnumSet attr mode) (snd (setIntegerParam p value d)))).
  { cbn in Hin.
    destruct Hin as [Hin|[Hin|[Hin|[]]]]; injection Hin as <- <- <-; cbn [dispatch].
    - assert (R : (value <? 0) || (value >? NUM_TRIGGER_START_MODES - 1) = false).
      { unfold table_at in Ht. destruct (value <? 0) eqn:N; [discriminate|].
        apply lookup_lt_Some in Ht. cbn in Ht.
        cbn [orb]. rewrite Z.gtb_ltb. apply Z.ltb_ge.
        change (NUM_TRIGGER_START_MODES - 1) with 6. lia. }
      rewrite R. unfold set_from_table. rewrite Ht. cbn [PvAttrEnumSet acc fst snd]. eauto.
    - unfold set_from_table. rewrite Ht. cbn [PvAttrEnumSet acc fst snd]. eauto.
    - unfold set_from_table. rewrite Ht. cbn [PvAttrEnumSet acc fst snd]. eauto. }
  destruct Hd as [status1 Hd].
  destruct (writeInt32_tail w p value d _ _ Hd)
    as (status & d' & later & Hw & _ & Hpar & Hl & Hn).
  exists status, d'. split; [exact Hw|].
  assert (Hn' : count (sets_enum attr mode) later = 0%nat).
  { pose proof (count_le (sets_enum attr mode) is_write later
                  (sets_enum_is_write attr mode)). lia. }
  split.
  { rewrite Hl, count_app, Hn'. cbn. rewrite !String.eqb_refl. reflexivity. }
  split.
  { rewrite Hl, count_app, Hn. reflexivity. }
  split; [|exact Hread].
  intros Hb. rewrite Hpar. apply Hread, Hb.
Qed.

Lemma written_mode_reads_back_witness :
  exists status d',
    writeInt32 nominal PSGainMode 2 connected = Ret (status, d') /\
    count (sets_enum "GainMode" "Auto") (log d')
    = S (count (sets_enum "GainMode" "Auto") (log connected)) /\
    count is_write (log d') = S (count is_write (log connected)) /\
    (snd (r_PvAttrEnumGet nominal "GainMode") = Some "Auto" ->
     intParams d' !! PSGainMode = Some 2) /\
    (forall w' d2,
       snd (r_PvAttrEnumGet w' "GainMode") = Some "Auto" ->
       intParams (snd (readParameters w' d2)) !! PSGainMode = Some 2).
Proof.
  apply (written_mode_reads_back nominal PSGainMode "GainMode" PSGainModes 2 "Auto"
           connected).
  - cbn. tauto.
  - reflexivity.
Defined.

(** ** Writing the region of interest *)







(** ** Link events *)

Lemma link_loop_no_match w ip Event UniqueId uniqueIP' nodes :
  Event = ePvLinkRemove ->
  Forall (fun d => uniqueId d <> UniqueId) nodes ->
  link_loop w ip Event UniqueId uniqueIP' nodes = ([], map passed_over nodes).
Proof.
  intros ->. induction 1 as [|d nodes Hd _ IH]; [reflexivity|].
  cbn [link_loop map]. unfold link_event. cbn [Z.eqb ePvLinkRemove ePvLinkAdd Pos.eqb].
  change (uniqueId (lock d)) with (uniqueId d).
  destruct (UniqueId =? uniqueId d) eqn:E; [apply Z.eqb_eq in E; congruence|].
  rewrite IH. reflexivity.
Qed.

(** X17: when a camera is unplugged, [cameraLinkCallback] disconnects the
    first driver of the list that has the camera's id, under that
    driver's lock, and stops there when the disconnection succeeds: the
    drivers before it are only locked and unlocked, those after it are
    not touched, and nothing is printed. *)
Theorem link_remove_disconnects_first_match w ip UniqueId before target after :
  Forall (fun d => uniqueId d <> UniqueId) before ->
  uniqueId target = UniqueId ->
  fst (disconnectCamera w (lock target)) = asynSuccess ->
  cameraLinkCallback w ip ePvLinkRemove UniqueId (before ++ target :: after)
  = ([], map passed_over before
         ++ unlock (snd (disconnectCamera w (lock target))) :: after).
Proof.
  intros Hb Ht Hs. unfold cameraLinkCallback. generalize 0 at 1. intros uniqueIP'.
  induction Hb as [|d before Hd _ IH].
  - cbn [app map link_loop]. unfold link_event.
    cbn [Z.eqb ePvLinkRemove ePvLinkAdd Pos.eqb].
    change (uniqueId (lock target)) with (uniqueId target).
    rewrite Ht, Z.eqb_refl.
    destruct (disconnectCamera w (lock target)) as [s d']. cbn [fst snd] in *.
    subst s. reflexivity.
  - cbn [app map link_loop]. unfold link_event at 1.
    cbn [Z.eqb ePvLinkRemove ePvLinkAdd Pos.eqb].
    change (uniqueId (lock d)) with (uniqueId d).
    destruct (UniqueId =? uniqueId d) eqn:E; [apply Z.eqb_eq in E; congruence|].
    rewrite IH. reflexivity.
Qed.

Lemma link_remove_disconnects_first_match_witness :
  cameraLinkCallback nominal (fun _ => 0) ePvLinkRemove 5001
    ([other_camera] ++ connected :: [other_camera])
  = ([], map passed_over [other_camera]
         ++ unlock (snd (disconnectCamera nominal (lock connected))) :: [other_camera]).
Proof.
  apply (link_remove_disconnects_first_match nominal (fun _ => 0) 5001
           [other_camera] connected [other_camera]).
  - apply Forall_cons_2; [vm_compute; discriminate | apply Forall_nil_2].
  - reflexivity.
  - vm_compute. reflexivity.
Defined.

(** X18: when a camera is plugged in, [cameraLinkCallback] connects the first
    driver of the list that has the camera's id, under that driver's
    lock, and stops there when the connection succeeds: among drivers
    that know their camera's id, those before it are only locked and
    unlocked, those after it are not touched, and nothing is printed. *)
Theorem link_add_connects_first_match w ip UniqueId before target after :
  UniqueId <> 0 ->
  Forall (fun d => uniqueId d <> 0 /\ uniqueId d <> UniqueId) before ->
  uniqueId target = UniqueId ->
  fst (connectCamera w (lock target)) = asynSuccess ->
  cameraLinkCallback w ip ePvLinkAdd UniqueId (before ++ target :: after)
  = ([], map passed_over before
         ++ unlock (snd (connectCamera w (lock target))) :: after).
Proof.
  intros Hn Hb Ht Hs. unfold cameraLinkCallback. generalize 0 at 1. intros uniqueIP'.
  induction Hb as [|d before [Hd0 Hd] _ IH].
  - cbn [app map link_loop]. unfold link_event.
    cbn [Z.eqb ePvLinkAdd Pos.eqb].
    change (uniqueId (lock target)) with (uniqueId target).
    rewrite Ht. apply Z.eqb_neq in Hn. rewrite Hn, Z.eqb_refl.
    destruct (connectCamera w (lock target)) as [s d']. cbn [fst snd] in *.
    subst s. reflexivity.
  - cbn [app map link_loop]. unfold link_event at 1.
    cbn [Z.eqb ePvLinkAdd Pos.eqb].
    change (uniqueId (lock d)) with (uniqueId d).
    apply Z.eqb_neq in Hd0. rewrite Hd0.
    destruct (UniqueId =? uniqueId d) eqn:E; [apply Z.eqb_eq in E; congruence|].
    rewrite IH. reflexivity.
Qed.

Lemma link_add_connects_first_match_witness :
  cameraLinkCallback nominal (fun _ => 0) ePvLinkAdd 5001
    ([other_camera] ++ unplugged :: [other_camera])
  = ([], map passed_over [other_camera]
         ++ unlock (snd (connectCamera nominal (lock unplugged))) :: [other_camera]).
Proof.
  apply (link_add_connects_first_match nominal (fun _ => 0) 5001
           [other_camera] unplugged [other_camera]).
  - discriminate.
  - apply Forall_cons_2; [split; vm_compute; discriminate | apply Forall_nil_2].
  - reflexivity.
  - vm_compute. reflexivity.
Defined.

Lemma link_loop_length w ip Event UniqueId uniqueIP' nodes :
  length (snd (link_loop w ip Event UniqueId uniqueIP' nodes)) = length nodes.
Proof.
  revert uniqueIP'. induction nodes as [|d l IH]; intros u; [reflexivity|].
  cbn [link_loop].
  destruct (link_event w ip Event UniqueId u (lock d)) as [[[found u'] out] d'].
  destruct found; [reflexivity|].
  specialize (IH u'). destruct (link_loop w ip Event UniqueId u' l) as [out' l'].
  cbn in *. congruence.
Qed.

Lemma link_loop_other_event w ip Event UniqueId uniqueIP' nodes :
  Event <> ePvLinkAdd -> Event <> ePvLinkRemove ->
  link_loop w ip Event UniqueId uniqueIP' nodes = ([], map passed_over nodes).
Proof.
  intros Ha Hr. apply Z.eqb_neq in Ha, Hr.
  revert uniqueIP'. induction nodes as [|d l IH]; intros u; [reflexivity|].
  cbn [link_loop map]. unfold link_event. rewrite Ha, Hr. rewrite IH. reflexivity.
Qed.

(** X19: [cameraLinkCallback] never adds a driver to the list nor drops one,
    and for an event that is neither an addition nor a removal it only
    locks and unlocks every driver and prints nothing. *)
Theorem link_callback_keeps_the_list w ip Event UniqueId cameraList :
  length (snd (cameraLinkCallback w ip Event UniqueId cameraList)) = length cameraList /\
  (Event <> ePvLinkAdd -> Event <> ePvLinkRemove ->
   cameraLinkCallback w ip Event UniqueId cameraList = ([], map passed_over cameraList)).
Proof.
  split; [apply link_loop_length|apply link_loop_other_event].
Qed.
